(** * Team payroll system: employees, time entries and pay calculation

    A shallow embedding of [payroll_system.py]: the [EmployeeDatabase],
    [TimeTracker] and [PayrollCalculator] classes over the two SQLite tables
    they share, followed by the properties of the system specification that
    concern them.

    Layout:
    - [Binary64]: Python's [float] and SQLite's REAL, IEEE 754 binary64;
    - [Py]: the Python builtins the code calls ([min], [max], [round],
      [or], [str.strip], [date.isoformat]);
    - [Sql]: the two tables, their constraints and the statements the code
      executes;
    - the three classes, method by method, the payroll report and the
      unit tests of the module;
    - the theorems: first those of the system specification, then further
      properties of the methods (arguments accepted and refused, what an
      exception leaves behind, invariants of the database, what a call
      leaves untouched, signs of the amounts, dates, the report). *)

From Stdlib Require Import ZArith Bool Ascii String Floats.SpecFloat Lia.
From stdpp Require Import base tactics option list sorting gmap strings.

Local Open Scope Z_scope.

(* ===================================================================== *)
(** ** Binary64 arithmetic *)
(* ===================================================================== *)

(** Python floats and SQLite REAL values are IEEE 754 double precision
    numbers.  They are represented by [spec_float] at precision 53 with
    round-to-nearest-even, the only rounding mode CPython and SQLite use. *)
Module Binary64.

Definition prec : Z := 53.
Definition emax : Z := 1024.

Definition float : Type := spec_float.

Definition valid (x : float) : bool := valid_binary prec emax x.

Definition add : float -> float -> float := SFadd prec emax.
Definition sub : float -> float -> float := SFsub prec emax.
Definition mul : float -> float -> float := SFmul prec emax.
Definition div : float -> float -> float := SFdiv prec emax.
Definition abs : float -> float := SFabs.

Definition ltb : float -> float -> bool := SFltb.
Definition leb : float -> float -> bool := SFleb.
Definition eqb : float -> float -> bool := SFeqb.

Definition zero : float := S754_zero false.

Definition is_nan (x : float) : bool :=
  match x with S754_nan => true | _ => false end.

Definition is_finite (x : float) : bool :=
  match x with S754_nan | S754_infinity _ => false | _ => true end.

(** The float nearest to an integer ([float(n)] in Python). *)
Definition of_Z (n : Z) : float := binary_normalize prec emax n 0 false.

(** The float a decimal literal [n / 10^k] denotes: the literal is read
    with correct rounding, which is what dividing the two exactly
    represented integers yields (for [n] and [10^k] below [2^53]). *)
Definition decimal (n : Z) (k : nat) : float :=
  div (of_Z n) (of_Z (10 ^ Z.of_nat k)).

End Binary64.

Abbreviation float := Binary64.float.

Declare Scope float_scope.
Delimit Scope float_scope with float.
Infix "+" := Binary64.add : float_scope.
Infix "-" := Binary64.sub : float_scope.
Infix "*" := Binary64.mul : float_scope.
Infix "<?" := Binary64.ltb : float_scope.
Infix "<=?" := Binary64.leb : float_scope.
Infix "=?" := Binary64.eqb : float_scope.

(* ===================================================================== *)
(** ** Python builtins *)
(* ===================================================================== *)

Module Py.

(** A [str] is represented by a [string] whose characters are its code
    points, all below 256; a [float] by a binary64 number. *)

(** [min(a, b)]: the first argument unless the second is smaller. *)
Definition min (a b : float) : float := if (b <? a)%float then b else a.

(** [max(a, b)]: the first argument unless the second is larger. *)
Definition max (a b : float) : float := if (a <? b)%float then b else a.

(** Truth value of a float: every float but the two zeros is true. *)
Definition truthy (x : float) : bool := negb (x =? Binary64.zero)%float.

(** [x or d] where [x] is a float or [None]. *)
Definition or_else (x : option float) (d : float) : float :=
  match x with
  | Some v => if truthy v then v else d
  | None => d
  end.

(** Nearest integer to [n / d], ties to the even one ([0 < d]). *)
Definition div_half_even (n d : Z) : Z :=
  let q := n / d in
  let r := n mod d in
  match 2 * r ?= d with
  | Lt => q
  | Gt => q + 1
  | Eq => if Z.even q then q else q + 1
  end.

(** [round(x, 2)] on a float.  Infinities and NaN round to themselves.
    A finite [x] is first rounded, as an exact binary fraction, to the
    nearest multiple of 1/100 (ties to even), and the float nearest to
    that decimal is returned; the sign of [x] is kept, also on a zero
    result. *)
Definition round2 (x : float) : float :=
  match x with
  | S754_finite s m e =>
      if 0 <=? e then x
      else
        match div_half_even (100 * Z.pos m) (2 ^ (- e)) with
        | Z.pos n =>
            SFdiv Binary64.prec Binary64.emax
              (S754_finite s n 0) (S754_finite false 100 0)
        | _ => S754_zero s
        end
  | _ => x
  end.

(** Whitespace as [str.strip] sees it, for characters below 256: tab to
    carriage return, the four separators 0x1c-0x1f, space, NEL and the
    no-break space. *)
Definition isspace (c : ascii) : bool :=
  let n := N_of_ascii c in
  ((9 <=? n) && (n <=? 13) || (28 <=? n) && (n <=? 32)
   || (n =? 133) || (n =? 160))%N.

Fixpoint lstrip (s : string) : string :=
  match s with
  | String c s' => if isspace c then lstrip s' else s
  | EmptyString => EmptyString
  end.

Fixpoint rstrip (s : string) : string :=
  match s with
  | EmptyString => EmptyString
  | String c s' =>
      match rstrip s' with
      | EmptyString => if isspace c then EmptyString else String c EmptyString
      | r => String c r
      end
  end.

(** [s.strip()] *)
Definition strip (s : string) : string := rstrip (lstrip s).

(** [not s] for a string: true on the empty string only. *)
Definition not_str (s : string) : bool :=
  match s with EmptyString => true | _ => false end.

(** [datetime.date] and its [isoformat()], YYYY-MM-DD. *)
Record date : Type := Date { year : Z; month : Z; day : Z }.

Definition digit (n : Z) : ascii := ascii_of_N (Z.to_N (48 + n mod 10)).

Definition digits2 (n : Z) : string :=
  String (digit (n / 10)) (String (digit n) EmptyString).

Definition isoformat (d : date) : string :=
  (digits2 (year d / 100) ++ digits2 (year d) ++ "-"
   ++ digits2 (month d) ++ "-" ++ digits2 (day d))%string.

End Py.

Abbreviation date := Py.date.

(* ===================================================================== *)
(** ** Exceptions and commands *)
(* ===================================================================== *)

(** What an SQLite statement reports when a row breaks a constraint of the
    schema; [sqlite3] raises it as [IntegrityError]. *)
Inductive violation : Type :=
| NotNullFailed (column : string)
| CheckFailed (column : string)
| UniqueFailed (column : string)
| ForeignKeyFailed.

(** The exceptions the three classes raise: their own [ValueError] and
    [KeyError], and from [sqlite3] the [IntegrityError] of a statement
    that breaks a constraint and the [OverflowError] of an [int] that
    does not fit an INTEGER. *)
Inductive exn : Type :=
| ValueError (msg : string)
| KeyError (msg : string)
| IntegrityError (v : violation)
| OverflowError (msg : string).

(** The Python class of an exception, what an [except] clause matches. *)
Inductive exn_class : Type :=
| ValueError_class
| KeyError_class
| IntegrityError_class
| OverflowError_class.

Definition class_of (e : exn) : exn_class :=
  match e with
  | ValueError _ => ValueError_class
  | KeyError _ => KeyError_class
  | IntegrityError _ => IntegrityError_class
  | OverflowError _ => OverflowError_class
  end.

Inductive result (A : Type) : Type :=
| Ok (a : A)
| Raise (e : exn).
Arguments Ok {A} a.
Arguments Raise {A} e.

(** Sequencing of computations that may raise and do not write. *)
Definition bind_result {A B} (r : result A) (k : A -> result B) : result B :=
  match r with
  | Ok a => k a
  | Raise e => Raise e
  end.

(* ===================================================================== *)
(** ** The SQLite database *)
(* ===================================================================== *)

Module Sql.

(** Columns of [employees] other than the key. *)
Record employee : Type := Employee {
  emp_name : string;
  emp_hourly_rate : float;
  emp_dependents : Z
}.

(** A row of [time_entries]. *)
Record time_entry : Type := TimeEntry {
  entry_id : Z;
  employee_id : string;
  entry_date : string;
  regular_hours : float;
  overtime_hours : float
}.

(** The database file both classes open: [employees] keyed by its
    primary key [id], [time_entries] in rowid order, and the largest
    [entry_id] handed out so far (AUTOINCREMENT). *)
Record database : Type := Database {
  employees : gmap string employee;
  time_entries : list time_entry;
  entry_seq : Z
}.

Definition empty : database :=
  {| employees := ∅; time_entries := []; entry_seq := 0 |}.

(** How the linked SQLite library adds floats in [SUM]: a running
    double-precision sum, or (from 3.44 on) the Kahan-Babuska-Neumaier
    compensated sum. *)
Inductive summation : Type := RunningSum | CompensatedSum.

(** A connection.  Foreign-key clauses are enforced on a connection only
    while its [foreign_keys] pragma is on. *)
Record connection : Type := Connection {
  foreign_keys : bool;
  sum_algorithm : summation
}.

(** [sqlite3.connect(path)]: the pragma is off on a new connection, and
    nothing in the program turns it on. *)
Definition connect (lib : summation) : connection :=
  {| foreign_keys := false; sum_algorithm := lib |}.

(** A command: a statement or a method that may write and may raise.
    The database value is the content of the two tables.  Every method
    commits after its statement, so that the tables are all there is to
    the state as long as no statement fails; a statement that fails
    changes no row, but it leaves its connection inside a transaction,
    and what that does to later writes through the other connection is
    outside this description. *)
Definition command (A : Type) : Type := database -> result A * database.

Definition ret {A} (a : A) : command A := fun db => (Ok a, db).
Definition throw {A} (e : exn) : command A := fun db => (Raise e, db).
Definition bind {A B} (c : command A) (k : A -> command B) : command B :=
  fun db =>
    match c db with
    | (Ok a, db') => k a db'
    | (Raise e, db') => (Raise e, db')
    end.
Definition query {A} (q : database -> A) : command A :=
  fun db => (Ok (q db), db).

(** A Python float bound to a column of REAL affinity: NaN is stored as
    NULL, both zeros as 0.0, any other value unchanged. *)
Definition to_REAL (x : float) : option float :=
  match x with
  | S754_nan => None
  | S754_zero _ => Some Binary64.zero
  | _ => Some x
  end.

(** A Python [int] bound to a statement: [sqlite3] binds it as a 64-bit
    INTEGER and raises [OverflowError] when it does not fit, before the
    statement runs. *)
Definition fits_INTEGER (n : Z) : bool := (- 2 ^ 63 <=? n) && (n <? 2 ^ 63).

Definition int_too_large : exn :=
  OverflowError "Python int too large to convert to SQLite INTEGER".

(** The row [id] as a query returns it. *)
Record Row : Type := MkRow {
  id : string;
  name : string;
  hourly_rate : float;
  dependents : Z
}.

Definition row_of (k : string) (e : employee) : Row :=
  {| id := k; name := emp_name e; hourly_rate := emp_hourly_rate e;
     dependents := emp_dependents e |}.

(** [SELECT * FROM employees WHERE id = ?] and [fetchone()] *)
Definition select_employee (k : string) (db : database) : option Row :=
  row_of k <$> employees db !! k.

(** [INSERT INTO employees (id, name, hourly_rate, dependents)
     VALUES (?, ?, ?, ?)].  The parameters are bound first; then the row
    must pass NOT NULL, then the two CHECKs, then the uniqueness of the
    primary key. *)
Definition insert_employee (k nm : string) (rate : float) (deps : Z)
  : command unit :=
  fun db =>
    if negb (fits_INTEGER deps) then (Raise int_too_large, db)
    else
    match to_REAL rate with
    | None => (Raise (IntegrityError (NotNullFailed "hourly_rate")), db)
    | Some r =>
        if negb (Binary64.zero <=? r)%float then
          (Raise (IntegrityError (CheckFailed "hourly_rate")), db)
        else if deps <? 0 then
          (Raise (IntegrityError (CheckFailed "dependents")), db)
        else
          match employees db !! k with
          | Some _ => (Raise (IntegrityError (UniqueFailed "id")), db)
          | None =>
              (Ok tt,
               {| employees := <[k := Employee nm r deps]> (employees db);
                  time_entries := time_entries db;
                  entry_seq := entry_seq db |})
          end
    end.

(** One [column = ?] of an UPDATE's SET list with its bound value. *)
Inductive assignment : Type :=
| SetName (nm : string)
| SetHourlyRate (rate : float)
| SetDependents (deps : Z).

(** The columns of a row after one assignment. *)
Definition assign (e : employee) (a : assignment) : employee :=
  match a with
  | SetName nm => Employee nm (emp_hourly_rate e) (emp_dependents e)
  | SetHourlyRate r =>
      Employee (emp_name e) (default (emp_hourly_rate e) (to_REAL r))
        (emp_dependents e)
  | SetDependents d => Employee (emp_name e) (emp_hourly_rate e) d
  end.

(** An UPDATE checks the constraints of the columns it assigns, and of no
    other: first every NOT NULL, then every CHECK. *)
Definition not_null_of (a : assignment) : option violation :=
  match a with
  | SetHourlyRate r =>
      match to_REAL r with
      | None => Some (NotNullFailed "hourly_rate")
      | Some _ => None
      end
  | _ => None
  end.

Definition check_of (a : assignment) : option violation :=
  match a with
  | SetName _ => None
  | SetHourlyRate r =>
      match to_REAL r with
      | Some v =>
          if negb (Binary64.zero <=? v)%float
          then Some (CheckFailed "hourly_rate") else None
      | None => None
      end
  | SetDependents d => if d <? 0 then Some (CheckFailed "dependents") else None
  end.

Fixpoint first_violation (f : assignment -> option violation)
    (sets : list assignment) : option violation :=
  match sets with
  | [] => None
  | a :: sets' =>
      match f a with
      | Some v => Some v
      | None => first_violation f sets'
      end
  end.

(** Whether the value of an assignment can be bound. *)
Definition binds (a : assignment) : bool :=
  match a with
  | SetDependents d => fits_INTEGER d
  | _ => true
  end.

(** [UPDATE employees SET ... WHERE id = ?]: the parameters are bound
    first; no row matching is not an error. *)
Definition update_employee (sets : list assignment) (k : string)
  : command unit :=
  fun db =>
    if negb (forallb binds sets) then (Raise int_too_large, db)
    else
    match employees db !! k with
    | None => (Ok tt, db)
    | Some e =>
        match
          first_violation not_null_of sets, first_violation check_of sets
        with
        | Some v, _ | None, Some v => (Raise (IntegrityError v), db)
        | None, None =>
            (Ok tt,
             {| employees := <[k := fold_left assign sets e]> (employees db);
                time_entries := time_entries db;
                entry_seq := entry_seq db |})
        end
    end.

(** [DELETE FROM employees WHERE id = ?].  The ON DELETE CASCADE clause
    of [time_entries.employee_id] removes the referencing entries only
    on a connection that enforces foreign keys. *)
Definition delete_employee (c : connection) (k : string) : command unit :=
  fun db =>
    (Ok tt,
     {| employees := delete k (employees db);
        time_entries :=
          if foreign_keys c
          then filter (fun t => employee_id t ≠ k) (time_entries db)
          else time_entries db;
        entry_seq := entry_seq db |}).

(** Ascending order of the BINARY collation on TEXT. *)
Definition id_le (r1 r2 : Row) : Prop := (id r1 <=? id r2)%string = true.

Global Instance id_le_dec r1 r2 : Decision (id_le r1 r2).
Proof. unfold id_le. apply _. Defined.

(** [SELECT * FROM employees ORDER BY id] and [fetchall()] *)
Definition select_employees_by_id (db : database) : list Row :=
  merge_sort id_le (uncurry row_of <$> map_to_list (employees db)).

(** [INSERT INTO time_entries (employee_id, entry_date, regular_hours,
     overtime_hours) VALUES (?, ?, ?, ?)].  The row must pass the two
    NOT NULLs, then the two CHECKs, and, where foreign keys are enforced,
    reference an employee. *)
Definition insert_time_entry (c : connection) (k day : string) (reg ot : float)
  : command unit :=
  fun db =>
    match to_REAL reg, to_REAL ot with
    | None, _ => (Raise (IntegrityError (NotNullFailed "regular_hours")), db)
    | _, None => (Raise (IntegrityError (NotNullFailed "overtime_hours")), db)
    | Some r, Some o =>
        if negb (Binary64.zero <=? r)%float then
          (Raise (IntegrityError (CheckFailed "regular_hours")), db)
        else if negb (Binary64.zero <=? o)%float then
          (Raise (IntegrityError (CheckFailed "overtime_hours")), db)
        else if foreign_keys c
                && negb (bool_decide (is_Some (employees db !! k))) then
          (Raise (IntegrityError ForeignKeyFailed), db)
        else
          (Ok tt,
           {| employees := employees db;
              time_entries :=
                time_entries db ++ [TimeEntry (entry_seq db + 1) k day r o];
              entry_seq := entry_seq db + 1 |})
    end.

(** The entries of one employee, [WHERE employee_id = ?] *)
Definition entries_of (k : string) (db : database) : list time_entry :=
  filter (fun t => employee_id t = k) (time_entries db).

(** One step of the compensated sum: the running sum and its error
    term. *)
Definition kbn_step (acc : float * float) (r : float) : float * float :=
  let '(s, err) := acc in
  let t := (s + r)%float in
  if (Binary64.abs r <? Binary64.abs s)%float
  then (t, (err + ((s - t) + r))%float)
  else (t, (err + ((r - t) + s))%float).

Definition kbn_result (acc : float * float) : float :=
  let '(s, err) := acc in
  if Binary64.is_finite err then (s + err)%float else s.

(** The float [SUM] adds up from the values of the selected rows. *)
Definition sum_floats (a : summation) (xs : list float) : float :=
  match a with
  | RunningSum => fold_left Binary64.add xs Binary64.zero
  | CompensatedSum =>
      kbn_result (fold_left kbn_step xs (Binary64.zero, Binary64.zero))
  end.

(** [SUM(column)] as Python receives it: NULL over no rows, and NULL for
    a NaN, both of which arrive as [None]. *)
Definition SUM (a : summation) (xs : list float) : option float :=
  match xs with
  | [] => None
  | _ => let s := sum_floats a xs in
         if Binary64.is_nan s then None else Some s
  end.

(** Ascending order of the date texts. *)
Definition date_le (t1 t2 : time_entry) : Prop :=
  (entry_date t1 <=? entry_date t2)%string = true.

Global Instance date_le_dec t1 t2 : Decision (date_le t1 t2).
Proof. unfold date_le. apply _. Defined.

(** A row put into rows sorted by date, before the first row whose date
    is not earlier. *)
Fixpoint insert_by_date (t : time_entry) (l : list time_entry)
  : list time_entry :=
  match l with
  | [] => [t]
  | t' :: l' =>
      if decide (date_le t t') then t :: l else t' :: insert_by_date t l'
  end.

(** [SELECT * FROM time_entries WHERE employee_id = ? ORDER BY entry_date]
    and [fetchall()].  Rows with one date come in rowid order, which is
    how SQLite's sorter returns them; SQL itself leaves their order
    open. *)
Definition select_entries_by_date (k : string) (db : database)
  : list time_entry :=
  foldr insert_by_date [] (entries_of k db).

End Sql.

Notation "'let!' x ':=' c 'in' k" := (Sql.bind c (fun x => k))
  (at level 10, x name, c at level 100, k at level 200, only parsing).
Notation "c ';;;' k" := (Sql.bind c (fun _ => k))
  (at level 100, k at level 200, right associativity, only parsing).

(* ===================================================================== *)
(** ** Module 2: [EmployeeDatabase] *)
(* ===================================================================== *)

Module EmployeeDatabase.
Import Sql.

(** The object holds one connection to the database file. *)
Record t : Type := New { _conn : connection }.

(** [EmployeeDatabase(db_path)].  On a new file [_create_tables] leaves
    the two tables empty, which is [Sql.empty]; on an existing file it
    changes nothing. *)
Definition __init__ (lib : summation) : t := {| _conn := connect lib |}.

Definition get_employee (self : t) (employee_id : string) (db : database)
  : option Row :=
  select_employee employee_id db.

Definition add_employee (self : t) (employee_id name : string)
    (hourly_rate : float) (dependents : Z) : command unit :=
  let employee_id := Py.strip employee_id in
  let name := Py.strip name in
  if Py.not_str employee_id then
    throw (ValueError "Employee ID cannot be empty")
  else if Py.not_str name then
    throw (ValueError "Employee name cannot be empty")
  else if (hourly_rate <? Binary64.zero)%float then
    throw (ValueError "Hourly rate must be non‑negative")
  else if dependents <? 0 then
    throw (ValueError "Dependents must be non‑negative")
  else
    let! existing := query (get_employee self employee_id) in
    match existing with
    | Some _ =>
        throw (ValueError
                 ("Employee with ID '" ++ employee_id ++ "' already exists"))
    | None => insert_employee employee_id name hourly_rate dependents
    end.

(** The three [if ... is not None] blocks of [update_employee], each
    either raising or extending the SET list. *)
Definition name_update (name : option string) (updates : list assignment)
  : result (list assignment) :=
  match name with
  | Some name =>
      let name := Py.strip name in
      if Py.not_str name then
        Raise (ValueError "Employee name cannot be empty")
      else Ok (updates ++ [SetName name])
  | None => Ok updates
  end.

Definition hourly_rate_update (hourly_rate : option float)
    (updates : list assignment) : result (list assignment) :=
  match hourly_rate with
  | Some hourly_rate =>
      if (hourly_rate <? Binary64.zero)%float then
        Raise (ValueError "Hourly rate must be non‑negative")
      else Ok (updates ++ [SetHourlyRate hourly_rate])
  | None => Ok updates
  end.

Definition dependents_update (dependents : option Z)
    (updates : list assignment) : result (list assignment) :=
  match dependents with
  | Some dependents =>
      if dependents <? 0 then
        Raise (ValueError "Dependents must be non‑negative")
      else Ok (updates ++ [SetDependents dependents])
  | None => Ok updates
  end.

Definition update_employee (self : t) (employee_id : string)
    (name : option string) (hourly_rate : option float)
    (dependents : option Z) : command unit :=
  let! row := query (get_employee self employee_id) in
  match row with
  | None => throw (KeyError ("Employee '" ++ employee_id ++ "' not found"))
  | Some _ =>
      match
        bind_result (name_update name []) (fun updates =>
        bind_result (hourly_rate_update hourly_rate updates) (fun updates =>
        dependents_update dependents updates))
      with
      | Raise e => throw e
      | Ok [] => throw (ValueError "No updates provided")
      | Ok updates => Sql.update_employee updates employee_id
      end
  end.

Definition delete_employee (self : t) (employee_id : string) : command unit :=
  Sql.delete_employee (_conn self) employee_id.

Definition list_employees (self : t) (db : database) : list Row :=
  select_employees_by_id db.

End EmployeeDatabase.

(* ===================================================================== *)
(** ** Module 3: [TimeTracker] *)
(* ===================================================================== *)

Module TimeTracker.
Import Sql.

Record t : Type := New {
  _conn : connection;
  overtime_threshold : float
}.

(** [TimeTracker(db_path, overtime_threshold)] *)
Definition __init__ (lib : summation) (overtime_threshold : float) : t :=
  {| _conn := connect lib; overtime_threshold := overtime_threshold |}.

(** The default value of the [overtime_threshold] argument, [40.0]. *)
Definition default_threshold : float := Binary64.of_Z 40.

(** The split of lines 257-258. *)
Definition reg_hours (self : t) (hours_worked : float) : float :=
  Py.min hours_worked (overtime_threshold self).

Definition ot_hours (self : t) (hours_worked : float) : float :=
  Py.max Binary64.zero (hours_worked - overtime_threshold self)%float.

(** [record_hours]; [today] is what [date.today()] returns at the call.
    The existence check runs on a connection of its own and only
    reads. *)
Definition record_hours (self : t) (today : date) (employee_id : string)
    (hours_worked : float) (entry_date : option date) : command unit :=
  if (hours_worked <? Binary64.zero)%float then
    throw (ValueError "Hours worked cannot be negative")
  else
    let! found := query (select_employee employee_id) in
    match found with
    | None =>
        throw (ValueError ("Employee '" ++ employee_id ++ "' does not exist"))
    | Some _ =>
        let entry_date := default today entry_date in
        insert_time_entry (_conn self) employee_id (Py.isoformat entry_date)
          (reg_hours self hours_worked) (ot_hours self hours_worked)
    end.

Definition get_time_entries (self : t) (employee_id : string) (db : database)
  : list time_entry :=
  select_entries_by_date employee_id db.

Definition summarise_hours (self : t) (employee_id : string) (db : database)
  : float * float :=
  let rows := entries_of employee_id db in
  let regular_sum :=
    Py.or_else (SUM (sum_algorithm (_conn self)) (regular_hours <$> rows))
      Binary64.zero in
  let overtime_sum :=
    Py.or_else (SUM (sum_algorithm (_conn self)) (overtime_hours <$> rows))
      Binary64.zero in
  (regular_sum, overtime_sum).

End TimeTracker.

(* ===================================================================== *)
(** ** Module 4: [PayrollCalculator] *)
(* ===================================================================== *)

Record PayResult : Type := MkPayResult {
  employee_id : string;
  name : string;
  hours_worked : float;
  hourly_rate : float;
  regular_hours : float;
  overtime_hours : float;
  gross_pay : float;
  state_tax : float;
  federal_tax : float;
  net_pay : float
}.

Module PayrollCalculator.

Definition STATE_TAX_RATE : float := Binary64.decimal 56 3.
Definition FEDERAL_TAX_RATE : float := Binary64.decimal 79 3.
Definition OVERTIME_MULTIPLIER : float := Binary64.decimal 15 1.

Record t : Type := New {
  employee_db : EmployeeDatabase.t;
  time_tracker : TimeTracker.t
}.

Definition __init__ (employee_db : EmployeeDatabase.t)
    (time_tracker : TimeTracker.t) : t :=
  {| employee_db := employee_db; time_tracker := time_tracker |}.

(** The unrounded amounts of lines 339-342: the gross pay, and the net
    pay, gross less the two unrounded taxes. *)
Definition gross (reg_hours ot_hours hourly_rate : float) : float :=
  ((reg_hours * hourly_rate)
   + ((ot_hours * hourly_rate) * OVERTIME_MULTIPLIER))%float.

Definition net (gross : float) : float :=
  ((gross - gross * STATE_TAX_RATE) - gross * FEDERAL_TAX_RATE)%float.

Definition calculate_employee_pay (self : t) (employee_id : string)
    (db : Sql.database) : result PayResult :=
  match EmployeeDatabase.get_employee (employee_db self) employee_id db with
  | None => Raise (KeyError ("Employee '" ++ employee_id ++ "' not found"))
  | Some row =>
      let name := Sql.name row in
      let hourly_rate := Sql.hourly_rate row in
      let '(reg_hours, ot_hours) :=
        TimeTracker.summarise_hours (time_tracker self) employee_id db in
      let total_hours := (reg_hours + ot_hours)%float in
      let gross := gross reg_hours ot_hours hourly_rate in
      let state_tax := (gross * STATE_TAX_RATE)%float in
      let federal_tax := (gross * FEDERAL_TAX_RATE)%float in
      let net := ((gross - state_tax) - federal_tax)%float in
      Ok {| employee_id := employee_id;
            name := name;
            hours_worked := total_hours;
            hourly_rate := hourly_rate;
            regular_hours := reg_hours;
            overtime_hours := ot_hours;
            gross_pay := Py.round2 gross;
            state_tax := Py.round2 state_tax;
            federal_tax := Py.round2 federal_tax;
            net_pay := Py.round2 net |}
  end.

(** The loop of [calculate_all]: one [append] per listed row, stopping
    at the first exception. *)
Fixpoint calculate_rows (self : t) (rows : list Sql.Row)
    (results : list PayResult) (db : Sql.database)
  : result (list PayResult) :=
  match rows with
  | [] => Ok results
  | row :: rows' =>
      bind_result (calculate_employee_pay self (Sql.id row) db)
        (fun pay => calculate_rows self rows' (results ++ [pay]) db)
  end.

Definition calculate_all (self : t) (db : Sql.database)
  : result (list PayResult) :=
  calculate_rows self
    (EmployeeDatabase.list_employees (employee_db self) db) [] db.

End PayrollCalculator.

(* ===================================================================== *)
(** ** Module 5: the payroll report *)
(* ===================================================================== *)

Module Report.

(** A value of a report dictionary: a string or a float. *)
Inductive cell : Type :=
| Str (s : string)
| Num (x : float).

(** A dictionary of the report, its items in insertion order. *)
Definition row : Type := list (string * cell).

(** The dictionary built for one pay result. *)
Definition row_of (pay_result : PayResult) : row :=
  [ ("Employee ID", Str (employee_id pay_result));
    ("Name", Str (name pay_result));
    ("Hours Worked", Num (hours_worked pay_result));
    ("Regular Hours", Num (regular_hours pay_result));
    ("Overtime Hours", Num (overtime_hours pay_result));
    ("Hourly Rate", Num (hourly_rate pay_result));
    ("Gross Pay", Num (gross_pay pay_result));
    ("State Tax", Num (state_tax pay_result));
    ("Federal Tax", Num (federal_tax pay_result));
    ("Net Pay", Num (net_pay pay_result)) ].

(** The loop of [generate_payroll_report]: one [append] per pay result. *)
Fixpoint append_rows (pay_results : list PayResult) (report : list row)
  : list row :=
  match pay_results with
  | [] => report
  | pay_result :: rest => append_rows rest (report ++ [row_of pay_result])
  end.

Definition generate_payroll_report (calculator : PayrollCalculator.t)
    (db : Sql.database) : result (list row) :=
  bind_result (PayrollCalculator.calculate_all calculator db)
    (fun pay_results => Ok (append_rows pay_results [])).

(** [row[key]], [None] standing for a [KeyError]. *)
Fixpoint get (key : string) (r : row) : option cell :=
  match r with
  | [] => None
  | (k, v) :: r' => if decide (k = key) then Some v else get key r'
  end.

End Report.

(* ===================================================================== *)
(** ** Sample data *)
(* ===================================================================== *)

(** The objects and rows of [_run_tests] and a few more, used to
    instantiate the theorems below. *)
Module Sample.

Definition emp_db (lib : Sql.summation) : EmployeeDatabase.t :=
  EmployeeDatabase.__init__ lib.

Definition time_tracker (lib : Sql.summation) : TimeTracker.t :=
  TimeTracker.__init__ lib TimeTracker.default_threshold.

Definition calc (lib : Sql.summation) : PayrollCalculator.t :=
  PayrollCalculator.__init__ (emp_db lib) (time_tracker lib).

Definition today : date := Py.Date 2025 1 15.

(** The database a command leaves behind. *)
Definition after {A} (c : Sql.command A) (db : Sql.database) : Sql.database :=
  snd (c db).

(** [emp_db.add_employee("T001", "Test User", 25.0)] *)
Definition db_T001 (lib : Sql.summation) : Sql.database :=
  after (EmployeeDatabase.add_employee (emp_db lib)
           "T001" "Test User" (Binary64.of_Z 25) 0) Sql.empty.

(** ... [emp_db.add_employee("T002", "Overtime User", 10.0)] *)
Definition db_T002 (lib : Sql.summation) : Sql.database :=
  after (EmployeeDatabase.add_employee (emp_db lib)
           "T002" "Overtime User" (Binary64.of_Z 10) 0) (db_T001 lib).

(** ... [time_tracker.record_hours("T002", 50)] *)
Definition db_T002_50 (lib : Sql.summation) : Sql.database :=
  after (TimeTracker.record_hours (time_tracker lib) today
           "T002" (Binary64.of_Z 50) None) (db_T002 lib).

(** ... [emp_db.delete_employee("T002")] *)
Definition db_deleted (lib : Sql.summation) : Sql.database :=
  after (EmployeeDatabase.delete_employee (emp_db lib) "T002") (db_T002_50 lib).

(** An employee paid 20 an hour, for the two-recordings scenarios. *)
Definition db_E020 (lib : Sql.summation) : Sql.database :=
  after (EmployeeDatabase.add_employee (emp_db lib)
           "E020" "Split User" (Binary64.of_Z 20) 0) Sql.empty.

(** An employee paid 15.50 an hour who worked 37 hours. *)
Definition db_E155 (lib : Sql.summation) : Sql.database :=
  after (TimeTracker.record_hours (time_tracker lib) today
           "E155" (Binary64.of_Z 37) None)
    (after (EmployeeDatabase.add_employee (emp_db lib)
              "E155" "Cent User" (Binary64.decimal 155 1) 0) Sql.empty).

(** A tracker whose threshold is 7.6 hours, and one whose threshold is
    negative. *)
Definition daily_tracker (lib : Sql.summation) : TimeTracker.t :=
  TimeTracker.__init__ lib (Binary64.decimal 76 1).

Definition negative_tracker (lib : Sql.summation) : TimeTracker.t :=
  TimeTracker.__init__ lib (Binary64.of_Z (-5)).

End Sample.

(* ===================================================================== *)
(** ** The unit tests of the module *)
(* ===================================================================== *)

Module Tests.

(** How a run of [_run_tests] ends: it reaches the final [print], an
    [assert] or an [else: raise AssertionError(...)] fires, an exception
    the test does not catch escapes, or a missing row is subscripted. *)
Inductive outcome : Type :=
| AllTestsPassed
| AssertionError (msg : string)
| Uncaught (e : exn)
| TypeError.

Definition class_eqb (c1 c2 : exn_class) : bool :=
  match c1, c2 with
  | ValueError_class, ValueError_class
  | KeyError_class, KeyError_class
  | IntegrityError_class, IntegrityError_class
  | OverflowError_class, OverflowError_class => true
  | _, _ => false
  end.

(** A call outside any [try]: an exception escapes. *)
Definition call {A} (c : Sql.command A) (db : Sql.database)
    (k : A -> Sql.database -> outcome) : outcome :=
  match c db with
  | (Ok a, db') => k a db'
  | (Raise e, _) => Uncaught e
  end.

(** [try: c  except cls: pass  else: raise AssertionError(msg)] *)
Definition expect_raise {A} (cls : exn_class) (msg : string)
    (c : Sql.command A) (db : Sql.database) (k : Sql.database -> outcome)
  : outcome :=
  match c db with
  | (Ok _, _) => AssertionError msg
  | (Raise e, db') => if class_eqb (class_of e) cls then k db' else Uncaught e
  end.

(** [assert b] *)
Definition assert_that (b : bool) (k : outcome) : outcome :=
  if b then k else AssertionError "".

(** [_run_tests()] on a database file that did not exist. *)
Definition _run_tests (lib : Sql.summation) (today : date) : outcome :=
  let emp_db := EmployeeDatabase.__init__ lib in
  let time_tracker := TimeTracker.__init__ lib TimeTracker.default_threshold in
  let calc := PayrollCalculator.__init__ emp_db time_tracker in
  let db := Sql.empty in
  call (EmployeeDatabase.add_employee emp_db "T001" "Test User"
          (Binary64.of_Z 25) 0) db (fun _ db =>
  match EmployeeDatabase.get_employee emp_db "T001" db with
  | None => TypeError
  | Some row =>
  assert_that (bool_decide (Sql.name row = "Test User")) (
  expect_raise ValueError_class "Duplicate employee ID should raise ValueError"
    (EmployeeDatabase.add_employee emp_db "T001" "Dup User"
       (Binary64.of_Z 30) 0) db (fun db =>
  call (TimeTracker.record_hours time_tracker today "T001"
          (Binary64.of_Z 40) None) db (fun _ db =>
  match PayrollCalculator.calculate_employee_pay calc "T001" db with
  | Raise e => Uncaught e
  | Ok pay =>
  assert_that (regular_hours pay =? Binary64.of_Z 40)%float (
  assert_that (overtime_hours pay =? Binary64.of_Z 0)%float (
  assert_that (gross_pay pay =? Binary64.of_Z 40 * Binary64.of_Z 25)%float (
  call (EmployeeDatabase.add_employee emp_db "T002" "Overtime User"
          (Binary64.of_Z 10) 0) db (fun _ db =>
  call (TimeTracker.record_hours time_tracker today "T002"
          (Binary64.of_Z 50) None) db (fun _ db =>
  match PayrollCalculator.calculate_employee_pay calc "T002" db with
  | Raise e => Uncaught e
  | Ok pay2 =>
  assert_that (regular_hours pay2 =? Binary64.of_Z 40)%float (
  assert_that (overtime_hours pay2 =? Binary64.of_Z 10)%float (
  let expected_gross :=
    (Binary64.of_Z 40 * Binary64.of_Z 10
     + (Binary64.of_Z 10 * Binary64.of_Z 10)
       * PayrollCalculator.OVERTIME_MULTIPLIER)%float in
  assert_that (gross_pay pay2 =? expected_gross)%float (
  expect_raise ValueError_class "Negative hours should raise ValueError"
    (TimeTracker.record_hours time_tracker today "T002"
       (Binary64.of_Z (-5)) None) db (fun db =>
  call (EmployeeDatabase.delete_employee emp_db "T002") db (fun _ db =>
  match PayrollCalculator.calculate_employee_pay calc "T002" db with
  | Raise (KeyError _) => AllTestsPassed
  | Raise e => Uncaught e
  | Ok _ =>
      AssertionError
        "Deleted employee should raise KeyError on payroll calculation"
  end)))))
  end)))))
  end)))
  end).

End Tests.

(* ===================================================================== *)
(** ** Vocabulary of the specification *)
(* ===================================================================== *)

(** The constraints [add] and [update] put on the fields: a name that is
    not blank, a rate and a number of dependents that are not negative;
    and the number of dependents, an [int], is one the INTEGER column can
    hold. *)
Definition valid_name (name : string) : Prop := Py.strip name <> "".
Definition valid_rate (hourly_rate : float) : Prop :=
  (Binary64.zero <=? hourly_rate)%float = true.
Definition valid_dependents (dependents : Z) : Prop :=
  0 <= dependents < 2 ^ 63.




(** [t] is a whole multiple of the unit in the last place of [h]: the
    mantissa of [t] is divisible by the power of two that separates the
    two exponents.  A zero is a multiple of every unit. *)
Definition multiple_of_ulp (t h : float) : Prop :=
  match h, t with
  | S754_finite _ _ eh, S754_finite _ mt et => (2 ^ (eh - et) | Z.pos mt)
  | S754_finite _ _ _, S754_zero _ => True
  | _, _ => False
  end.

(** A float as a REAL column holds it once an insert has accepted it. *)
Definition as_stored (x : float) : float := default x (Sql.to_REAL x).

(** A series of [record_hours] calls for one employee, one call per
    element, each with the date left out. *)
Fixpoint record_each (self : TimeTracker.t) (today : date)
    (employee_id : string) (hours : list float) : Sql.command unit :=
  match hours with
  | [] => Sql.ret tt
  | h :: hours' =>
      (TimeTracker.record_hours self today employee_id h None ;;;
       record_each self today employee_id hours')
  end.

(** A string of whitespace only, the empty string included. *)
Fixpoint whitespace_only (s : string) : bool :=
  match s with
  | EmptyString => true
  | String c s' => Py.isspace c && whitespace_only s'
  end.

(** A float as a REAL column returns it: not a NaN, which is stored as
    NULL, and not the negative zero. *)
Definition real_value (x : float) : Prop := Sql.to_REAL x = Some x.

(** A float that is not a negative number: a NaN, or at least zero. *)
Definition not_negative (x : float) : Prop :=
  x = S754_nan \/ (Binary64.zero <=? x)%float = true.

(** What the schema, the binding of parameters and the guards of the
    methods ask of a row of [employees]: an id and a name that are trimmed
    and not empty, a rate and a number of dependents that are not
    negative, the number being one an INTEGER holds. *)
Definition employee_ok (k : string) (e : Sql.employee) : Prop :=
  k <> "" /\ Py.strip k = k /\
  Sql.emp_name e <> "" /\ Py.strip (Sql.emp_name e) = Sql.emp_name e /\
  real_value (Sql.emp_hourly_rate e) /\
  (Binary64.zero <=? Sql.emp_hourly_rate e)%float = true /\
  valid_dependents (Sql.emp_dependents e).

(** ... and of a row of [time_entries], [seq] being the largest id handed
    out: an id between 1 and [seq], hours that are not negative. *)
Definition entry_ok (seq : Z) (t : Sql.time_entry) : Prop :=
  0 < Sql.entry_id t <= seq /\
  real_value (Sql.regular_hours t) /\
  (Binary64.zero <=? Sql.regular_hours t)%float = true /\
  real_value (Sql.overtime_hours t) /\
  (Binary64.zero <=? Sql.overtime_hours t)%float = true.

(** A database all of whose rows are as above and whose entry ids are
    pairwise distinct. *)
Definition consistent (db : Sql.database) : Prop :=
  map_Forall employee_ok (Sql.employees db) /\
  Forall (entry_ok (Sql.entry_seq db)) (Sql.time_entries db) /\
  NoDup (Sql.entry_id <$> Sql.time_entries db) /\
  0 <= Sql.entry_seq db.

(** Every time entry references an employee that exists. *)
Definition referential (db : Sql.database) : Prop :=
  Forall (fun t => is_Some (Sql.employees db !! Sql.employee_id t))
    (Sql.time_entries db).

(** The databases the four writing methods can produce from an empty
    file, whatever their arguments and whether they return or raise. *)
Inductive reachable : Sql.database -> Prop :=
| reachable_empty : reachable Sql.empty
| reachable_add self employee_id name hourly_rate dependents db :
    reachable db ->
    reachable
      (EmployeeDatabase.add_employee self employee_id name hourly_rate
         dependents db).2
| reachable_update self employee_id name hourly_rate dependents db :
    reachable db ->
    reachable
      (EmployeeDatabase.update_employee self employee_id name hourly_rate
         dependents db).2
| reachable_delete self employee_id db :
    reachable db ->
    reachable (EmployeeDatabase.delete_employee self employee_id db).2
| reachable_record self today employee_id hours_worked entry_date db :
    reachable db ->
    reachable
      (TimeTracker.record_hours self today employee_id hours_worked
         entry_date db).2.

(** A call none of whose statements failed: it returned, or one of the
    guards of the method refused it, with [ValueError] or [KeyError],
    before any statement ran. *)
Definition no_statement_failed {A} (r : result A) : Prop :=
  match r with
  | Ok _ | Raise (ValueError _) | Raise (KeyError _) => True
  | Raise _ => False
  end.

(** The databases an empty file reaches by such calls only.  Every
    statement that ran has been committed, and neither connection is
    inside a transaction. *)
Inductive reachable_without_failure : Sql.database -> Prop :=
| without_failure_empty : reachable_without_failure Sql.empty
| without_failure_add self employee_id name hourly_rate dependents db :
    reachable_without_failure db ->
    no_statement_failed
      (EmployeeDatabase.add_employee self employee_id name hourly_rate
         dependents db).1 ->
    reachable_without_failure
      (EmployeeDatabase.add_employee self employee_id name hourly_rate
         dependents db).2
| without_failure_update self employee_id name hourly_rate dependents db :
    reachable_without_failure db ->
    no_statement_failed
      (EmployeeDatabase.update_employee self employee_id name hourly_rate
         dependents db).1 ->
    reachable_without_failure
      (EmployeeDatabase.update_employee self employee_id name hourly_rate
         dependents db).2
| without_failure_delete self employee_id db :
    reachable_without_failure db ->
    no_statement_failed
      (EmployeeDatabase.delete_employee self employee_id db).1 ->
    reachable_without_failure
      (EmployeeDatabase.delete_employee self employee_id db).2
| without_failure_record self today employee_id hours_worked entry_date db :
    reachable_without_failure db ->
    no_statement_failed
      (TimeTracker.record_hours self today employee_id hours_worked
         entry_date db).1 ->
    reachable_without_failure
      (TimeTracker.record_hours self today employee_id hours_worked
         entry_date db).2.

(** A date as [datetime.date] accepts it, up to the length of the
    month. *)
Definition valid_date (d : date) : Prop :=
  1 <= Py.year d <= 9999 /\ 1 <= Py.month d <= 12 /\ 1 <= Py.day d <= 31.

(** Chronological order: by year, then month, then day. *)
Definition date_compare (d1 d2 : date) : comparison :=
  match Py.year d1 ?= Py.year d2 with
  | Eq =>
      match Py.month d1 ?= Py.month d2 with
      | Eq => Py.day d1 ?= Py.day d2
      | c => c
      end
  | c => c
  end.

(* ===================================================================== *)
(** ** Facts about floats and commands *)
(* ===================================================================== *)

Section FloatFacts.

Lemma leb_zero_not_ltb (x : float) :
  (Binary64.zero <=? x)%float = true -> (x <? Binary64.zero)%float = false.
Proof. by destruct x as [[]|[]| |[] ? ?]. Qed.

Lemma ltb_leb (x y : float) :
  (x <? y)%float = true -> (x <=? y)%float = true.
Proof.
  unfold Binary64.ltb, Binary64.leb, SFltb, SFleb.
  by destruct (SFcompare x y) as [[]|].
Qed.

(** Binding a non-negative float to a REAL column keeps its value and
    passes a [CHECK (column >= 0)]. *)
Lemma to_REAL_nonneg (x : float) :
  (Binary64.zero <=? x)%float = true ->
  exists v, Sql.to_REAL x = Some v /\
            (Binary64.zero <=? v)%float = true /\
            (v =? x)%float = true.
Proof.
  destruct x as [[]|[]| |[] m e]; try done; cbn; intros _;
    eexists; (split; [reflexivity|]); split; try done.
  unfold Binary64.eqb, SFeqb; cbn.
  by rewrite Z.compare_refl, Pos.compare_cont_refl.
Qed.

End FloatFacts.

(* ===================================================================== *)
(** ** Error handling of [EmployeeDatabase] *)
(* ===================================================================== *)

(** C10.  [update_employee] looks the employee up before it examines any
    field: on an absent id it raises [KeyError] whatever the fields are,
    invalid, valid or all missing, and writes nothing. *)
Theorem update_employee_absent_raises_KeyError
    (self : EmployeeDatabase.t) (employee_id : string)
    (name : option string) (hourly_rate : option float)
    (dependents : option Z) (db : Sql.database) :
  EmployeeDatabase.get_employee self employee_id db = None ->
  EmployeeDatabase.update_employee self employee_id name hourly_rate
    dependents db
  = (Raise (KeyError ("Employee '" ++ employee_id ++ "' not found")), db).
Proof.
  intros Habsent.
  unfold EmployeeDatabase.update_employee, Sql.bind, Sql.query.
  by rewrite Habsent.
Qed.

Lemma update_employee_absent_raises_KeyError_witness :
  EmployeeDatabase.update_employee (Sample.emp_db Sql.RunningSum) "T404"
    (Some "   ") (Some (Binary64.of_Z (-1))) None
    (Sample.db_T001 Sql.RunningSum)
  = (Raise (KeyError ("Employee '" ++ "T404" ++ "' not found")),
     Sample.db_T001 Sql.RunningSum).
Proof.
  apply update_employee_absent_raises_KeyError. vm_compute. reflexivity.
Defined.

(** C6.  When the trimmed id is already present, [add_employee] raises
    [ValueError] and leaves the database, hence the stored record, as it
    was; with fields that pass validation the error is the duplicate-id
    one. *)
Theorem add_employee_duplicate
    (self : EmployeeDatabase.t) (employee_id name : string)
    (hourly_rate : float) (dependents : Z) (db : Sql.database) (row : Sql.Row) :
  EmployeeDatabase.get_employee self (Py.strip employee_id) db = Some row ->
  let outcome :=
    EmployeeDatabase.add_employee self employee_id name hourly_rate
      dependents db in
  (exists msg, outcome.1 = Raise (ValueError msg)) /\
  outcome.2 = db /\
  EmployeeDatabase.get_employee self (Py.strip employee_id) outcome.2
    = Some row /\
  (Py.strip employee_id <> "" -> Py.strip name <> "" ->
   (Binary64.zero <=? hourly_rate)%float = true -> 0 <= dependents ->
   outcome.1 =
     Raise (ValueError ("Employee with ID '" ++ Py.strip employee_id
                        ++ "' already exists"))).
Proof.
  intros Hrow outcome. subst outcome.
  unfold EmployeeDatabase.add_employee, Sql.bind, Sql.query, Sql.throw.
  destruct (Py.not_str (Py.strip employee_id)) eqn:Hid;
    [ cbn; repeat split; eauto;
      intros Hne; destruct (Py.strip employee_id); done |].
  destruct (Py.not_str (Py.strip name)) eqn:Hname;
    [ cbn; repeat split; eauto;
      intros _ Hne; destruct (Py.strip name); done |].
  destruct (hourly_rate <? Binary64.zero)%float eqn:Hrate;
    [ cbn; repeat split; eauto;
      intros _ _ Hr; apply leb_zero_not_ltb in Hr; congruence |].
  destruct (dependents <? 0) eqn:Hdeps;
    [ cbn; repeat split; eauto; intros _ _ _ Hd; lia |].
  rewrite Hrow. cbn. repeat split; eauto.
Qed.

Lemma add_employee_duplicate_witness :
  let outcome :=
    EmployeeDatabase.add_employee (Sample.emp_db Sql.RunningSum)
      "T001" "Dup User" (Binary64.of_Z 30) 0 (Sample.db_T001 Sql.RunningSum) in
  outcome.1 = Raise (ValueError "Employee with ID 'T001' already exists") /\
  EmployeeDatabase.get_employee (Sample.emp_db Sql.RunningSum) "T001" outcome.2
  = Some (Sql.MkRow "T001" "Test User" (Binary64.of_Z 25) 0).
Proof.
  destruct (add_employee_duplicate (Sample.emp_db Sql.RunningSum)
              "T001" "Dup User" (Binary64.of_Z 30) 0
              (Sample.db_T001 Sql.RunningSum)
              (Sql.MkRow "T001" "Test User" (Binary64.of_Z 25) 0))
    as (_ & _ & Hkept & Hdup).
  - vm_compute. reflexivity.
  - split.
    + apply Hdup; [ vm_compute; discriminate | vm_compute; discriminate
                  | vm_compute; reflexivity | lia ].
    + exact Hkept.
Defined.



(** A valid number of dependents can be bound. *)
Lemma fits_INTEGER_valid (d : Z) :
  valid_dependents d -> Sql.fits_INTEGER d = true.
Proof.
  unfold valid_dependents, Sql.fits_INTEGER. intros Hd.
  apply andb_true_intro. split; [apply Z.leb_le|apply Z.ltb_lt]; lia.
Qed.






(* ===================================================================== *)
(** ** Recording hours for an unknown employee *)
(* ===================================================================== *)

(** C5 as amended.  For hours that are not negative and an employee id
    that is not in [employees], [record_hours] raises [ValueError] with the
    message that the employee does not exist, and leaves the database as it
    was. *)
Theorem record_hours_unknown_employee
    (self : TimeTracker.t) (today : date) (employee_id : string)
    (hours_worked : float) (entry_date : option date) (db : Sql.database) :
  (Binary64.zero <=? hours_worked)%float = true ->
  Sql.select_employee employee_id db = None ->
  TimeTracker.record_hours self today employee_id hours_worked entry_date db
  = (Raise (ValueError ("Employee '" ++ employee_id ++ "' does not exist")),
     db).
Proof.
  intros Hhours Habsent.
  unfold TimeTracker.record_hours, Sql.bind, Sql.query, Sql.throw.
  by rewrite (leb_zero_not_ltb _ Hhours), Habsent.
Qed.

Lemma record_hours_unknown_employee_witness :
  TimeTracker.record_hours (Sample.time_tracker Sql.RunningSum) Sample.today
    "T404" (Binary64.of_Z 8) None (Sample.db_T002 Sql.RunningSum)
  = (Raise (ValueError ("Employee '" ++ "T404" ++ "' does not exist")),
     Sample.db_T002 Sql.RunningSum).
Proof.
  apply record_hours_unknown_employee; vm_compute; reflexivity.
Defined.

(** C5 as stated fails: the error for an unknown employee is not of a kind
    distinct from the validation error.  Recording 8 hours for the unknown
    "T404" and recording -5 hours for the known "T002" raise exceptions of
    one and the same class, [ValueError]; only the messages differ. *)
Lemma unknown_employee_error_is_a_ValueError :
  exists unknown negative,
    (TimeTracker.record_hours (Sample.time_tracker Sql.RunningSum) Sample.today
       "T404" (Binary64.of_Z 8) None (Sample.db_T002 Sql.RunningSum)).1
    = Raise unknown /\
    (TimeTracker.record_hours (Sample.time_tracker Sql.RunningSum) Sample.today
       "T002" (Binary64.of_Z (-5)) None (Sample.db_T002 Sql.RunningSum)).1
    = Raise negative /\
    ~ class_of unknown <> class_of negative.
Proof.
  exists (ValueError "Employee 'T404' does not exist"),
         (ValueError "Hours worked cannot be negative").
  split; [vm_compute; reflexivity|]. split; [vm_compute; reflexivity|].
  intros Hdistinct. by apply Hdistinct.
Qed.

(* ===================================================================== *)
(** ** Deleting an employee *)
(* ===================================================================== *)

(** On the connection the program opens, deleting an employee leaves
    [time_entries] untouched. *)
Lemma delete_employee_keeps_time_entries
    (lib : Sql.summation) (employee_id : string) (db : Sql.database) :
  Sql.time_entries
    (EmployeeDatabase.delete_employee (EmployeeDatabase.__init__ lib)
       employee_id db).2
  = Sql.time_entries db.
Proof. reflexivity. Qed.

(** Were foreign keys enforced on the connection, the declared cascade
    would remove the entries. *)
Lemma delete_employee_cascades_when_enforced
    (self : EmployeeDatabase.t) (employee_id : string) (db : Sql.database) :
  Sql.foreign_keys (EmployeeDatabase._conn self) = true ->
  Sql.entries_of employee_id
    (EmployeeDatabase.delete_employee self employee_id db).2 = [].
Proof.
  intros Hfk.
  unfold EmployeeDatabase.delete_employee, Sql.delete_employee, Sql.entries_of.
  rewrite Hfk. cbn.
  induction (Sql.time_entries db) as [|t ts IH]; [done|].
  rewrite filter_cons.
  destruct (decide (Sql.employee_id t ≠ employee_id)) as [Hne|He].
  - rewrite filter_cons. by destruct (decide (Sql.employee_id t = employee_id)).
  - exact IH.
Qed.

(** After the delete no pay can be calculated for the id. *)
Lemma calculate_employee_pay_after_delete
    (self : PayrollCalculator.t) (employee_id : string) (db : Sql.database) :
  PayrollCalculator.calculate_employee_pay self employee_id
    (EmployeeDatabase.delete_employee (PayrollCalculator.employee_db self)
       employee_id db).2
  = Raise (KeyError ("Employee '" ++ employee_id ++ "' not found")).
Proof.
  unfold PayrollCalculator.calculate_employee_pay,
    EmployeeDatabase.get_employee, Sql.select_employee,
    EmployeeDatabase.delete_employee, Sql.delete_employee.
  cbn. by rewrite lookup_delete_eq.
Qed.

(** C1, the code at the failing input.  After "T002" has 50 hours recorded
    and is deleted, the employee is gone and [calculate_employee_pay]
    raises [KeyError], but the time entry that references "T002" is still
    stored; an employee added later under the same id inherits its
    hours. *)
Theorem delete_employee_leaves_orphan_entries (lib : Sql.summation) :
  EmployeeDatabase.get_employee (Sample.emp_db lib) "T002"
    (Sample.db_deleted lib) = None /\
  PayrollCalculator.calculate_employee_pay (Sample.calc lib) "T002"
    (Sample.db_deleted lib)
  = Raise (KeyError "Employee 'T002' not found") /\
  Sql.entries_of "T002" (Sample.db_deleted lib)
  = [Sql.TimeEntry 1 "T002" "2025-01-15"
       (Binary64.of_Z 40) (Binary64.of_Z 10)] /\
  TimeTracker.summarise_hours (Sample.time_tracker lib) "T002"
    (Sample.after
       (EmployeeDatabase.add_employee (Sample.emp_db lib)
          "T002" "New Hire" (Binary64.of_Z 12) 0)
       (Sample.db_deleted lib))
  = (Binary64.of_Z 40, Binary64.of_Z 10).
Proof. destruct lib; vm_compute; done. Qed.

(* ===================================================================== *)
(** ** The order of ids *)
(* ===================================================================== *)

Section IdOrder.

Lemma ascii_compare_lt_trans (a b c : ascii) :
  Ascii.compare a b = Lt -> Ascii.compare b c = Lt -> Ascii.compare a c = Lt.
Proof.
  unfold Ascii.compare. rewrite !N.compare_lt_iff. lia.
Qed.

Lemma string_compare_refl (s : string) : String.compare s s = Eq.
Proof.
  induction s as [|a s IH]; [done|]. cbn.
  unfold Ascii.compare. by rewrite N.compare_refl.
Qed.

Lemma string_compare_lt_trans (s1 s2 s3 : string) :
  String.compare s1 s2 = Lt -> String.compare s2 s3 = Lt ->
  String.compare s1 s3 = Lt.
Proof.
  revert s2 s3. induction s1 as [|a s1 IH]; intros [|b s2] [|c s3]; cbn;
    try done.
  destruct (Ascii.compare a b) eqn:Hab; try done;
    destruct (Ascii.compare b c) eqn:Hbc; try done; intros H12 H23.
  - apply Ascii.compare_eq_iff in Hab, Hbc. subst.
    unfold Ascii.compare. rewrite N.compare_refl. eauto.
  - apply Ascii.compare_eq_iff in Hab. subst. by rewrite Hbc.
  - apply Ascii.compare_eq_iff in Hbc. subst. by rewrite Hab.
  - by rewrite (ascii_compare_lt_trans a b c).
Qed.

Lemma string_leb_trans (s1 s2 s3 : string) :
  (s1 <=? s2)%string = true -> (s2 <=? s3)%string = true ->
  (s1 <=? s3)%string = true.
Proof.
  unfold String.leb.
  destruct (String.compare s1 s2) eqn:H12; try done;
    destruct (String.compare s2 s3) eqn:H23; try done; intros _ _.
  - apply String.compare_eq_iff in H12, H23. subst.
    by rewrite string_compare_refl.
  - apply String.compare_eq_iff in H12. subst. by rewrite H23.
  - apply String.compare_eq_iff in H23. subst. by rewrite H12.
  - by rewrite (string_compare_lt_trans s1 s2 s3).
Qed.

Lemma string_leb_ne_ltb (s1 s2 : string) :
  (s1 <=? s2)%string = true -> s1 <> s2 -> (s1 <? s2)%string = true.
Proof.
  unfold String.leb, String.ltb.
  destruct (String.compare s1 s2) eqn:H12; try done.
  apply String.compare_eq_iff in H12. done.
Qed.

Global Instance id_le_total : Total Sql.id_le.
Proof. intros r1 r2. apply String.leb_total. Qed.

Global Instance id_le_trans : Transitive Sql.id_le.
Proof. intros r1 r2 r3. apply string_leb_trans. Qed.

End IdOrder.

(** Strictly ascending ids. *)
Definition id_lt (id1 id2 : string) : Prop := (id1 <? id2)%string = true.

(* ===================================================================== *)
(** ** The order of entries *)
(* ===================================================================== *)

Section EntryOrder.

Global Instance date_le_total : Total Sql.date_le.
Proof. intros t1 t2. apply String.leb_total. Qed.

Global Instance date_le_trans : Transitive Sql.date_le.
Proof. intros t1 t2 t3. apply string_leb_trans. Qed.

Lemma insert_by_date_Permutation (t : Sql.time_entry)
    (l : list Sql.time_entry) :
  Sql.insert_by_date t l ≡ₚ t :: l.
Proof.
  induction l as [|t' l IH]; [done|]. cbn.
  destruct (decide (Sql.date_le t t')); [done|].
  by rewrite IH, Permutation_swap.
Qed.

Lemma insert_by_date_sorted (t : Sql.time_entry) (l : list Sql.time_entry) :
  StronglySorted Sql.date_le l ->
  StronglySorted Sql.date_le (Sql.insert_by_date t l).
Proof.
  induction 1 as [|t' l Hl IH Ht']; [by repeat constructor|]. cbn.
  destruct (decide (Sql.date_le t t')) as [Hle|Hgt].
  - constructor; [by constructor|].
    constructor; [done|].
    eapply Forall_impl; [exact Ht'|]. intros t''. by etrans.
  - constructor; [done|].
    rewrite insert_by_date_Permutation. constructor; [|done].
    by destruct (total Sql.date_le t t').
Qed.

(** The selected entries are the entries of the employee, sorted by
    date. *)
Lemma select_entries_by_date_Permutation (k : string) (db : Sql.database) :
  Sql.select_entries_by_date k db ≡ₚ Sql.entries_of k db.
Proof.
  unfold Sql.select_entries_by_date.
  induction (Sql.entries_of k db) as [|t l IH]; [done|]. cbn.
  by rewrite insert_by_date_Permutation, IH.
Qed.

Lemma select_entries_by_date_sorted (k : string) (db : Sql.database) :
  StronglySorted Sql.date_le (Sql.select_entries_by_date k db).
Proof.
  unfold Sql.select_entries_by_date.
  induction (Sql.entries_of k db) as [|t l IH]; [constructor|]. cbn.
  by apply insert_by_date_sorted.
Qed.

End EntryOrder.

(* ===================================================================== *)
(** ** Listing employees and calculating all pay *)
(* ===================================================================== *)

Section Listing.

(** The listed rows are the rows of the table. *)
Lemma list_employees_lookup
    (self : EmployeeDatabase.t) (db : Sql.database) (row : Sql.Row) :
  row ∈ EmployeeDatabase.list_employees self db <->
  EmployeeDatabase.get_employee self (Sql.id row) db = Some row.
Proof.
  unfold EmployeeDatabase.list_employees, Sql.select_employees_by_id,
    EmployeeDatabase.get_employee, Sql.select_employee.
  rewrite merge_sort_Permutation, list_elem_of_fmap. split.
  - intros ([k e] & -> & Hin). apply elem_of_map_to_list in Hin.
    cbn. by rewrite Hin.
  - intros Hrow. destruct (Sql.employees db !! Sql.id row) as [e|] eqn:He;
      [|done].
    exists (Sql.id row, e). split; [by injection Hrow|].
    by apply elem_of_map_to_list.
Qed.

Lemma list_employees_ids_NoDup
    (self : EmployeeDatabase.t) (db : Sql.database) :
  NoDup (Sql.id <$> EmployeeDatabase.list_employees self db).
Proof.
  unfold EmployeeDatabase.list_employees, Sql.select_employees_by_id.
  rewrite merge_sort_Permutation.
  assert (Hkeys : forall l : list (string * Sql.employee),
            Sql.id <$> (uncurry Sql.row_of <$> l) = l.*1).
  { induction l as [|[k e] l IH]; [done|]. cbn. by rewrite IH. }
  rewrite Hkeys. apply NoDup_fst_map_to_list.
Qed.

(** [SELECT ... ORDER BY id] lists every id once, in strictly ascending
    order. *)
Lemma list_employees_ascending
    (self : EmployeeDatabase.t) (db : Sql.database) :
  StronglySorted id_lt (Sql.id <$> EmployeeDatabase.list_employees self db).
Proof.
  pose proof (list_employees_ids_NoDup self db) as Hnodup.
  assert (Hsorted : StronglySorted Sql.id_le
                      (EmployeeDatabase.list_employees self db)).
  { apply StronglySorted_merge_sort; apply _. }
  induction Hsorted as [|row rows Hrows IH Hall]; cbn in *.
  - constructor.
  - apply NoDup_cons in Hnodup as [Hnotin Hnodup].
    constructor; [by apply IH|].
    apply Forall_fmap, Forall_forall. intros row' Hin. cbn.
    apply string_leb_ne_ltb.
    + by apply (proj1 (Forall_forall _ _) Hall).
    + intros Heq. apply Hnotin. rewrite Heq. by apply list_elem_of_fmap_2.
Qed.

(** The loop appends one result per row when every row's pay can be
    calculated. *)
Lemma calculate_rows_spec
    (self : PayrollCalculator.t) (db : Sql.database)
    (rows : list Sql.Row) (results : list PayResult) :
  (forall row, row ∈ rows ->
     exists pay,
       PayrollCalculator.calculate_employee_pay self (Sql.id row) db
       = Ok pay) ->
  exists pays,
    PayrollCalculator.calculate_rows self rows results db
      = Ok (results ++ pays) /\
    Forall2
      (fun row pay =>
         PayrollCalculator.calculate_employee_pay self (Sql.id row) db = Ok pay)
      rows pays.
Proof.
  revert results. induction rows as [|row rows IH]; intros results Hall; cbn.
  - exists []. by rewrite app_nil_r.
  - destruct (Hall row) as [pay Hpay]; [by left|]. rewrite Hpay. cbn.
    destruct (IH (results ++ [pay])) as (pays & Hrows & Hpays).
    { intros row' Hin. apply Hall. by right. }
    exists (pay :: pays). split; [by rewrite Hrows, <- app_assoc|].
    by constructor.
Qed.

(** The pay result of an employee carries the id it was asked for. *)
Lemma calculate_employee_pay_id
    (self : PayrollCalculator.t) (db : Sql.database)
    (k : string) (pay : PayResult) :
  PayrollCalculator.calculate_employee_pay self k db = Ok pay ->
  employee_id pay = k.
Proof.
  unfold PayrollCalculator.calculate_employee_pay.
  destruct (EmployeeDatabase.get_employee _ _ _); [|done].
  destruct (TimeTracker.summarise_hours _ _ _). by intros [= <-].
Qed.

(** An employee that exists has a pay result. *)
Lemma calculate_employee_pay_exists
    (self : PayrollCalculator.t) (db : Sql.database) (k : string)
    (row : Sql.Row) :
  EmployeeDatabase.get_employee (PayrollCalculator.employee_db self) k db
    = Some row ->
  exists pay, PayrollCalculator.calculate_employee_pay self k db = Ok pay.
Proof.
  intros Hrow. unfold PayrollCalculator.calculate_employee_pay.
  rewrite Hrow. destruct (TimeTracker.summarise_hours _ _ _). eauto.
Qed.

End Listing.

(** C8.  In every state [calculate_all] returns, without raising, one pay
    result per row of [list_employees] and in the order of that list, which
    is strictly ascending in the id; each result is the one
    [calculate_employee_pay] returns for that id in the same state. *)
Theorem calculate_all_matches_list_employees
    (self : PayrollCalculator.t) (db : Sql.database) :
  exists results,
    PayrollCalculator.calculate_all self db = Ok results /\
    Forall2
      (fun row pay =>
         PayrollCalculator.calculate_employee_pay self (Sql.id row) db = Ok pay)
      (EmployeeDatabase.list_employees (PayrollCalculator.employee_db self) db)
      results /\
    employee_id <$> results
      = Sql.id <$> EmployeeDatabase.list_employees
                     (PayrollCalculator.employee_db self) db /\
    StronglySorted id_lt (employee_id <$> results).
Proof.
  destruct (calculate_rows_spec self db
              (EmployeeDatabase.list_employees
                 (PayrollCalculator.employee_db self) db) [])
    as (results & Hall & Hpays).
  { intros row Hin. apply list_employees_lookup in Hin.
    by apply calculate_employee_pay_exists with row. }
  exists results. split; [exact Hall|]. split; [exact Hpays|].
  assert (Hids : employee_id <$> results
                 = Sql.id <$> EmployeeDatabase.list_employees
                                (PayrollCalculator.employee_db self) db).
  { clear Hall. induction Hpays as [|row pay rows pays Hpay _ IH]; [done|].
    cbn. f_equal; [|exact IH].
    by apply calculate_employee_pay_id with self db. }
  split; [exact Hids|]. rewrite Hids. apply list_employees_ascending.
Qed.

(* ===================================================================== *)
(** ** Splitting and summing hours *)
(* ===================================================================== *)

Section Hours.

(** A call of [record_hours] that returns appends exactly one entry, the
    split of its hours against the threshold, and touches nothing else. *)
Lemma record_hours_Ok
    (self : TimeTracker.t) (today : date) (k : string) (h : float)
    (day : option date) (db db' : Sql.database) :
  TimeTracker.record_hours self today k h day db = (Ok tt, db') ->
  Sql.employees db' = Sql.employees db /\
  Sql.time_entries db'
  = Sql.time_entries db
    ++ [Sql.TimeEntry (Sql.entry_seq db + 1) k
          (Py.isoformat (default today day))
          (as_stored (TimeTracker.reg_hours self h))
          (as_stored (TimeTracker.ot_hours self h))].
Proof.
  unfold TimeTracker.record_hours, Sql.bind, Sql.query, Sql.throw.
  destruct (h <? Binary64.zero)%float; [done|].
  destruct (Sql.select_employee k db) as [found|]; [|done].
  unfold Sql.insert_time_entry, as_stored.
  destruct (Sql.to_REAL (TimeTracker.reg_hours self h)) as [r|];
    destruct (Sql.to_REAL (TimeTracker.ot_hours self h)) as [o|]; cbn;
    try done.
  destruct (negb (Binary64.zero <=? r)%float); [done|].
  destruct (negb (Binary64.zero <=? o)%float); [done|].
  destruct (_ && _); [done|]. by intros [= <-].
Qed.

Lemma entries_of_app (k : string) (db db' : Sql.database)
    (new : list Sql.time_entry) :
  Sql.time_entries db' = Sql.time_entries db ++ new ->
  Forall (fun t => Sql.employee_id t = k) new ->
  Sql.entries_of k db' = Sql.entries_of k db ++ new.
Proof.
  intros Happ Hnew. unfold Sql.entries_of. rewrite Happ, filter_app.
  f_equal. clear Happ. induction Hnew as [|t ts Ht _ IH]; [done|].
  rewrite filter_cons. by destruct (decide _); [rewrite IH|].
Qed.

(** The entries a series of calls appends, when every call returns. *)
Lemma record_each_Ok
    (self : TimeTracker.t) (today : date) (k : string) (hours : list float)
    (db db' : Sql.database) :
  record_each self today k hours db = (Ok tt, db') ->
  exists new,
    Sql.time_entries db' = Sql.time_entries db ++ new /\
    Forall (fun t => Sql.employee_id t = k) new /\
    Sql.regular_hours <$> new
      = (fun h => as_stored (TimeTracker.reg_hours self h)) <$> hours /\
    Sql.overtime_hours <$> new
      = (fun h => as_stored (TimeTracker.ot_hours self h)) <$> hours.
Proof.
  revert db. induction hours as [|h hours IH]; intros db; cbn.
  - intros [= <-]. exists []. by rewrite app_nil_r.
  - unfold Sql.bind.
    destruct (TimeTracker.record_hours self today k h None db)
      as [[[]|e] db1] eqn:Hfirst; [|done].
    intros Hrest. apply record_hours_Ok in Hfirst as [_ Hfirst].
    destruct (IH _ Hrest) as (new & Happ & Hk & Hreg & Hot).
    eexists (_ :: new). rewrite Happ, Hfirst, <- app_assoc. cbn.
    split; [done|]. split; [by constructor|]. by rewrite Hreg, Hot.
Qed.

(** The overtime part is never negative. *)
Lemma ot_hours_nonneg (self : TimeTracker.t) (h : float) :
  (Binary64.zero <=? TimeTracker.ot_hours self h)%float = true.
Proof.
  unfold TimeTracker.ot_hours, Py.max.
  destruct (Binary64.zero <? _)%float eqn:Hpos; [by apply ltb_leb|done].
Qed.

(** [record_hours] returns for an employee that exists when neither the
    hours nor their regular part is negative. *)
Lemma record_hours_returns
    (self : TimeTracker.t) (today : date) (k : string) (h : float)
    (day : option date) (db : Sql.database) (row : Sql.Row) :
  Sql.select_employee k db = Some row ->
  (Binary64.zero <=? h)%float = true ->
  (Binary64.zero <=? TimeTracker.reg_hours self h)%float = true ->
  exists db',
    TimeTracker.record_hours self today k h day db = (Ok tt, db').
Proof.
  intros Hrow Hh Hreg.
  unfold TimeTracker.record_hours, Sql.bind, Sql.query, Sql.throw.
  rewrite (leb_zero_not_ltb _ Hh), Hrow.
  destruct (to_REAL_nonneg _ Hreg) as (r & Hr & Hrpos & _).
  destruct (to_REAL_nonneg _ (ot_hours_nonneg self h)) as (o & Ho & Hopos & _).
  unfold Sql.insert_time_entry. rewrite Hr, Ho. cbn. rewrite Hrpos, Hopos. cbn.
  unfold Sql.select_employee in Hrow.
  destruct (Sql.employees db !! k) eqn:He; [|done].
  rewrite bool_decide_eq_true_2 by eauto. rewrite andb_false_r. eauto.
Qed.

End Hours.

(** C9.  After a series of recordings for an employee that had no entry,
    [summarise_hours] returns the SUM of the regular parts and the SUM of
    the overtime parts of the single splits, each recording split against
    the threshold on its own; with no entry it returns (0, 0).  With the
    default threshold, 38 and 5 hours give a regular total of 43 and two
    recordings of 25 hours give no overtime. *)
Theorem summarise_hours_sums_the_splits
    (self : TimeTracker.t) (today : date) (employee_id : string)
    (hours : list float) (db db' : Sql.database) :
  Sql.entries_of employee_id db = [] ->
  record_each self today employee_id hours db = (Ok tt, db') ->
  let SUM := Sql.SUM (Sql.sum_algorithm (TimeTracker._conn self)) in
  TimeTracker.summarise_hours self employee_id db'
  = (Py.or_else
       (SUM ((fun h => as_stored (TimeTracker.reg_hours self h)) <$> hours))
       Binary64.zero,
     Py.or_else
       (SUM ((fun h => as_stored (TimeTracker.ot_hours self h)) <$> hours))
       Binary64.zero) /\
  TimeTracker.summarise_hours self employee_id db
  = (Binary64.zero, Binary64.zero) /\
  (forall lib,
     TimeTracker.summarise_hours (Sample.time_tracker lib) "E020"
       (Sample.after
          (record_each (Sample.time_tracker lib) Sample.today "E020"
             [Binary64.of_Z 38; Binary64.of_Z 5])
          (Sample.db_E020 lib))
     = (Binary64.of_Z 43, Binary64.zero)) /\
  (forall lib,
     TimeTracker.summarise_hours (Sample.time_tracker lib) "E020"
       (Sample.after
          (record_each (Sample.time_tracker lib) Sample.today "E020"
             [Binary64.of_Z 25; Binary64.of_Z 25])
          (Sample.db_E020 lib))
     = (Binary64.of_Z 50, Binary64.zero)).
Proof.
  intros Hnone Hok SUM. subst SUM.
  destruct (record_each_Ok _ _ _ _ _ _ Hok) as (new & Happ & Hk & Hreg & Hot).
  split; [|split; [|split]].
  - unfold TimeTracker.summarise_hours.
    rewrite (entries_of_app _ _ _ _ Happ Hk), Hnone. cbn [app].
    by rewrite Hreg, Hot.
  - unfold TimeTracker.summarise_hours. by rewrite Hnone.
  - intros []; vm_compute; reflexivity.
  - intros []; vm_compute; reflexivity.
Qed.

Lemma summarise_hours_sums_the_splits_witness :
  TimeTracker.summarise_hours (Sample.time_tracker Sql.CompensatedSum) "E020"
    (Sample.after
       (record_each (Sample.time_tracker Sql.CompensatedSum) Sample.today
          "E020" [Binary64.of_Z 38; Binary64.of_Z 5; Binary64.of_Z 45])
       (Sample.db_E020 Sql.CompensatedSum))
  = (Binary64.of_Z 83, Binary64.of_Z 5).
Proof.
  destruct (summarise_hours_sums_the_splits
              (Sample.time_tracker Sql.CompensatedSum) Sample.today "E020"
              [Binary64.of_Z 38; Binary64.of_Z 5; Binary64.of_Z 45]
              (Sample.db_E020 Sql.CompensatedSum)
              (Sample.after
                 (record_each (Sample.time_tracker Sql.CompensatedSum)
                    Sample.today "E020"
                    [Binary64.of_Z 38; Binary64.of_Z 5; Binary64.of_Z 45])
                 (Sample.db_E020 Sql.CompensatedSum)))
    as (Hsum & _).
  - vm_compute. reflexivity.
  - vm_compute. reflexivity.
  - rewrite Hsum. vm_compute. reflexivity.
Defined.

(* ===================================================================== *)
(** ** Pay calculation *)
(* ===================================================================== *)

(** C3.  An employee paid 10 an hour with a single entry, of 50 hours
    recorded against the default threshold of 40, has regular hours 40,
    overtime hours 10, gross pay 550.00, state tax 30.80, federal tax 43.45
    and net pay 475.75. *)
Theorem calculate_employee_pay_rate_10_hours_50
    (self : PayrollCalculator.t) (today : date) (day : option date)
    (employee_id : string) (row : Sql.Row) (db : Sql.database) :
  let tracker := PayrollCalculator.time_tracker self in
  TimeTracker.overtime_threshold tracker = TimeTracker.default_threshold ->
  EmployeeDatabase.get_employee (PayrollCalculator.employee_db self)
    employee_id db = Some row ->
  Sql.hourly_rate row = Binary64.of_Z 10 ->
  Sql.entries_of employee_id db = [] ->
  exists db',
    TimeTracker.record_hours tracker today employee_id (Binary64.of_Z 50)
      day db = (Ok tt, db') /\
    PayrollCalculator.calculate_employee_pay self employee_id db'
    = Ok {| employee_id := employee_id;
            name := Sql.name row;
            hours_worked := Binary64.of_Z 50;
            hourly_rate := Binary64.of_Z 10;
            regular_hours := Binary64.of_Z 40;
            overtime_hours := Binary64.of_Z 10;
            gross_pay := Binary64.decimal 55000 2;
            state_tax := Binary64.decimal 3080 2;
            federal_tax := Binary64.decimal 4345 2;
            net_pay := Binary64.decimal 47575 2 |}.
Proof.
  intros tracker Hthreshold Hrow Hrate Hnone.
  assert (Hsplit : TimeTracker.reg_hours tracker (Binary64.of_Z 50)
                   = Binary64.of_Z 40 /\
                   TimeTracker.ot_hours tracker (Binary64.of_Z 50)
                   = Binary64.of_Z 10).
  { unfold TimeTracker.reg_hours, TimeTracker.ot_hours.
    rewrite Hthreshold. by vm_compute. }
  destruct Hsplit as [Hreg Hot].
  destruct (record_hours_returns tracker today employee_id
              (Binary64.of_Z 50) day db row Hrow) as [db' Hrec];
    [by vm_compute | by rewrite Hreg |].
  exists db'. split; [done|].
  apply record_hours_Ok in Hrec as [Hemp Hentries].
  rewrite Hreg, Hot in Hentries.
  unfold PayrollCalculator.calculate_employee_pay,
    EmployeeDatabase.get_employee, Sql.select_employee.
  unfold EmployeeDatabase.get_employee, Sql.select_employee in Hrow.
  rewrite Hemp, Hrow.
  unfold TimeTracker.summarise_hours. fold tracker.
  rewrite (entries_of_app employee_id db db' _ Hentries), Hnone
    by (by repeat constructor).
  rewrite Hrate.
  destruct (Sql.sum_algorithm (TimeTracker._conn tracker));
    vm_compute; reflexivity.
Qed.

Lemma calculate_employee_pay_rate_10_hours_50_witness :
  PayrollCalculator.calculate_employee_pay (Sample.calc Sql.RunningSum) "T002"
    (Sample.db_T002_50 Sql.RunningSum)
  = Ok {| employee_id := "T002";
          name := "Overtime User";
          hours_worked := Binary64.of_Z 50;
          hourly_rate := Binary64.of_Z 10;
          regular_hours := Binary64.of_Z 40;
          overtime_hours := Binary64.of_Z 10;
          gross_pay := Binary64.decimal 55000 2;
          state_tax := Binary64.decimal 3080 2;
          federal_tax := Binary64.decimal 4345 2;
          net_pay := Binary64.decimal 47575 2 |}.
Proof.
  destruct (calculate_employee_pay_rate_10_hours_50
              (Sample.calc Sql.RunningSum) Sample.today None "T002"
              (Sql.MkRow "T002" "Overtime User" (Binary64.of_Z 10) 0)
              (Sample.db_T002 Sql.RunningSum))
    as (db' & Hrec & Hpay).
  - reflexivity.
  - vm_compute. reflexivity.
  - reflexivity.
  - vm_compute. reflexivity.
  - unfold Sample.db_T002_50, Sample.after.
    change (PayrollCalculator.time_tracker (Sample.calc Sql.RunningSum))
      with (Sample.time_tracker Sql.RunningSum) in Hrec.
    rewrite Hrec. exact Hpay.
Defined.

(* ===================================================================== *)
(** ** Binary64 subtraction and addition *)
(* ===================================================================== *)

Section Subtraction.

#[local] Abbreviation canonical := (bounded Binary64.prec Binary64.emax).
#[local] Abbreviation emin64 := (emin Binary64.prec Binary64.emax).
#[local] Abbreviation fexp64 := (fexp Binary64.prec Binary64.emax).
#[local] Abbreviation round_aux :=
  (binary_round_aux Binary64.prec Binary64.emax).
#[local] Abbreviation round := (binary_round Binary64.prec Binary64.emax).
#[local] Abbreviation normalize :=
  (binary_normalize Binary64.prec Binary64.emax).

Lemma digits2_pos_bounds (m : positive) :
  2 ^ (Z.pos (digits2_pos m) - 1) <= Z.pos m < 2 ^ Z.pos (digits2_pos m).
Proof.
  induction m as [m IH|m IH|]; cbn [digits2_pos]; [| |done].
  all: rewrite Pos2Z.inj_succ;
    replace (Z.succ (Z.pos (digits2_pos m)) - 1)
      with (Z.succ (Z.pos (digits2_pos m) - 1)) by lia;
    rewrite !Z.pow_succ_r by lia; lia.
Qed.

(** A canonical mantissa has at most [prec] digits, and exactly [prec]
    above the smallest exponent. *)
Lemma bounded_digits (m : positive) (e : Z) :
  canonical m e = true ->
  Z.pos (digits2_pos m) <= Binary64.prec /\
  emin64 <= e /\
  (emin64 < e ->
   Z.pos (digits2_pos m) = Binary64.prec).
Proof.
  unfold bounded, canonical_mantissa, fexp.
  intros [Hcanon _]%andb_true_iff. apply Z.eqb_eq in Hcanon. lia.
Qed.

Lemma iter_xO_value (m d : positive) :
  Z.pos (Pos.iter xO m d) = Z.pos m * 2 ^ Z.pos d.
Proof.
  pattern d. apply Pos.peano_ind; clear d.
  - cbn. lia.
  - intros d IH. rewrite Pos.iter_succ, Pos2Z.inj_xO, IH, Pos2Z.inj_succ.
    rewrite Z.pow_succ_r by lia. lia.
Qed.

Lemma shl_align_value (m : positive) (e e' : Z) :
  e' <= e ->
  Z.pos (shl_align m e e').1 = Z.pos m * 2 ^ (e - e').
Proof.
  intros Hle. unfold shl_align.
  destruct (e' - e) as [|d|d] eqn:Hd; [| lia |].
  - replace (e - e') with 0 by lia. cbn. lia.
  - replace (e - e') with (Z.pos d) by lia. apply iter_xO_value.
Qed.

(** Rounding a negative value never yields a positive float. *)
Lemma binary_round_aux_negative (m e : Z) (l : location) :
  (Binary64.zero <? round_aux true m e l)%float = false.
Proof.
  unfold binary_round_aux.
  destruct (shr_fexp _ _ _ _ _) as [mrs' e'].
  destruct (shr_fexp _ _ _ _ _) as [mrs'' e''].
  destruct (shr_m mrs''); [done| |done]. by destruct (_ <=? _).
Qed.

Lemma binary_normalize_nonpositive (m e : Z) :
  m <= 0 ->
  (Binary64.zero <? normalize m e false)%float = false.
Proof.
  intros Hm. destruct m as [|p|p]; [done|lia|].
  cbn [binary_normalize]. unfold binary_round.
  destruct (shl_align _ _ _). apply binary_round_aux_negative.
Qed.

(** The difference of two floats is not positive when the first, itself
    not negative, does not exceed the second. *)
Lemma sub_not_positive (x y : float) :
  Binary64.valid x = true -> Binary64.valid y = true ->
  (Binary64.zero <=? x)%float = true ->
  (y <? x)%float = false ->
  (Binary64.zero <? x - y)%float = false.
Proof.
  intros Hx Hy Hpos Hle.
  destruct x as [sx|[]| |[] mx ex]; try done;
    destruct y as [sy|[]| |[] my ey]; try done;
    try (by destruct sx); try (by destruct sx, sy).
  cbn in Hx, Hy. apply bounded_digits in Hx as (Hdx & Hex & _).
  apply bounded_digits in Hy as (_ & _ & Hdy).
  pose proof (digits2_pos_bounds mx) as Hmx.
  pose proof (digits2_pos_bounds my) as Hmy.
  unfold Binary64.ltb, SFltb in Hle. cbn in Hle.
  rewrite Pos.compare_cont_spec in Hle.
  unfold Binary64.sub, SFsub. apply binary_normalize_nonpositive.
  cbn [cond_Zopp].
  rewrite !shl_align_value by lia.
  revert Hle.
  destruct (Z.compare_spec ey ex) as [Heq|Hlt|Hgt]; [|done|]; intros Hle.
  - subst ey. rewrite Z.min_id, Z.sub_diag. cbn in Hle |- *.
    revert Hle. destruct (Pos.compare_spec my mx) as [Hm|Hm|Hm]; [|done|];
      intros _; lia.
  - rewrite Z.min_l, Z.sub_diag by lia. rewrite Z.mul_1_r.
    specialize (Hdy ltac:(lia)). rewrite Hdy in Hmy.
    assert (2 ^ 1 <= 2 ^ (ey - ex)) by (apply Z.pow_le_mono_r; lia).
    assert (Z.pos mx < 2 ^ Binary64.prec).
    { eapply Z.lt_le_trans; [apply Hmx|]. apply Z.pow_le_mono_r; lia. }
    change (2 ^ (Binary64.prec - 1)) with 4503599627370496 in Hmy.
    change (2 ^ Binary64.prec) with 9007199254740992 in *. nia.
Qed.

(** *** Exact results

    A sum or a difference whose exact value is itself a float is computed
    without error.  The lemmas follow the value through [binary_round]:
    alignment, the right shift by the excess digits, and the final
    range check. *)

Lemma digits2_pos_unique (m : positive) (d : Z) :
  2 ^ (d - 1) <= Z.pos m < 2 ^ d -> Z.pos (digits2_pos m) = d.
Proof.
  intros [Hlo Hhi]. pose proof (digits2_pos_bounds m) as [Hlo' Hhi'].
  destruct (Z.lt_trichotomy (Z.pos (digits2_pos m)) d) as [Hlt|[Heq|Hgt]];
    [|done|].
  - assert (2 ^ Z.pos (digits2_pos m) <= 2 ^ (d - 1))
      by (apply Z.pow_le_mono_r; lia). lia.
  - assert (0 <= d).
    { destruct (Z.le_gt_cases 0 d); [done|].
      rewrite (Z.pow_neg_r 2 d) in Hhi by lia. lia. }
    assert (2 ^ d <= 2 ^ (Z.pos (digits2_pos m) - 1))
      by (apply Z.pow_le_mono_r; lia). lia.
Qed.

Lemma digits2_pos_shift (m : positive) (k : Z) (M : positive) :
  0 <= k -> Z.pos M = Z.pos m * 2 ^ k ->
  Z.pos (digits2_pos M) = Z.pos (digits2_pos m) + k.
Proof.
  intros Hk HM. apply digits2_pos_unique. rewrite HM.
  pose proof (digits2_pos_bounds m) as [Hlo Hhi].
  replace (Z.pos (digits2_pos m) + k - 1)
    with (Z.pos (digits2_pos m) - 1 + k) by lia.
  rewrite !Z.pow_add_r by lia.
  assert (0 < 2 ^ k) by (apply Z.pow_pos_nonneg; lia). nia.
Qed.

Lemma iter_pos_iter {A} (f : A -> A) (p : positive) (x : A) :
  SpecFloat.iter_pos f p x = Pos.iter f x p.
Proof.
  revert x. induction p as [p IH|p IH|]; intros x; cbn; [| |done].
  - by rewrite !IH, !Pos.iter_swap.
  - by rewrite !IH.
Qed.

Lemma shr_exact (m p : positive) :
  SpecFloat.iter_pos shr_1 p
    (Build_shr_record (Z.pos (Pos.iter xO m p)) false false)
  = Build_shr_record (Z.pos m) false false.
Proof.
  rewrite iter_pos_iter. revert m. pattern p. apply Pos.peano_ind; clear p.
  - done.
  - intros p IH m.
    rewrite (Pos.iter_succ p _ xO), Pos.iter_succ, <- Pos.iter_swap.
    cbn [shr_1 orb]. apply IH.
Qed.

Lemma canonical_fexp (m : positive) (e : Z) :
  canonical m e = true ->
  fexp64 (Z.pos (digits2_pos m) + e) = e /\
  e <= Binary64.emax - Binary64.prec.
Proof.
  unfold bounded, canonical_mantissa.
  intros [Hc He]%andb_true_iff.
  apply Z.eqb_eq in Hc. apply Z.leb_le in He. done.
Qed.

Lemma binary_round_aux_canonical (s : bool) (m : positive) (e : Z) :
  canonical m e = true ->
  round_aux s (Z.pos m) e loc_Exact = S754_finite s m e.
Proof.
  intros [Hfexp He]%canonical_fexp.
  unfold binary_round_aux, shr_fexp. cbn [Zdigits2 shr_record_of_loc].
  rewrite Hfexp, Z.sub_diag.
  cbn [shr loc_of_shr_record shr_m round_nearest_even Zdigits2
         shr_record_of_loc].
  rewrite Hfexp, Z.sub_diag. cbn [shr shr_m].
  by rewrite (proj2 (Z.leb_le _ _) He).
Qed.

Lemma binary_round_aux_shift (s : bool) (m p : positive) (e : Z) :
  canonical m (e + Z.pos p) = true ->
  round_aux s (Z.pos (Pos.iter xO m p)) e loc_Exact
  = S754_finite s m (e + Z.pos p).
Proof.
  intros Hb. pose proof Hb as [Hfexp He]%canonical_fexp.
  unfold binary_round_aux, shr_fexp. cbn [Zdigits2 shr_record_of_loc].
  rewrite (digits2_pos_shift m (Z.pos p)) by (try apply iter_xO_value; lia).
  replace (Z.pos (digits2_pos m) + Z.pos p + e)
    with (Z.pos (digits2_pos m) + (e + Z.pos p)) by lia.
  rewrite Hfexp. replace (e + Z.pos p - e) with (Z.pos p) by lia.
  cbn [shr]. rewrite shr_exact.
  cbn [loc_of_shr_record shr_m round_nearest_even Zdigits2
         shr_record_of_loc].
  rewrite Hfexp, Z.sub_diag. cbn [shr shr_m].
  by rewrite (proj2 (Z.leb_le _ _) He).
Qed.

(** Rounding a value that a canonical float represents returns that
    float. *)
Lemma binary_round_exact (s : bool) (M m : positive) (E e : Z) :
  canonical m e = true ->
  (E <= e /\ Z.pos M = Z.pos m * 2 ^ (e - E)) \/
  (e <= E /\ Z.pos m = Z.pos M * 2 ^ (E - e)) ->
  round s M E = S754_finite s m e.
Proof.
  intros Hb Hrel. pose proof Hb as [Hfexp He]%canonical_fexp.
  unfold binary_round.
  assert (Hd : Z.pos (digits2_pos M) + E = Z.pos (digits2_pos m) + e).
  { destruct Hrel as [[Hle HM]|[Hle Hm]].
    - rewrite (digits2_pos_shift m (e - E) M) by (done || lia). lia.
    - rewrite (digits2_pos_shift M (E - e) m) by (done || lia). lia. }
  rewrite Hd, Hfexp. unfold shl_align.
  destruct (e - E) as [|d|d] eqn:Hdiff.
  - assert (M = m).
    { destruct Hrel as [[_ H]|[_ H]];
        [ replace (e - E) with 0 in H by lia
        | replace (E - e) with 0 in H by lia ];
        cbn in H; lia. }
    assert (E = e) by lia. subst M E. by apply binary_round_aux_canonical.
  - destruct Hrel as [[Hle HM]|[Hle Hm]]; [|lia].
    replace (e - E) with (Z.pos d) in HM by lia.
    rewrite <- iter_xO_value in HM. injection HM as ->.
    replace e with (E + Z.pos d) by lia.
    apply binary_round_aux_shift. by replace (E + Z.pos d) with e by lia.
  - destruct Hrel as [[Hle HM]|[Hle Hm]]; [lia|].
    replace (E - e) with (Z.pos d) in Hm by lia.
    rewrite <- iter_xO_value in Hm. injection Hm as ->.
    by apply binary_round_aux_canonical.
Qed.

Lemma Zpos_of_positive (z : Z) : 0 < z -> exists p, z = Z.pos p.
Proof. destruct z; try lia. eauto. Qed.

(** The canonical float of [q * 2^e], for [q] of at most 53 bits. *)
Lemma canonical_of_scaled (q : positive) (e : Z) :
  Z.pos q < 2 ^ Binary64.prec ->
  emin64 <= e -> e <= Binary64.emax - Binary64.prec ->
  exists m e',
    canonical m e' = true /\ e' <= e /\
    Z.pos m = Z.pos q * 2 ^ (e - e').
Proof.
  intros Hq Hlo Hhi.
  set (e' := fexp64 (Z.pos (digits2_pos q) + e)).
  assert (Hdq : Z.pos (digits2_pos q) <= Binary64.prec).
  { pose proof (digits2_pos_bounds q) as [Hb _].
    destruct (Z.le_gt_cases (Z.pos (digits2_pos q)) Binary64.prec); [done|].
    assert (2 ^ Binary64.prec <= 2 ^ (Z.pos (digits2_pos q) - 1))
      by (apply Z.pow_le_mono_r; lia). lia. }
  assert (He' : e' <= e) by (unfold e', fexp; lia).
  assert (Hpos : 0 < Z.pos q * 2 ^ (e - e')).
  { assert (0 < 2 ^ (e - e')) by (apply Z.pow_pos_nonneg; lia). lia. }
  destruct (Zpos_of_positive _ Hpos) as [m Hm].
  exists m, e'. split; [|done].
  unfold bounded, canonical_mantissa.
  rewrite (digits2_pos_shift q (e - e') m) by (done || lia).
  replace (Z.pos (digits2_pos q) + (e - e') + e')
    with (Z.pos (digits2_pos q) + e) by lia.
  fold e'. rewrite Z.eqb_refl. cbn. apply Z.leb_le. lia.
Qed.

(** When the smaller of two positive floats is a multiple of the unit in
    the last place of the larger, their difference is exact and adding it
    back restores the larger one. *)
Lemma add_sub_exact (mh mt : positive) (eh et : Z) :
  let h := S754_finite false mh eh in
  let t := S754_finite false mt et in
  canonical mh eh = true -> canonical mt et = true ->
  (t <? h)%float = true ->
  (2 ^ (eh - et) | Z.pos mt) ->
  (exists md ed, (h - t)%float = S754_finite false md ed) /\
  (t + (h - t))%float = h.
Proof.
  intros h t Hbh Hbt Hlt [c Hc].
  pose proof Hbh as [_ Heh_hi]%canonical_fexp.
  pose proof (bounded_digits _ _ Hbh) as (Hdh & Heh & Hnh).
  pose proof (bounded_digits _ _ Hbt) as (Hdt & Het & _).
  pose proof (digits2_pos_bounds mh) as Hmh.
  pose proof (digits2_pos_bounds mt) as Hmt.
  (* the order of the exponents and of the mantissas *)
  assert (Horder : et < eh \/ et = eh /\ Z.pos mt < Z.pos mh).
  { unfold Binary64.ltb, SFltb in Hlt. cbn in Hlt.
    rewrite Pos.compare_cont_spec in Hlt. revert Hlt.
    destruct (Z.compare_spec et eh); [|lia|done].
    cbn. destruct (Pos.compare_spec mt mh); try done. lia. }
  assert (Hk : 0 <= eh - et) by lia.
  assert (Hpk : 0 < 2 ^ (eh - et)) by (apply Z.pow_pos_nonneg; lia).
  assert (Hmt53 : Z.pos mt < 2 ^ Binary64.prec).
  { eapply Z.lt_le_trans; [apply Hmt|]. apply Z.pow_le_mono_r; lia. }
  assert (Hmh53 : Z.pos mh < 2 ^ Binary64.prec).
  { eapply Z.lt_le_trans; [apply Hmh|]. apply Z.pow_le_mono_r; lia. }
  assert (Hcpos : 0 < c) by nia.
  assert (Hq : 0 < Z.pos mh - c).
  { destruct Horder as [Hlt'|[-> Hlt']].
    - specialize (Hnh ltac:(lia)). rewrite Hnh in Hmh.
      assert (HP : 2 ^ 1 <= 2 ^ (eh - et)) by (apply Z.pow_le_mono_r; lia).
      change (2 ^ 1) with 2 in HP.
      assert (Hmh52 : 4503599627370496 <= Z.pos mh)
        by (change 4503599627370496 with (2 ^ (Binary64.prec - 1)); lia).
      assert (Hmt53' : Z.pos mt < 9007199254740992) by exact Hmt53.
      clear - Hc Hpk HP Hmh52 Hmt53' Hcpos.
      generalize dependent (2 ^ (eh - et)). intros P Hc Hpk HP.
      assert (2 * c <= c * P) by nia. lia.
    - rewrite Z.sub_diag in Hc. cbn in Hc. lia. }
  destruct (Zpos_of_positive _ Hq) as [q Hqp].
  destruct (canonical_of_scaled q eh) as (md & ed & Hbd & Hed & Hmd);
    [lia | done | done |].
  pose proof (bounded_digits _ _ Hbd) as (_ & Hed_lo & _).
  (* the difference *)
  assert (Hsub : (h - t)%float = S754_finite false md ed).
  { unfold h, t, Binary64.sub, SFsub. cbn [cond_Zopp].
    rewrite !shl_align_value by lia.
    rewrite Z.min_r, Z.sub_diag, Z.mul_1_r by lia.
    assert (HD : Z.pos mh * 2 ^ (eh - et) - Z.pos mt
                 = Z.pos q * 2 ^ (eh - et)) by lia.
    rewrite HD.
    assert (HDpos : 0 < Z.pos q * 2 ^ (eh - et)) by lia.
    destruct (Zpos_of_positive _ HDpos) as [D HDp]. rewrite HDp.
    cbn [binary_normalize]. apply binary_round_exact; [done|].
    destruct (Z.le_gt_cases et ed).
    - left. split; [done|].
      rewrite <- HDp, Hmd, <- Z.mul_assoc, <- Z.pow_add_r by lia.
      f_equal. f_equal. lia.
    - right. split; [lia|].
      rewrite <- HDp, Hmd, <- Z.mul_assoc, <- Z.pow_add_r by lia.
      f_equal. f_equal. lia. }
  split; [by eauto|].
  rewrite Hsub. unfold t, h, Binary64.add, SFadd. cbn [cond_Zopp].
  rewrite !shl_align_value by lia.
  set (ez := Z.min et ed).
  assert (HS : Z.pos mt * 2 ^ (et - ez) + Z.pos md * 2 ^ (ed - ez)
               = Z.pos mh * 2 ^ (eh - ez)).
  { rewrite Hc, Hmd, <- !Z.mul_assoc, <- !Z.pow_add_r by lia.
    replace (eh - et + (et - ez)) with (eh - ez) by lia.
    replace (eh - ed + (ed - ez)) with (eh - ez) by lia. lia. }
  rewrite HS.
  assert (HSpos : 0 < Z.pos mh * 2 ^ (eh - ez)).
  { assert (0 < 2 ^ (eh - ez)) by (apply Z.pow_pos_nonneg; lia). lia. }
  destruct (Zpos_of_positive _ HSpos) as [S HSp]. rewrite HSp.
  cbn [binary_normalize]. apply binary_round_exact; [done|].
  left. split; [lia|]. by rewrite <- HSp.
Qed.

End Subtraction.

(* ===================================================================== *)
(** ** The split persisted by [record_hours] *)
(* ===================================================================== *)

Section Split.

Lemma leb_not_ltb (x y : float) :
  (x <=? y)%float = true -> (y <? x)%float = false.
Proof.
  unfold Binary64.leb, Binary64.ltb, SFleb, SFltb.
  destruct x as [sx|[]| |[] mx ex]; destruct y as [sy|[]| |[] my ey]; try done;
    cbn; rewrite !Pos.compare_cont_spec; cbn [Pos.switch_Eq];
    rewrite (Z.compare_antisym ex ey), (Pos.compare_antisym mx my);
    destruct (ex ?= ey); cbn; try done;
    by destruct (mx ?= my)%positive.
Qed.

(** Adding a zero overtime to the stored regular part of non-negative
    hours gives the hours back. *)
Lemma stored_plus_zero (h : float) :
  (Binary64.zero <=? h)%float = true ->
  (as_stored h + Binary64.zero =? h)%float = true.
Proof.
  destruct h as [[]|[]| |[] m e]; try done. intros _. cbn.
  unfold Binary64.eqb, SFeqb. cbn.
  by rewrite Z.compare_refl, Pos.compare_cont_refl.
Qed.

Lemma eqb_refl_finite (s : bool) (m : positive) (e : Z) :
  (S754_finite s m e =? S754_finite s m e)%float = true.
Proof.
  unfold Binary64.eqb, SFeqb. cbn.
  rewrite Z.compare_refl, Pos.compare_cont_refl. by destruct s.
Qed.

(** Two floats that are not negative are ordered one way or the other. *)
Lemma leb_or_ltb (x y : float) :
  (Binary64.zero <=? x)%float = true -> (Binary64.zero <=? y)%float = true ->
  (x <=? y)%float = true \/ (y <? x)%float = true.
Proof.
  unfold Binary64.leb, Binary64.ltb, SFleb, SFltb.
  destruct x as [sx|[]| |[] mx ex]; destruct y as [sy|[]| |[] my ey];
    try done; try (by left); try (by right); intros _ _; cbn.
  rewrite !Pos.compare_cont_spec; cbn [Pos.switch_Eq].
  rewrite (Z.compare_antisym ex ey), (Pos.compare_antisym mx my).
  destruct (ex ?= ey); cbn; try (by left); try (by right).
  destruct (mx ?= my)%positive; cbn; try (by left); by right.
Qed.

(** Above a threshold that is a multiple of the unit in the last place of
    the hours, the two parts are the threshold and the exact difference,
    and they add up to the hours. *)
Lemma split_exact_above (h t : float) :
  Binary64.valid h = true -> Binary64.valid t = true ->
  (Binary64.zero <=? t)%float = true ->
  (t <? h)%float = true -> multiple_of_ulp t h ->
  (as_stored (Py.min h t)
   + as_stored (Py.max Binary64.zero (h - t)%float) =? h)%float = true.
Proof.
  intros Hvh Hvt Ht Hlt Hmul. unfold Py.min, Py.max. rewrite Hlt.
  destruct h as [sh|sh| |sh mh eh]; try done.
  destruct t as [st|st| |st mt et]; try done.
  - destruct sh; [done|]. destruct st; exact (eqb_refl_finite false mh eh).
  - destruct st; [done|]. destruct sh; [done|].
    destruct (add_sub_exact mh mt eh et Hvh Hvt Hlt Hmul)
      as [(md & ed & Hsub) Hsum].
    rewrite Hsub in Hsum |- *.
    change ((S754_finite false mt et + S754_finite false md ed
             =? S754_finite false mh eh)%float = true).
    rewrite Hsum. apply eqb_refl_finite.
Qed.

Lemma ltb_finite_positive (m1 m2 : positive) (e1 e2 : Z) :
  (S754_finite false m1 e1 <? S754_finite false m2 e2)%float
  = match e1 ?= e2 with
    | Lt => true
    | Gt => false
    | Eq => match (m1 ?= m2)%positive with Lt => true | _ => false end
    end.
Proof.
  unfold Binary64.ltb, SFltb, SFcompare. rewrite Pos.compare_cont_spec.
  by destruct (e1 ?= e2), (m1 ?= m2)%positive.
Qed.

(** The default threshold, 40 = 5 * 2^3, is a multiple of the unit in the
    last place of every float between it and 2^56. *)
Lemma default_threshold_multiple_of_ulp (h : float) :
  Binary64.valid h = true ->
  (TimeTracker.default_threshold <? h)%float = true ->
  (h <? Binary64.of_Z (2 ^ 56))%float = true ->
  multiple_of_ulp TimeTracker.default_threshold h.
Proof.
  change TimeTracker.default_threshold
    with (S754_finite false 5629499534213120 (-47)).
  change (Binary64.of_Z (2 ^ 56)) with (S754_finite false 4503599627370496 4).
  destruct h as [sh|[]| |[] mh eh]; try done. intros Hv Hlo Hhi.
  apply bounded_digits in Hv as (_ & _ & Hnormal).
  pose proof (digits2_pos_bounds mh) as [Hmh _].
  rewrite ltb_finite_positive in Hlo, Hhi.
  assert (Hrange : -47 <= eh <= 3).
  { split.
    - revert Hlo. destruct (Z.compare_spec (-47) eh); [lia|lia|done].
    - revert Hhi. destruct (Z.compare_spec eh 4) as [->|Hlt|Hgt]; [|lia|done].
      destruct (Pos.compare_spec mh 4503599627370496) as [|Hlt|];
        try done. intros _.
      rewrite Hnormal in Hmh by done.
      change (2 ^ (Binary64.prec - 1)) with 4503599627370496 in Hmh.
      apply Pos2Z.pos_lt_pos in Hlt. lia. }
  cbn. exists (5 * 2 ^ (3 - eh)).
  rewrite <- Z.mul_assoc, <- Z.pow_add_r by lia.
  by replace (3 - eh + (eh - -47)) with 50 by lia.
Qed.

End Split.

(** C2 as amended.  For an employee that exists, hours that are not
    negative and a threshold that is not negative, [record_hours] appends
    one entry whose regular part is [min(hours, threshold)] and whose
    overtime part is [max(0, hours - threshold)], the subtraction being
    that of binary64.  Regular + overtime equals the hours when the hours
    do not exceed the threshold (the overtime is then zero), and when the
    threshold is a whole multiple of the unit in the last place of the
    hours; this covers the default threshold, 40, for all hours below
    2^56. *)
Theorem record_hours_persists_the_split
    (self : TimeTracker.t) (today : date) (employee_id : string)
    (hours_worked : float) (entry_date : option date)
    (db : Sql.database) (row : Sql.Row) :
  let threshold := TimeTracker.overtime_threshold self in
  Sql.select_employee employee_id db = Some row ->
  Binary64.valid hours_worked = true -> Binary64.valid threshold = true ->
  (Binary64.zero <=? hours_worked)%float = true ->
  (Binary64.zero <=? threshold)%float = true ->
  exists regular overtime,
    Sql.to_REAL (Py.min hours_worked threshold) = Some regular /\
    Sql.to_REAL (Py.max Binary64.zero (hours_worked - threshold)%float)
      = Some overtime /\
    TimeTracker.record_hours self today employee_id hours_worked entry_date db
    = (Ok tt,
       {| Sql.employees := Sql.employees db;
          Sql.time_entries :=
            Sql.time_entries db
            ++ [Sql.TimeEntry (Sql.entry_seq db + 1) employee_id
                  (Py.isoformat (default today entry_date)) regular overtime];
          Sql.entry_seq := Sql.entry_seq db + 1 |}) /\
    ((hours_worked <=? threshold)%float = true ->
     overtime = Binary64.zero /\
     (regular + overtime =? hours_worked)%float = true) /\
    ((threshold <? hours_worked)%float = true ->
     multiple_of_ulp threshold hours_worked ->
     (regular + overtime =? hours_worked)%float = true) /\
    (threshold = TimeTracker.default_threshold ->
     (hours_worked <? Binary64.of_Z (2 ^ 56))%float = true ->
     (regular + overtime =? hours_worked)%float = true).
Proof.
  intros threshold Hrow Hvh Hvt Hh Ht.
  assert (Hreg : (Binary64.zero
                  <=? TimeTracker.reg_hours self hours_worked)%float = true).
  { unfold TimeTracker.reg_hours, Py.min. fold threshold.
    by destruct (threshold <? hours_worked)%float. }
  destruct (to_REAL_nonneg _ Hreg) as (regular & Hregular & Hrpos & _).
  destruct (to_REAL_nonneg _ (ot_hours_nonneg self hours_worked))
    as (overtime & Hovertime & Hopos & _).
  exists regular, overtime. split; [exact Hregular|]. split; [exact Hovertime|].
  split.
  { unfold TimeTracker.record_hours, Sql.bind, Sql.query, Sql.throw.
    rewrite (leb_zero_not_ltb _ Hh), Hrow.
    unfold Sql.insert_time_entry. rewrite Hregular, Hovertime.
    rewrite Hrpos, Hopos. cbn.
    unfold Sql.select_employee in Hrow.
    destruct (Sql.employees db !! employee_id) eqn:He; [|done].
    rewrite bool_decide_eq_true_2 by eauto. by rewrite andb_false_r. }
  unfold TimeTracker.reg_hours, TimeTracker.ot_hours in Hregular, Hovertime.
  fold threshold in Hregular, Hovertime.
  assert (Hbelow : (hours_worked <=? threshold)%float = true ->
            overtime = Binary64.zero /\
            (regular + overtime =? hours_worked)%float = true).
  { intros Hle. unfold Py.min, Py.max in Hregular, Hovertime.
    rewrite (leb_not_ltb _ _ Hle) in Hregular.
    rewrite (sub_not_positive _ _ Hvh Hvt Hh (leb_not_ltb _ _ Hle))
      in Hovertime.
    injection Hovertime as <-. split; [done|].
    pose proof (stored_plus_zero _ Hh) as Hsum. unfold as_stored in Hsum.
    by rewrite Hregular in Hsum. }
  assert (Habove : (threshold <? hours_worked)%float = true ->
            multiple_of_ulp threshold hours_worked ->
            (regular + overtime =? hours_worked)%float = true).
  { intros Hlt Hmul.
    pose proof (split_exact_above _ _ Hvh Hvt Ht Hlt Hmul) as Hsum.
    unfold as_stored in Hsum. by rewrite Hregular, Hovertime in Hsum. }
  split; [exact Hbelow|]. split; [exact Habove|].
  intros Hdefault Hbound.
  destruct (leb_or_ltb _ _ Hh Ht) as [Hle|Hlt]; [by apply Hbelow|].
  apply Habove; [done|]. rewrite Hdefault in Hlt |- *.
  by apply default_threshold_multiple_of_ulp.
Qed.

Lemma record_hours_persists_the_split_witness :
  exists regular overtime,
    Sql.time_entries
      (Sample.after
         (TimeTracker.record_hours (Sample.time_tracker Sql.RunningSum)
            Sample.today "T002" (Binary64.of_Z 50) None)
         (Sample.db_T002 Sql.RunningSum))
    = [Sql.TimeEntry 1 "T002" "2025-01-15" regular overtime] /\
    (regular + overtime =? Binary64.of_Z 50)%float = true.
Proof.
  destruct (record_hours_persists_the_split
              (Sample.time_tracker Sql.RunningSum) Sample.today "T002"
              (Binary64.of_Z 50) None (Sample.db_T002 Sql.RunningSum)
              (Sql.MkRow "T002" "Overtime User" (Binary64.of_Z 10) 0))
    as (regular & overtime & _ & _ & Hrec & _ & _ & Hexact).
  - vm_compute. reflexivity.
  - vm_compute. reflexivity.
  - vm_compute. reflexivity.
  - vm_compute. reflexivity.
  - vm_compute. reflexivity.
  - exists regular, overtime. unfold Sample.after. rewrite Hrec.
    split; [reflexivity|]. apply Hexact; [reflexivity|].
    vm_compute. reflexivity.
Defined.

(** C2 as stated fails in two ways.  With the threshold 7.6, recording
    23.7 hours persists the parts 7.6 and 16.1, whose sum
    23.700000000000003 is not the hours recorded.  With a negative
    threshold, -5, recording 3 hours persists nothing: the regular part -5
    breaks the CHECK of [regular_hours]. *)
Lemma record_hours_split_not_exact_for_every_threshold :
  (exists db' entry,
     TimeTracker.record_hours (Sample.daily_tracker Sql.RunningSum)
       Sample.today "T001" (Binary64.decimal 237 1) None
       (Sample.db_T001 Sql.RunningSum) = (Ok tt, db') /\
     Sql.time_entries db' = [entry] /\
     Sql.regular_hours entry = Binary64.decimal 76 1 /\
     (Sql.regular_hours entry + Sql.overtime_hours entry
      =? Binary64.decimal 237 1)%float = false) /\
  TimeTracker.record_hours (Sample.negative_tracker Sql.RunningSum)
    Sample.today "T001" (Binary64.of_Z 3) None (Sample.db_T001 Sql.RunningSum)
  = (Raise (IntegrityError (CheckFailed "regular_hours")),
     Sample.db_T001 Sql.RunningSum).
Proof.
  split; [|vm_compute; reflexivity].
  eexists _, _. split; [vm_compute; reflexivity|]. cbn [Sql.time_entries].
  split; [reflexivity|]. split; vm_compute; reflexivity.
Qed.

(* ===================================================================== *)
(** ** Rounding of the pay result *)
(* ===================================================================== *)

(** C4 as amended.  In every pay result the four monetary fields are the
    roundings to two decimals of the unrounded gross, of the two unrounded
    taxes and of the unrounded net, each rounded on its own: [net_pay] is
    the rounding of gross minus the unrounded taxes, not the difference of
    the rounded fields. *)
Theorem pay_result_fields_rounded_independently
    (self : PayrollCalculator.t) (employee_id : string) (db : Sql.database)
    (pay : PayResult) :
  PayrollCalculator.calculate_employee_pay self employee_id db = Ok pay ->
  let gross :=
    PayrollCalculator.gross (regular_hours pay) (overtime_hours pay)
      (hourly_rate pay) in
  gross_pay pay = Py.round2 gross /\
  state_tax pay = Py.round2 (gross * PayrollCalculator.STATE_TAX_RATE)%float /\
  federal_tax pay
    = Py.round2 (gross * PayrollCalculator.FEDERAL_TAX_RATE)%float /\
  net_pay pay = Py.round2 (PayrollCalculator.net gross).
Proof.
  unfold PayrollCalculator.calculate_employee_pay.
  destruct (EmployeeDatabase.get_employee _ _ _) as [row|]; [|done].
  destruct (TimeTracker.summarise_hours _ _ _) as [reg ot].
  by intros [= <-].
Qed.

Lemma pay_result_fields_rounded_independently_witness :
  exists pay,
    PayrollCalculator.calculate_employee_pay (Sample.calc Sql.RunningSum)
      "T002" (Sample.db_T002_50 Sql.RunningSum) = Ok pay /\
    net_pay pay
    = Py.round2
        ((Binary64.of_Z 550
          - Binary64.of_Z 550 * PayrollCalculator.STATE_TAX_RATE)
         - Binary64.of_Z 550 * PayrollCalculator.FEDERAL_TAX_RATE)%float.
Proof.
  eexists. split; [vm_compute; reflexivity|].
  refine (proj2 (proj2 (proj2
    (pay_result_fields_rounded_independently (Sample.calc Sql.RunningSum)
       "T002" (Sample.db_T002_50 Sql.RunningSum) _ _)))).
  vm_compute. reflexivity.
Defined.

(** C4 as stated fails.  At 15.50 an hour for 37 hours the result has
    gross pay 573.50, state tax 32.12, federal tax 45.31 and net pay
    496.08, while 573.50 - 32.12 - 45.31 is 496.07. *)
Lemma rounded_fields_do_not_add_up :
  exists pay,
    PayrollCalculator.calculate_employee_pay (Sample.calc Sql.RunningSum)
      "E155" (Sample.db_E155 Sql.RunningSum) = Ok pay /\
    gross_pay pay = Binary64.decimal 57350 2 /\
    state_tax pay = Binary64.decimal 3212 2 /\
    federal_tax pay = Binary64.decimal 4531 2 /\
    net_pay pay = Binary64.decimal 49608 2 /\
    (net_pay pay =? (gross_pay pay - state_tax pay) - federal_tax pay)%float
    = false.
Proof.
  eexists. split; [vm_compute; reflexivity|].
  repeat split; vm_compute; reflexivity.
Qed.

(* ===================================================================== *)
(** ** Trimming strings *)
(* ===================================================================== *)

Section Strip.

Lemma lstrip_head (s : string) :
  Py.lstrip s = "" \/
  exists c r, Py.lstrip s = String c r /\ Py.isspace c = false.
Proof.
  induction s as [|c s IH]; [by left|]. cbn.
  destruct (Py.isspace c) eqn:Hc; [done|]. right. eauto.
Qed.

Lemma rstrip_head (c : ascii) (s : string) :
  Py.isspace c = false -> exists r, Py.rstrip (String c s) = String c r.
Proof.
  intros Hc. cbn. rewrite Hc. destruct (Py.rstrip s); eauto.
Qed.

Lemma rstrip_cons (c : ascii) (s : string) :
  Py.rstrip (String c s)
  = match Py.rstrip s with
    | EmptyString => if Py.isspace c then EmptyString else String c EmptyString
    | r => String c r
    end.
Proof. reflexivity. Qed.

Lemma rstrip_idemp (s : string) : Py.rstrip (Py.rstrip s) = Py.rstrip s.
Proof.
  induction s as [|c s IH]; [done|]. rewrite rstrip_cons.
  destruct (Py.rstrip s) as [|c' r] eqn:Hr.
  - destruct (Py.isspace c) eqn:Hc; [done|]. by rewrite rstrip_cons, Hc.
  - by rewrite rstrip_cons, IH.
Qed.

(** Trimming a trimmed string changes nothing. *)
Lemma strip_idemp (s : string) : Py.strip (Py.strip s) = Py.strip s.
Proof.
  unfold Py.strip.
  destruct (lstrip_head s) as [->|(c & r & -> & Hc)]; [done|].
  destruct (rstrip_head c r Hc) as [r' Hr']. rewrite Hr'.
  cbn [Py.lstrip]. rewrite Hc, <- Hr'. apply rstrip_idemp.
Qed.

Lemma strip_whitespace_only (s : string) :
  whitespace_only s = true <-> Py.strip s = "".
Proof.
  unfold Py.strip. split.
  - induction s as [|c s IH]; [done|]. cbn.
    intros [Hc Hs]%andb_true_iff. rewrite Hc. by apply IH.
  - destruct (lstrip_head s) as [Hl|(c & r & Hl & Hc)].
    + intros _. induction s as [|c s IH]; [done|]. cbn in Hl |- *.
      destruct (Py.isspace c); [by apply IH|done].
    + rewrite Hl. destruct (rstrip_head c r Hc) as [r' ->]. done.
Qed.

End Strip.

(* ===================================================================== *)
(** ** Adding and updating employees: accepted and refused arguments *)
(* ===================================================================== *)

Section AddEmployee.

Lemma not_str_false (s : string) : s <> "" -> Py.not_str s = false.
Proof. by destruct s. Qed.

(** What [add_employee] does once its arguments pass the guards and the
    trimmed id is free. *)
Lemma add_employee_inserts
    (self : EmployeeDatabase.t) (employee_id name : string)
    (hourly_rate : float) (dependents : Z) (db : Sql.database) :
  Py.strip employee_id <> "" ->
  valid_name name -> valid_rate hourly_rate -> valid_dependents dependents ->
  EmployeeDatabase.get_employee self (Py.strip employee_id) db = None ->
  EmployeeDatabase.add_employee self employee_id name hourly_rate dependents db
  = (Ok tt,
     {| Sql.employees :=
          <[Py.strip employee_id :=
              Sql.Employee (Py.strip name) (as_stored hourly_rate) dependents]>
            (Sql.employees db);
        Sql.time_entries := Sql.time_entries db;
        Sql.entry_seq := Sql.entry_seq db |}).
Proof.
  intros Hid Hname Hrate Hdeps Hfree.
  unfold EmployeeDatabase.add_employee, Sql.bind, Sql.query, Sql.throw.
  rewrite (not_str_false _ Hid), (not_str_false _ Hname).
  rewrite (leb_zero_not_ltb _ Hrate).
  pose proof (fits_INTEGER_valid _ Hdeps) as Hfits.
  unfold valid_dependents in Hdeps.
  destruct (Z.ltb_spec dependents 0); [lia|].
  rewrite Hfree. unfold Sql.insert_employee, as_stored.
  rewrite Hfits. cbn [negb].
  destruct (to_REAL_nonneg _ Hrate) as (r & Hr & Hpos & _).
  rewrite Hr, Hpos. cbn.
  destruct (Z.ltb_spec dependents 0); [lia|].
  unfold EmployeeDatabase.get_employee, Sql.select_employee in Hfree.
  by destruct (Sql.employees db !! Py.strip employee_id).
Qed.

End AddEmployee.

(** X1.  [add_employee] followed by [get_employee]: with an id and a name
    that are not blank, a rate and a number of dependents that are not
    negative (the number within the range of an INTEGER column) and a
    trimmed id that is free, the call returns, and the employee is then
    found under the trimmed id with the trimmed name, the rate as a REAL
    column holds it and the dependents given; every other employee and
    every time entry is as before, and [list_employees] lists the new row
    besides the old ones. *)
Theorem add_employee_then_get_employee
    (self : EmployeeDatabase.t) (employee_id name : string)
    (hourly_rate : float) (dependents : Z) (db : Sql.database) :
  Py.strip employee_id <> "" ->
  valid_name name -> valid_rate hourly_rate ->
  0 <= dependents < 2 ^ 63 ->
  EmployeeDatabase.get_employee self (Py.strip employee_id) db = None ->
  let outcome :=
    EmployeeDatabase.add_employee self employee_id name hourly_rate
      dependents db in
  let row :=
    Sql.MkRow (Py.strip employee_id) (Py.strip name) (as_stored hourly_rate)
      dependents in
  outcome.1 = Ok tt /\
  EmployeeDatabase.get_employee self (Py.strip employee_id) outcome.2
    = Some row /\
  (forall other, other <> Py.strip employee_id ->
     EmployeeDatabase.get_employee self other outcome.2
     = EmployeeDatabase.get_employee self other db) /\
  Sql.time_entries outcome.2 = Sql.time_entries db /\
  EmployeeDatabase.list_employees self outcome.2
    ≡ₚ row :: EmployeeDatabase.list_employees self db.
Proof.
  intros Hid Hname Hrate Hdeps Hfree outcome row. subst outcome row.
  rewrite (add_employee_inserts self _ _ _ _ db Hid Hname Hrate Hdeps Hfree).
  unfold EmployeeDatabase.get_employee, Sql.select_employee,
    EmployeeDatabase.list_employees, Sql.select_employees_by_id in *.
  cbn. split; [done|]. split; [by rewrite lookup_insert_eq|].
  split; [by intros other Hother; rewrite lookup_insert_ne|].
  split; [done|].
  rewrite !merge_sort_Permutation, map_to_list_insert; [done|].
  by destruct (Sql.employees db !! Py.strip employee_id).
Qed.

Lemma add_employee_then_get_employee_witness :
  let outcome :=
    EmployeeDatabase.add_employee (Sample.emp_db Sql.RunningSum)
      "  E007 " " Grace Example  " (S754_zero true) 3
      (Sample.db_T001 Sql.RunningSum) in
  outcome.1 = Ok tt /\
  EmployeeDatabase.get_employee (Sample.emp_db Sql.RunningSum) "E007" outcome.2
  = Some (Sql.MkRow "E007" "Grace Example" Binary64.zero 3) /\
  EmployeeDatabase.get_employee (Sample.emp_db Sql.RunningSum) "T001" outcome.2
  = Some (Sql.MkRow "T001" "Test User" (Binary64.of_Z 25) 0).
Proof.
  destruct (add_employee_then_get_employee (Sample.emp_db Sql.RunningSum)
              "  E007 " " Grace Example  " (S754_zero true) 3
              (Sample.db_T001 Sql.RunningSum))
    as (Hok & Hrow & Hother & _).
  - vm_compute. discriminate.
  - vm_compute. discriminate.
  - vm_compute. reflexivity.
  - lia.
  - vm_compute. reflexivity.
  - split; [exact Hok|]. split; [exact Hrow|].
    rewrite (Hother "T001"); [vm_compute; reflexivity|].
    vm_compute. discriminate.
Defined.

(** X2.  [add_employee] refuses an id or a name made of whitespace only
    (the empty string included), a negative rate and a negative number of
    dependents: it raises [ValueError] and writes nothing, whatever the
    other arguments and the database are. *)
Theorem add_employee_rejects_invalid_fields
    (self : EmployeeDatabase.t) (employee_id name : string)
    (hourly_rate : float) (dependents : Z) (db : Sql.database) :
  whitespace_only employee_id = true \/ whitespace_only name = true \/
  (hourly_rate <? Binary64.zero)%float = true \/ dependents < 0 ->
  exists msg,
    EmployeeDatabase.add_employee self employee_id name hourly_rate
      dependents db
    = (Raise (ValueError msg), db).
Proof.
  intros Hbad.
  unfold EmployeeDatabase.add_employee, Sql.bind, Sql.query, Sql.throw.
  destruct (Py.not_str (Py.strip employee_id)) eqn:Hid; [eauto|].
  destruct (Py.not_str (Py.strip name)) eqn:Hname; [eauto|].
  destruct (hourly_rate <? Binary64.zero)%float eqn:Hrate; [eauto|].
  destruct (Z.ltb_spec dependents 0) as [Hdeps|Hdeps]; [eauto|].
  destruct Hbad as [Hbad|[Hbad|[Hbad|Hbad]]]; [| |done|lia].
  - apply strip_whitespace_only in Hbad. by rewrite Hbad in Hid.
  - apply strip_whitespace_only in Hbad. by rewrite Hbad in Hname.
Qed.

Lemma add_employee_rejects_invalid_fields_witness :
  exists msg,
    EmployeeDatabase.add_employee (Sample.emp_db Sql.RunningSum)
      "E008" "Heidi Example" (Binary64.decimal 125 1) (-1)
      (Sample.db_T001 Sql.RunningSum)
    = (Raise (ValueError msg), Sample.db_T001 Sql.RunningSum).
Proof.
  apply add_employee_rejects_invalid_fields. right. right. right. lia.
Defined.

(** X3.  [update_employee] on an employee that exists refuses a supplied
    name of whitespace only, a supplied negative rate and a supplied
    negative number of dependents with [ValueError], and then writes none
    of the fields, the valid ones included. *)
Theorem update_employee_rejects_invalid_field
    (self : EmployeeDatabase.t) (employee_id : string)
    (name : option string) (hourly_rate : option float)
    (dependents : option Z) (db : Sql.database) (row : Sql.Row) :
  EmployeeDatabase.get_employee self employee_id db = Some row ->
  (exists n, name = Some n /\ whitespace_only n = true) \/
  (exists r, hourly_rate = Some r /\ (r <? Binary64.zero)%float = true) \/
  (exists d, dependents = Some d /\ d < 0) ->
  exists msg,
    EmployeeDatabase.update_employee self employee_id name hourly_rate
      dependents db
    = (Raise (ValueError msg), db).
Proof.
  intros Hrow Hbad.
  unfold EmployeeDatabase.update_employee, Sql.bind, Sql.query, Sql.throw.
  rewrite Hrow.
  unfold EmployeeDatabase.name_update, EmployeeDatabase.hourly_rate_update,
    EmployeeDatabase.dependents_update.
  destruct name as [n|]; cbn.
  - destruct (Py.not_str (Py.strip n)) eqn:Hn; [cbn; eauto|].
    destruct hourly_rate as [r|]; cbn.
    + destruct (r <? Binary64.zero)%float eqn:Hr; [cbn; eauto|].
      destruct dependents as [d|]; cbn.
      * destruct (Z.ltb_spec d 0) as [Hd|Hd]; [cbn; eauto|].
        destruct Hbad
          as [(? & [= <-] & Hw)|[(? & [= <-] & Hw)|(? & [= <-] & Hw)]];
          [|congruence|lia].
        apply strip_whitespace_only in Hw. by rewrite Hw in Hn.
      * destruct Hbad as [(? & [= <-] & Hw)|[(? & [= <-] & Hw)|(? & [=] & _)]];
          [|congruence].
        apply strip_whitespace_only in Hw. by rewrite Hw in Hn.
    + destruct dependents as [d|]; cbn.
      * destruct (Z.ltb_spec d 0) as [Hd|Hd]; [cbn; eauto|].
        destruct Hbad as [(? & [= <-] & Hw)|[(? & [=] & _)|(? & [= <-] & Hw)]];
          [|lia].
        apply strip_whitespace_only in Hw. by rewrite Hw in Hn.
      * destruct Hbad as [(? & [= <-] & Hw)|[(? & [=] & _)|(? & [=] & _)]].
        apply strip_whitespace_only in Hw. by rewrite Hw in Hn.
  - destruct hourly_rate as [r|]; cbn.
    + destruct (r <? Binary64.zero)%float eqn:Hr; [cbn; eauto|].
      destruct dependents as [d|]; cbn.
      * destruct (Z.ltb_spec d 0) as [Hd|Hd]; [cbn; eauto|].
        destruct Hbad as [(? & [=] & _)|[(? & [= <-] & Hw)|(? & [= <-] & Hw)]];
          [congruence|lia].
      * destruct Hbad as [(? & [=] & _)|[(? & [= <-] & Hw)|(? & [=] & _)]].
        congruence.
    + destruct dependents as [d|]; cbn.
      * destruct (Z.ltb_spec d 0) as [Hd|Hd]; [cbn; eauto|].
        destruct Hbad as [(? & [=] & _)|[(? & [=] & _)|(? & [= <-] & Hw)]].
        lia.
      * by destruct Hbad as [(? & [=] & _)|[(? & [=] & _)|(? & [=] & _)]].
Qed.

Lemma update_employee_rejects_invalid_field_witness :
  exists msg,
    EmployeeDatabase.update_employee (Sample.emp_db Sql.RunningSum) "T001"
      (Some "Renamed User") (Some (Binary64.of_Z (-3))) (Some 2)
      (Sample.db_T001 Sql.RunningSum)
    = (Raise (ValueError msg), Sample.db_T001 Sql.RunningSum).
Proof.
  apply update_employee_rejects_invalid_field
    with (row := Sql.MkRow "T001" "Test User" (Binary64.of_Z 25) 0).
  - vm_compute. reflexivity.
  - right. left. exists (Binary64.of_Z (-3)). split; [reflexivity|].
    vm_compute. reflexivity.
Defined.

(** X4.  A NaN gets past every guard of the methods, since no comparison
    with a NaN holds, and is stopped by the schema only: SQLite binds it
    as NULL and the NOT NULL constraint of the column fails.  With the
    other arguments valid (dependents within the range of an INTEGER
    column) the caller sees [sqlite3.IntegrityError] instead of the
    [ValueError] the methods raise for invalid data; nothing is
    written. *)
Theorem nan_is_rejected_by_the_schema_only
    (emp_db : EmployeeDatabase.t) (tracker : TimeTracker.t) (today : date)
    (db : Sql.database) :
  (forall employee_id name dependents,
     Py.strip employee_id <> "" -> valid_name name ->
     0 <= dependents < 2 ^ 63 ->
     EmployeeDatabase.get_employee emp_db (Py.strip employee_id) db = None ->
     EmployeeDatabase.add_employee emp_db employee_id name S754_nan
       dependents db
     = (Raise (IntegrityError (NotNullFailed "hourly_rate")), db)) /\
  (forall employee_id name dependents,
     is_Some (EmployeeDatabase.get_employee emp_db employee_id db) ->
     (forall n, name = Some n -> valid_name n) ->
     (forall d, dependents = Some d -> 0 <= d < 2 ^ 63) ->
     EmployeeDatabase.update_employee emp_db employee_id name
       (Some S754_nan) dependents db
     = (Raise (IntegrityError (NotNullFailed "hourly_rate")), db)) /\
  (forall employee_id entry_date,
     is_Some (EmployeeDatabase.get_employee emp_db employee_id db) ->
     TimeTracker.record_hours tracker today employee_id S754_nan entry_date db
     = (Raise (IntegrityError (NotNullFailed "regular_hours")), db)).
Proof.
  split; [|split].
  - intros employee_id name dependents Hid Hname Hdeps Hfree.
    unfold EmployeeDatabase.add_employee, Sql.bind, Sql.query, Sql.throw.
    rewrite (not_str_false _ Hid), (not_str_false _ Hname). cbn.
    destruct (Z.ltb_spec dependents 0); [lia|]. rewrite Hfree.
    unfold Sql.insert_employee. by rewrite (fits_INTEGER_valid _ Hdeps).
  - intros employee_id name dependents [row Hrow] Hname Hdeps.
    unfold EmployeeDatabase.update_employee, Sql.bind, Sql.query, Sql.throw.
    rewrite Hrow.
    unfold EmployeeDatabase.get_employee, Sql.select_employee in Hrow.
    destruct (Sql.employees db !! employee_id) as [e|] eqn:He; [|done].
    unfold EmployeeDatabase.name_update, EmployeeDatabase.hourly_rate_update,
      EmployeeDatabase.dependents_update.
    destruct name as [n|]; cbn.
    + rewrite (not_str_false _ (Hname n eq_refl)). cbn.
      destruct dependents as [d|]; cbn.
      * specialize (Hdeps d eq_refl).
        destruct (Z.ltb_spec d 0); [lia|]. cbn.
        unfold Sql.update_employee. cbn [forallb Sql.binds andb].
        rewrite (fits_INTEGER_valid _ Hdeps). by rewrite He.
      * unfold Sql.update_employee. by rewrite He.
    + destruct dependents as [d|]; cbn.
      * specialize (Hdeps d eq_refl).
        destruct (Z.ltb_spec d 0); [lia|]. cbn.
        unfold Sql.update_employee. cbn [forallb Sql.binds andb].
        rewrite (fits_INTEGER_valid _ Hdeps). by rewrite He.
      * unfold Sql.update_employee. by rewrite He.
  - intros employee_id entry_date [row Hrow].
    unfold TimeTracker.record_hours, Sql.bind, Sql.query, Sql.throw. cbn.
    unfold EmployeeDatabase.get_employee in Hrow. rewrite Hrow.
    unfold Sql.insert_time_entry, TimeTracker.reg_hours, Py.min.
    replace (TimeTracker.overtime_threshold tracker <? S754_nan)%float
      with false by (by destruct (TimeTracker.overtime_threshold tracker)).
    done.
Qed.

Lemma nan_is_rejected_by_the_schema_only_witness :
  EmployeeDatabase.add_employee (Sample.emp_db Sql.RunningSum)
    "E009" "Ivan Example" S754_nan 0 (Sample.db_T001 Sql.RunningSum)
  = (Raise (IntegrityError (NotNullFailed "hourly_rate")),
     Sample.db_T001 Sql.RunningSum) /\
  EmployeeDatabase.update_employee (Sample.emp_db Sql.RunningSum)
    "T001" (Some "Renamed User") (Some S754_nan) None
    (Sample.db_T001 Sql.RunningSum)
  = (Raise (IntegrityError (NotNullFailed "hourly_rate")),
     Sample.db_T001 Sql.RunningSum) /\
  TimeTracker.record_hours (Sample.time_tracker Sql.RunningSum) Sample.today
    "T001" S754_nan None (Sample.db_T001 Sql.RunningSum)
  = (Raise (IntegrityError (NotNullFailed "regular_hours")),
     Sample.db_T001 Sql.RunningSum).
Proof.
  destruct (nan_is_rejected_by_the_schema_only
              (Sample.emp_db Sql.RunningSum)
              (Sample.time_tracker Sql.RunningSum) Sample.today
              (Sample.db_T001 Sql.RunningSum)) as (Hadd & Hupdate & Hrecord).
  split; [|split].
  - apply Hadd; [vm_compute; discriminate | vm_compute; discriminate
                | lia | vm_compute; reflexivity].
  - apply Hupdate.
    + vm_compute. eauto.
    + intros n [= <-]. vm_compute. discriminate.
    + intros d [=].
  - apply Hrecord. vm_compute. eauto.
Defined.

(* ===================================================================== *)
(** ** Exceptions and writes *)
(* ===================================================================== *)

Section Raising.

(** Statements that raise leave the database as it was. *)
Lemma insert_employee_raise (k nm : string) (rate : float) (deps : Z)
    (db : Sql.database) (e : exn) :
  (Sql.insert_employee k nm rate deps db).1 = Raise e ->
  (Sql.insert_employee k nm rate deps db).2 = db.
Proof.
  unfold Sql.insert_employee.
  destruct (negb (Sql.fits_INTEGER deps)); [done|].
  destruct (Sql.to_REAL rate); [|done].
  destruct (negb _); [done|]. destruct (deps <? 0); [done|].
  by destruct (Sql.employees db !! k).
Qed.

Lemma sql_update_employee_raise (sets : list Sql.assignment) (k : string)
    (db : Sql.database) (e : exn) :
  (Sql.update_employee sets k db).1 = Raise e ->
  (Sql.update_employee sets k db).2 = db.
Proof.
  unfold Sql.update_employee.
  destruct (negb (forallb Sql.binds sets)); [done|].
  destruct (Sql.employees db !! k); [|done].
  by destruct (Sql.first_violation Sql.not_null_of sets),
    (Sql.first_violation Sql.check_of sets).
Qed.

Lemma insert_time_entry_raise (c : Sql.connection) (k day : string)
    (reg ot : float) (db : Sql.database) (e : exn) :
  (Sql.insert_time_entry c k day reg ot db).1 = Raise e ->
  (Sql.insert_time_entry c k day reg ot db).2 = db.
Proof.
  unfold Sql.insert_time_entry.
  destruct (Sql.to_REAL reg), (Sql.to_REAL ot); try done.
  destruct (negb _); [done|]. destruct (negb _); [done|].
  by destruct (_ && _).
Qed.

End Raising.

(** X5.  A call that raises has written nothing.  Whenever
    [add_employee], [update_employee] or [record_hours] ends in a
    [ValueError], a [KeyError], an [sqlite3.IntegrityError] or an
    [OverflowError], the two tables are what they were before the call:
    the guards raise before any statement runs, a statement whose
    parameters cannot be bound does not run, and a statement that breaks
    a constraint changes no row. *)
Theorem raising_methods_write_nothing
    (emp_db : EmployeeDatabase.t) (tracker : TimeTracker.t) (today : date)
    (employee_id : string) (db : Sql.database) (e : exn) :
  (forall name hourly_rate dependents,
     (EmployeeDatabase.add_employee emp_db employee_id name hourly_rate
        dependents db).1 = Raise e ->
     (EmployeeDatabase.add_employee emp_db employee_id name hourly_rate
        dependents db).2 = db) /\
  (forall name hourly_rate dependents,
     (EmployeeDatabase.update_employee emp_db employee_id name hourly_rate
        dependents db).1 = Raise e ->
     (EmployeeDatabase.update_employee emp_db employee_id name hourly_rate
        dependents db).2 = db) /\
  (forall hours_worked entry_date,
     (TimeTracker.record_hours tracker today employee_id hours_worked
        entry_date db).1 = Raise e ->
     (TimeTracker.record_hours tracker today employee_id hours_worked
        entry_date db).2 = db).
Proof.
  split; [|split].
  - intros name hourly_rate dependents.
    unfold EmployeeDatabase.add_employee, Sql.bind, Sql.query, Sql.throw.
    destruct (Py.not_str _); [done|]. destruct (Py.not_str _); [done|].
    destruct (_ <? _)%float; [done|]. destruct (dependents <? 0); [done|].
    destruct (EmployeeDatabase.get_employee _ _ _); [done|].
    apply insert_employee_raise.
  - intros name hourly_rate dependents.
    unfold EmployeeDatabase.update_employee, Sql.bind, Sql.query, Sql.throw.
    destruct (EmployeeDatabase.get_employee _ _ _); [|done].
    destruct (bind_result _ _) as [[|a sets]|]; [done| |done].
    apply sql_update_employee_raise.
  - intros hours_worked entry_date.
    unfold TimeTracker.record_hours, Sql.bind, Sql.query, Sql.throw.
    destruct (_ <? _)%float; [done|].
    destruct (Sql.select_employee _ _); [|done].
    apply insert_time_entry_raise.
Qed.

Lemma raising_methods_write_nothing_witness :
  (EmployeeDatabase.update_employee (Sample.emp_db Sql.RunningSum)
     "T001" (Some "Renamed User") None (Some (2 ^ 63))
     (Sample.db_T001 Sql.RunningSum)).1
  = Raise Sql.int_too_large /\
  (EmployeeDatabase.update_employee (Sample.emp_db Sql.RunningSum)
     "T001" (Some "Renamed User") None (Some (2 ^ 63))
     (Sample.db_T001 Sql.RunningSum)).2
  = Sample.db_T001 Sql.RunningSum /\
  (TimeTracker.record_hours (Sample.negative_tracker Sql.RunningSum)
     Sample.today "T001" (Binary64.of_Z 8) None
     (Sample.db_T001 Sql.RunningSum)).1
  = Raise (IntegrityError (CheckFailed "regular_hours")) /\
  (TimeTracker.record_hours (Sample.negative_tracker Sql.RunningSum)
     Sample.today "T001" (Binary64.of_Z 8) None
     (Sample.db_T001 Sql.RunningSum)).2
  = Sample.db_T001 Sql.RunningSum.
Proof.
  split; [vm_compute; reflexivity|]. split; [|split].
  - apply (proj1 (proj2 (raising_methods_write_nothing
                           (Sample.emp_db Sql.RunningSum)
                           (Sample.time_tracker Sql.RunningSum) Sample.today
                           "T001" (Sample.db_T001 Sql.RunningSum)
                           Sql.int_too_large))).
    vm_compute. reflexivity.
  - vm_compute. reflexivity.
  - apply (proj2 (proj2 (raising_methods_write_nothing
                           (Sample.emp_db Sql.RunningSum)
                           (Sample.negative_tracker Sql.RunningSum)
                           Sample.today "T001"
                           (Sample.db_T001 Sql.RunningSum)
                           (IntegrityError (CheckFailed "regular_hours"))))).
    vm_compute. reflexivity.
Defined.

(* ===================================================================== *)
(** ** Deleting an employee: what it removes *)
(* ===================================================================== *)

Section Deleting.

(** A sorted list stays sorted when rows are filtered out. *)
Lemma StronglySorted_filter {A} (R : relation A) (P : A -> Prop)
    `{forall x, Decision (P x)} (l : list A) :
  StronglySorted R l -> StronglySorted R (filter P l).
Proof.
  induction 1 as [|x l _ IH Hx]; [constructor|].
  rewrite filter_cons. destruct (decide (P x)); [|done].
  constructor; [done|].
  apply Forall_forall. intros y [_ Hy]%list_elem_of_filter.
  by apply (proj1 (Forall_forall _ _) Hx).
Qed.

(** The rows listed after a delete are the rows listed before it, less
    the one deleted. *)
Lemma list_employees_delete
    (self : EmployeeDatabase.t) (employee_id : string) (db : Sql.database)
    (row : Sql.Row) :
  row ∈ EmployeeDatabase.list_employees self
          (EmployeeDatabase.delete_employee self employee_id db).2 <->
  row ∈ filter (fun row => Sql.id row <> employee_id)
          (EmployeeDatabase.list_employees self db).
Proof.
  rewrite list_elem_of_filter, !list_employees_lookup.
  unfold EmployeeDatabase.get_employee, Sql.select_employee. cbn.
  destruct (decide (Sql.id row = employee_id)) as [->|Hne].
  - rewrite lookup_delete_eq. cbn. split; [done|]. by intros [? _].
  - rewrite lookup_delete_ne by done. split; [done|]. by intros [_ ?].
Qed.

End Deleting.

(** X6.  What [delete_employee] removes, on the connection the program
    opens.  When the call returns, the id is absent; every other employee
    and every time entry is as before; [list_employees] returns the old
    list without the row of that id, the other rows in their old order;
    on an id that was absent already the tables have not changed, and a
    second delete of the id changes nothing either. *)
Theorem delete_employee_removes_one_row
    (lib : Sql.summation) (employee_id : string) (db db' : Sql.database) :
  let self := EmployeeDatabase.__init__ lib in
  EmployeeDatabase.delete_employee self employee_id db = (Ok tt, db') ->
  EmployeeDatabase.get_employee self employee_id db' = None /\
  (forall other, other <> employee_id ->
     EmployeeDatabase.get_employee self other db'
     = EmployeeDatabase.get_employee self other db) /\
  Sql.time_entries db' = Sql.time_entries db /\
  EmployeeDatabase.list_employees self db'
  = filter (fun row => Sql.id row <> employee_id)
      (EmployeeDatabase.list_employees self db) /\
  (EmployeeDatabase.get_employee self employee_id db = None -> db' = db) /\
  (EmployeeDatabase.delete_employee self employee_id db').2 = db'.
Proof.
  intros self Hdelete.
  assert (Hdb' : db' = (EmployeeDatabase.delete_employee self employee_id db).2)
    by (by rewrite Hdelete).
  clear Hdelete. subst db' self.
  split; [|split; [|split; [done|split; [|split]]]].
  - unfold EmployeeDatabase.get_employee, Sql.select_employee. cbn.
    by rewrite lookup_delete_eq.
  - intros other Hother.
    unfold EmployeeDatabase.get_employee, Sql.select_employee. cbn.
    by rewrite lookup_delete_ne.
  - set (self := EmployeeDatabase.__init__ lib).
    set (db' := (EmployeeDatabase.delete_employee self employee_id db).2).
    apply (StronglySorted_unique_strong Sql.id_le).
    + intros row1 row2 Hin1 Hin2 Hle1 Hle2.
      pose proof (String.leb_antisym _ _ Hle1 Hle2) as Hid.
      apply list_employees_delete, list_elem_of_filter in Hin1 as [_ Hin1].
      apply list_elem_of_filter in Hin2 as [_ Hin2].
      apply list_employees_lookup in Hin1, Hin2.
      rewrite Hid in Hin1. congruence.
    + apply StronglySorted_merge_sort; apply _.
    + apply StronglySorted_filter, StronglySorted_merge_sort; apply _.
    + apply NoDup_Permutation.
      * eapply NoDup_fmap_1, list_employees_ids_NoDup.
      * apply NoDup_filter. eapply NoDup_fmap_1, list_employees_ids_NoDup.
      * intros row. apply list_employees_delete.
  - unfold EmployeeDatabase.get_employee, Sql.select_employee.
    intros Habsent.
    unfold EmployeeDatabase.delete_employee, Sql.delete_employee.
    destruct db as [employees entries seq]. cbn in *.
    f_equal. apply delete_id.
    by destruct (employees !! employee_id).
  - unfold EmployeeDatabase.delete_employee, Sql.delete_employee. cbn.
    f_equal. apply delete_id. by rewrite lookup_delete_eq.
Qed.

Lemma delete_employee_removes_one_row_witness :
  EmployeeDatabase.list_employees (Sample.emp_db Sql.RunningSum)
    (Sample.db_deleted Sql.RunningSum)
  = [Sql.MkRow "T001" "Test User" (Binary64.of_Z 25) 0] /\
  Sql.time_entries (Sample.db_deleted Sql.RunningSum)
  = Sql.time_entries (Sample.db_T002_50 Sql.RunningSum).
Proof.
  destruct (delete_employee_removes_one_row Sql.RunningSum "T002"
              (Sample.db_T002_50 Sql.RunningSum)
              (Sample.db_deleted Sql.RunningSum))
    as (_ & _ & Hentries & Hlist & _).
  - reflexivity.
  - split; [|exact Hentries]. unfold Sample.emp_db. rewrite Hlist.
    vm_compute. reflexivity.
Defined.

(** X7.  [delete_employee] undoes [add_employee]: when an employee has
    been added under an id that was free, deleting the trimmed id gives
    back the database as it was before the two calls. *)
Theorem delete_employee_undoes_add_employee
    (lib : Sql.summation) (employee_id name : string)
    (hourly_rate : float) (dependents : Z) (db db' : Sql.database) :
  let self := EmployeeDatabase.__init__ lib in
  EmployeeDatabase.add_employee self employee_id name hourly_rate
    dependents db = (Ok tt, db') ->
  EmployeeDatabase.delete_employee self (Py.strip employee_id) db'
  = (Ok tt, db).
Proof.
  intros self. subst self.
  unfold EmployeeDatabase.add_employee, Sql.bind, Sql.query, Sql.throw.
  destruct (Py.not_str _); [done|]. destruct (Py.not_str _); [done|].
  destruct (_ <? _)%float; [done|]. destruct (dependents <? 0); [done|].
  unfold EmployeeDatabase.get_employee, Sql.select_employee.
  destruct (Sql.employees db !! Py.strip employee_id) eqn:Hfree; [done|]. cbn.
  unfold Sql.insert_employee.
  destruct (negb (Sql.fits_INTEGER dependents)); [done|].
  destruct (Sql.to_REAL hourly_rate); [|done].
  destruct (negb _); [done|]. destruct (dependents <? 0); [done|].
  rewrite Hfree. intros [= <-].
  unfold EmployeeDatabase.delete_employee, Sql.delete_employee. cbn.
  destruct db as [employees entries seq]. cbn in *.
  by rewrite delete_insert_id.
Qed.

Lemma delete_employee_undoes_add_employee_witness :
  EmployeeDatabase.delete_employee (Sample.emp_db Sql.RunningSum) "T002"
    (Sample.db_T002 Sql.RunningSum)
  = (Ok tt, Sample.db_T001 Sql.RunningSum).
Proof.
  apply (delete_employee_undoes_add_employee Sql.RunningSum
           "T002" "Overtime User" (Binary64.of_Z 10) 0).
  vm_compute. reflexivity.
Defined.

(* ===================================================================== *)
(** ** Invariants of the database *)
(* ===================================================================== *)

Section Invariant.

Lemma to_REAL_real_value (x r : float) :
  Sql.to_REAL x = Some r -> real_value r.
Proof. unfold real_value. by destruct x as [[]|[]| |]; intros [= <-]. Qed.

Lemma consistent_empty : consistent Sql.empty.
Proof.
  unfold consistent, Sql.empty. cbn.
  split; [apply map_Forall_empty|]. split; [constructor|].
  split; [constructor|done].
Qed.

Lemma add_employee_consistent
    (self : EmployeeDatabase.t) (employee_id name : string)
    (hourly_rate : float) (dependents : Z) (db : Sql.database) :
  consistent db ->
  consistent
    (EmployeeDatabase.add_employee self employee_id name hourly_rate
       dependents db).2.
Proof.
  intros Hdb.
  unfold EmployeeDatabase.add_employee, Sql.bind, Sql.query, Sql.throw.
  destruct (Py.not_str (Py.strip employee_id)) eqn:Hid; [done|].
  destruct (Py.not_str (Py.strip name)) eqn:Hname; [done|].
  destruct (_ <? _)%float; [done|]. destruct (dependents <? 0); [done|].
  destruct (EmployeeDatabase.get_employee _ _ _); [done|].
  unfold Sql.insert_employee.
  destruct (Sql.fits_INTEGER dependents) eqn:Hfits; [|done].
  apply andb_prop in Hfits as [_ Hfits%Z.ltb_lt]. cbn [negb].
  destruct (Sql.to_REAL hourly_rate) as [r|] eqn:Hreal; [|done].
  apply to_REAL_real_value in Hreal.
  destruct (Binary64.zero <=? r)%float eqn:Hr; [|done]. cbn.
  destruct (Z.ltb_spec dependents 0) as [|Hdeps]; [done|].
  destruct (Sql.employees db !! Py.strip employee_id); [done|]. cbn.
  destruct Hdb as (Hemp & Hentries & Hnodup & Hseq).
  split; [|done]. cbn. apply map_Forall_insert_2; [|done].
  unfold employee_ok. cbn [Sql.emp_name Sql.emp_hourly_rate Sql.emp_dependents].
  split; [by intros Hempty; rewrite Hempty in Hid|].
  split; [apply strip_idemp|].
  split; [by intros Hempty; rewrite Hempty in Hname|].
  split; [apply strip_idemp|]. done.
Qed.

(** The SET list [update_employee] builds holds trimmed names that are not
    empty. *)
Lemma updates_names_trimmed
    (name : option string) (hourly_rate : option float)
    (dependents : option Z) (sets : list Sql.assignment) :
  bind_result (EmployeeDatabase.name_update name []) (fun updates =>
  bind_result (EmployeeDatabase.hourly_rate_update hourly_rate updates)
    (fun updates => EmployeeDatabase.dependents_update dependents updates))
  = Ok sets ->
  Forall
    (fun a => forall nm, a = Sql.SetName nm -> nm <> "" /\ Py.strip nm = nm)
    sets.
Proof.
  unfold EmployeeDatabase.name_update, EmployeeDatabase.hourly_rate_update,
    EmployeeDatabase.dependents_update.
  assert (Hname : forall n, Py.not_str (Py.strip n) = false ->
            forall nm, Sql.SetName (Py.strip n) = Sql.SetName nm ->
                       nm <> "" /\ Py.strip nm = nm).
  { intros n Hn nm [= <-]. rewrite strip_idemp. split; [|done].
    intros Hempty. by rewrite Hempty in Hn. }
  destruct name as [n|]; cbn;
    [destruct (Py.not_str (Py.strip n)) eqn:Hn; [done|]; cbn|];
    (destruct hourly_rate as [r|]; cbn;
     [destruct (r <? Binary64.zero)%float; [done|]; cbn|]);
    (destruct dependents as [d|]; cbn;
     [destruct (d <? 0); [done|]; cbn|]);
    intros [= <-]; cbn;
    repeat (apply Forall_cons_2); try apply Forall_nil_2; try done;
    by apply Hname.
Qed.

(** A row stays as the schema wants it under a SET list that can be
    bound and passes the constraints. *)
Lemma assign_employee_ok (k : string) (sets : list Sql.assignment)
    (e : Sql.employee) :
  Forall
    (fun a => forall nm, a = Sql.SetName nm -> nm <> "" /\ Py.strip nm = nm)
    sets ->
  forallb Sql.binds sets = true ->
  Sql.first_violation Sql.not_null_of sets = None ->
  Sql.first_violation Sql.check_of sets = None ->
  employee_ok k e -> employee_ok k (fold_left Sql.assign sets e).
Proof.
  intros Hnames. revert e.
  induction Hnames as [|a sets Ha _ IH]; intros e Hbind Hnn Hck He; [done|].
  cbn in Hbind, Hnn, Hck |- *.
  apply andb_prop in Hbind as [Hbinda Hbind].
  destruct (Sql.not_null_of a) eqn:Hnna; [done|].
  destruct (Sql.check_of a) eqn:Hcka; [done|].
  apply IH; [done|done|done|].
  destruct He as (Hk1 & Hk2 & Hn1 & Hn2 & Hreal & Hrate & Hdeps).
  destruct a as [nm|r|d]; unfold employee_ok; cbn.
  - destruct (Ha nm eq_refl) as [Hnm1 Hnm2]. done.
  - cbn in Hnna, Hcka. destruct (Sql.to_REAL r) as [v|] eqn:Hv; [|done].
    apply to_REAL_real_value in Hv. cbn.
    destruct (Binary64.zero <=? v)%float; [done|done].
  - cbn in Hcka, Hbinda. destruct (Z.ltb_spec d 0); [done|].
    apply andb_prop in Hbinda as [_ Hd%Z.ltb_lt].
    repeat split; try done.
Qed.

Lemma update_employee_consistent
    (self : EmployeeDatabase.t) (employee_id : string)
    (name : option string) (hourly_rate : option float)
    (dependents : option Z) (db : Sql.database) :
  consistent db ->
  consistent
    (EmployeeDatabase.update_employee self employee_id name hourly_rate
       dependents db).2.
Proof.
  intros Hdb.
  unfold EmployeeDatabase.update_employee, Sql.bind, Sql.query, Sql.throw.
  destruct (EmployeeDatabase.get_employee _ _ _); [|done].
  destruct (bind_result _ _) as [sets|] eqn:Hsets; [|done].
  apply updates_names_trimmed in Hsets.
  destruct sets as [|a sets]; [done|].
  unfold Sql.update_employee.
  destruct (forallb Sql.binds (a :: sets)) eqn:Hbind; [|done]. cbn [negb].
  destruct (Sql.employees db !! employee_id) as [e|] eqn:He; [|done].
  destruct (Sql.first_violation Sql.not_null_of (a :: sets)) eqn:Hnn; [done|].
  destruct (Sql.first_violation Sql.check_of (a :: sets)) eqn:Hck; [done|].
  destruct Hdb as (Hemp & Hentries & Hnodup & Hseq).
  split; [|done]. cbn [Sql.employees snd].
  apply map_Forall_insert_2; [|done].
  apply assign_employee_ok; try done.
  by apply (proj1 (map_Forall_lookup _ _) Hemp).
Qed.

Lemma delete_employee_consistent
    (self : EmployeeDatabase.t) (employee_id : string) (db : Sql.database) :
  consistent db ->
  consistent (EmployeeDatabase.delete_employee self employee_id db).2.
Proof.
  intros (Hemp & Hentries & Hnodup & Hseq).
  unfold EmployeeDatabase.delete_employee, Sql.delete_employee. cbn.
  split; [by apply map_Forall_delete|]. cbn.
  destruct (Sql.foreign_keys _); [|done].
  split; [|split; [|done]].
  - apply Forall_forall. intros t [_ Hin]%list_elem_of_filter.
    by apply (proj1 (Forall_forall _ _) Hentries).
  - eapply sublist_NoDup; [exact Hnodup|].
    apply fmap_sublist, sublist_filter.
Qed.

Lemma record_hours_consistent
    (self : TimeTracker.t) (today : date) (employee_id : string)
    (hours_worked : float) (entry_date : option date) (db : Sql.database) :
  consistent db ->
  consistent
    (TimeTracker.record_hours self today employee_id hours_worked
       entry_date db).2.
Proof.
  intros Hdb.
  unfold TimeTracker.record_hours, Sql.bind, Sql.query, Sql.throw.
  destruct (_ <? _)%float; [done|].
  destruct (Sql.select_employee _ _) as [found|]; [|done].
  unfold Sql.insert_time_entry.
  destruct (Sql.to_REAL (TimeTracker.reg_hours _ _)) as [r|] eqn:Hreg; [|done].
  destruct (Sql.to_REAL (TimeTracker.ot_hours _ _)) as [o|] eqn:Hot; [|done].
  apply to_REAL_real_value in Hreg, Hot.
  destruct (Binary64.zero <=? r)%float eqn:Hr; [|done].
  destruct (Binary64.zero <=? o)%float eqn:Ho; [|done]. cbn.
  destruct (_ && _); [done|]. cbn.
  destruct Hdb as (Hemp & Hentries & Hnodup & Hseq).
  split; [done|]. cbn. split; [|split; [|lia]].
  - apply Forall_app. split.
    + eapply Forall_impl; [exact Hentries|].
      intros t (Hid & Hrest). unfold entry_ok. split; [lia|done].
    + repeat constructor; cbn; try done; lia.
  - rewrite fmap_app. apply NoDup_app. split; [done|]. split.
    + intros n Hin [->|[]%elem_of_nil]%elem_of_cons.
      apply list_elem_of_fmap in Hin as (t & Ht & Hin).
      apply (proj1 (Forall_forall _ _) Hentries) in Hin as (Hid & _).
      cbn in Ht. lia.
    + cbn. apply NoDup_singleton.
Qed.

(** Every database the methods can produce is consistent. *)
Lemma reachable_consistent (db : Sql.database) :
  reachable db -> consistent db.
Proof.
  induction 1.
  - apply consistent_empty.
  - by apply add_employee_consistent.
  - by apply update_employee_consistent.
  - by apply delete_employee_consistent.
  - by apply record_hours_consistent.
Qed.

Lemma get_time_entries_lookup
    (self : TimeTracker.t) (k : string) (db : Sql.database)
    (t : Sql.time_entry) :
  t ∈ TimeTracker.get_time_entries self k db <->
  t ∈ Sql.time_entries db /\ Sql.employee_id t = k.
Proof.
  unfold TimeTracker.get_time_entries.
  rewrite select_entries_by_date_Permutation.
  unfold Sql.entries_of. rewrite list_elem_of_filter. tauto.
Qed.

End Invariant.

(** X8.  Whatever sequence of [add_employee], [update_employee],
    [delete_employee] and [record_hours] calls an empty database file has
    seen, with whatever arguments and whether the calls returned or
    raised: every employee [list_employees] returns has an id and a name
    that are trimmed and not empty, a rate that is not NaN and not
    negative, and a number of dependents that is not negative and fits
    an INTEGER; every
    entry [get_time_entries] returns has regular and overtime hours that
    are not NaN and not negative; and no two time entries share an
    [entry_id]. *)
Theorem reachable_databases_are_consistent (db : Sql.database) :
  reachable db ->
  (forall self row,
     row ∈ EmployeeDatabase.list_employees self db ->
     Sql.id row <> "" /\ Py.strip (Sql.id row) = Sql.id row /\
     Sql.name row <> "" /\ Py.strip (Sql.name row) = Sql.name row /\
     real_value (Sql.hourly_rate row) /\
     (Binary64.zero <=? Sql.hourly_rate row)%float = true /\
     0 <= Sql.dependents row < 2 ^ 63) /\
  (forall self k t,
     t ∈ TimeTracker.get_time_entries self k db ->
     real_value (Sql.regular_hours t) /\
     (Binary64.zero <=? Sql.regular_hours t)%float = true /\
     real_value (Sql.overtime_hours t) /\
     (Binary64.zero <=? Sql.overtime_hours t)%float = true) /\
  NoDup (Sql.entry_id <$> Sql.time_entries db).
Proof.
  intros (Hemp & Hentries & Hnodup & _)%reachable_consistent.
  split; [|split; [|done]].
  - intros self row Hin%list_employees_lookup.
    unfold EmployeeDatabase.get_employee, Sql.select_employee in Hin.
    destruct (Sql.employees db !! Sql.id row) as [e|] eqn:He; [|done].
    apply (proj1 (map_Forall_lookup _ _) Hemp) in He.
    injection Hin as <-. exact He.
  - intros self k t [Hin _]%get_time_entries_lookup.
    apply (proj1 (Forall_forall _ _) Hentries) in Hin as (_ & Hrest).
    exact Hrest.
Qed.

Lemma reachable_databases_are_consistent_witness :
  NoDup (Sql.entry_id <$> Sql.time_entries (Sample.db_deleted Sql.RunningSum)).
Proof.
  apply reachable_databases_are_consistent.
  apply reachable_delete, reachable_record, reachable_add, reachable_add,
    reachable_empty.
Defined.



Section WithoutFailure.

Lemma reachable_without_failure_reachable (db : Sql.database) :
  reachable_without_failure db -> reachable db.
Proof. induction 1; by constructor. Qed.

End WithoutFailure.

(** X10.  [get_employee] followed by [update_employee]: writing back to an
    employee the name, the rate and the dependents [get_employee] has
    just returned is accepted and changes nothing, after whatever calls
    none of whose statements failed (each call returned, or a guard
    refused it before its statement ran): what is stored already is
    trimmed, not negative and a value the columns hold. *)
Theorem update_employee_with_stored_values
    (self : EmployeeDatabase.t) (employee_id : string) (row : Sql.Row)
    (db : Sql.database) :
  reachable_without_failure db ->
  EmployeeDatabase.get_employee self employee_id db = Some row ->
  EmployeeDatabase.update_employee self employee_id (Some (Sql.name row))
    (Some (Sql.hourly_rate row)) (Some (Sql.dependents row)) db
  = (Ok tt, db).
Proof.
  intros Hdb%reachable_without_failure_reachable Hrow.
  apply reachable_consistent in Hdb as (Hemp & _).
  unfold EmployeeDatabase.update_employee, Sql.bind, Sql.query, Sql.throw.
  rewrite Hrow.
  unfold EmployeeDatabase.get_employee, Sql.select_employee in Hrow.
  destruct (Sql.employees db !! employee_id) as [e|] eqn:He; [|done].
  injection Hrow as <-.
  pose proof (proj1 (map_Forall_lookup _ _) Hemp _ _ He)
    as (_ & _ & Hname & Htrim & Hreal & Hrate & Hdeps).
  pose proof (fits_INTEGER_valid _ Hdeps) as Hfits.
  unfold valid_dependents in Hdeps.
  unfold EmployeeDatabase.name_update, EmployeeDatabase.hourly_rate_update,
    EmployeeDatabase.dependents_update.
  cbn [Sql.row_of Sql.name Sql.hourly_rate Sql.dependents].
  rewrite Htrim, (not_str_false _ Hname). cbn [bind_result app].
  rewrite (leb_zero_not_ltb _ Hrate). cbn [bind_result app].
  destruct (Z.ltb_spec (Sql.emp_dependents e) 0) as [|_]; [lia|].
  cbn [bind_result app].
  unfold Sql.update_employee. cbn [forallb Sql.binds andb].
  rewrite Hfits. cbn [negb]. rewrite He.
  unfold real_value in Hreal.
  cbn [Sql.first_violation Sql.not_null_of Sql.check_of].
  rewrite Hreal, Hrate. cbn [negb].
  destruct (Z.ltb_spec (Sql.emp_dependents e) 0) as [|_]; [lia|].
  cbn [fold_left Sql.assign Sql.emp_name Sql.emp_hourly_rate
         Sql.emp_dependents default].
  rewrite Hreal. cbn [default from_option].
  destruct db as [employees entries seq], e as [nm r d]. cbn in *.
  by rewrite insert_id.
Qed.

Lemma update_employee_with_stored_values_witness :
  EmployeeDatabase.update_employee (Sample.emp_db Sql.RunningSum) "T002"
    (Some "Overtime User") (Some (Binary64.of_Z 10)) (Some 0)
    (Sample.db_T002_50 Sql.RunningSum)
  = (Ok tt, Sample.db_T002_50 Sql.RunningSum).
Proof.
  apply (update_employee_with_stored_values (Sample.emp_db Sql.RunningSum)
           "T002" (Sql.MkRow "T002" "Overtime User" (Binary64.of_Z 10) 0)).
  - apply without_failure_record;
      [apply without_failure_add;
         [apply without_failure_add; [apply without_failure_empty|]|]|];
      vm_compute; exact I.
  - vm_compute. reflexivity.
Defined.

(* ===================================================================== *)
(** ** What a method leaves untouched *)
(* ===================================================================== *)

Section Frames.

(** What each method may change, whether it returns or raises:
    [add_employee] the row of the trimmed id, [update_employee] the row
    of its id, and neither any time entry; [record_hours] appends entries
    of its employee and changes no row of [employees]. *)
Lemma add_employee_frame
    (self : EmployeeDatabase.t) (employee_id name : string)
    (hourly_rate : float) (dependents : Z) (db : Sql.database) :
  let db' :=
    (EmployeeDatabase.add_employee self employee_id name hourly_rate
       dependents db).2 in
  (forall k, k <> Py.strip employee_id ->
     Sql.employees db' !! k = Sql.employees db !! k) /\
  (forall k, is_Some (Sql.employees db !! k) ->
     is_Some (Sql.employees db' !! k)) /\
  Sql.time_entries db' = Sql.time_entries db.
Proof.
  unfold EmployeeDatabase.add_employee, Sql.bind, Sql.query, Sql.throw.
  destruct (Py.not_str _); [done|]. destruct (Py.not_str _); [done|].
  destruct (_ <? _)%float; [done|]. destruct (dependents <? 0); [done|].
  destruct (EmployeeDatabase.get_employee _ _ _); [done|].
  unfold Sql.insert_employee.
  destruct (negb (Sql.fits_INTEGER dependents)); [done|].
  destruct (Sql.to_REAL hourly_rate); [|done].
  destruct (negb _); [done|]. destruct (dependents <? 0); [done|].
  destruct (Sql.employees db !! Py.strip employee_id) eqn:Hfree; [done|]. cbn.
  split; [by intros k Hk; rewrite lookup_insert_ne|]. split; [|done].
  intros k Hk. destruct (decide (k = Py.strip employee_id)) as [->|Hne].
  - rewrite lookup_insert_eq. eauto.
  - by rewrite lookup_insert_ne.
Qed.

Lemma update_employee_frame
    (self : EmployeeDatabase.t) (employee_id : string)
    (name : option string) (hourly_rate : option float)
    (dependents : option Z) (db : Sql.database) :
  let db' :=
    (EmployeeDatabase.update_employee self employee_id name hourly_rate
       dependents db).2 in
  (forall k, k <> employee_id ->
     Sql.employees db' !! k = Sql.employees db !! k) /\
  (forall k, is_Some (Sql.employees db !! k) ->
     is_Some (Sql.employees db' !! k)) /\
  Sql.time_entries db' = Sql.time_entries db.
Proof.
  unfold EmployeeDatabase.update_employee, Sql.bind, Sql.query, Sql.throw.
  destruct (EmployeeDatabase.get_employee _ _ _); [|done].
  destruct (bind_result _ _) as [[|a sets]|]; [done| |done].
  unfold Sql.update_employee.
  destruct (negb (forallb Sql.binds _)); [done|].
  destruct (Sql.employees db !! employee_id) eqn:He; [|done].
  destruct (Sql.first_violation Sql.not_null_of _); [done|].
  destruct (Sql.first_violation Sql.check_of _); [done|]. cbn.
  split; [by intros k Hk; rewrite lookup_insert_ne|]. split; [|done].
  intros k Hk. destruct (decide (k = employee_id)) as [->|Hne].
  - rewrite lookup_insert_eq. eauto.
  - by rewrite lookup_insert_ne.
Qed.

Lemma record_hours_frame
    (self : TimeTracker.t) (today : date) (employee_id : string)
    (hours_worked : float) (entry_date : option date) (db : Sql.database) :
  let db' :=
    (TimeTracker.record_hours self today employee_id hours_worked
       entry_date db).2 in
  Sql.employees db' = Sql.employees db /\
  exists new,
    Sql.time_entries db' = Sql.time_entries db ++ new /\
    Forall (fun t => Sql.employee_id t = employee_id /\
                     is_Some (Sql.employees db !! employee_id)) new.
Proof.
  assert (Hsame : Sql.employees db = Sql.employees db /\
            exists new,
              Sql.time_entries db = Sql.time_entries db ++ new /\
              Forall (fun t => Sql.employee_id t = employee_id /\
                               is_Some (Sql.employees db !! employee_id)) new).
  { split; [done|]. exists []. by rewrite app_nil_r. }
  unfold TimeTracker.record_hours, Sql.bind, Sql.query, Sql.throw.
  destruct (_ <? _)%float; [done|].
  unfold Sql.select_employee.
  destruct (Sql.employees db !! employee_id) as [e|] eqn:He; [|done]. cbn.
  unfold Sql.insert_time_entry.
  destruct (Sql.to_REAL _); [|done]. destruct (Sql.to_REAL _); [|done].
  destruct (negb _); [done|]. destruct (negb _); [done|].
  destruct (_ && _); [done|]. cbn. split; [done|].
  eexists [_]. split; [done|]. repeat constructor. cbn. eauto.
Qed.

(** The pay of an employee is a function of the employee's own row and
    own time entries. *)
Lemma calculate_employee_pay_ext
    (self : PayrollCalculator.t) (k : string) (db db' : Sql.database) :
  Sql.employees db' !! k = Sql.employees db !! k ->
  Sql.entries_of k db' = Sql.entries_of k db ->
  PayrollCalculator.calculate_employee_pay self k db'
  = PayrollCalculator.calculate_employee_pay self k db.
Proof.
  intros He Ht.
  unfold PayrollCalculator.calculate_employee_pay,
    EmployeeDatabase.get_employee, Sql.select_employee,
    TimeTracker.summarise_hours.
  by rewrite He, Ht.
Qed.

Lemma entries_of_other (k k' : string) (db db' : Sql.database)
    (new : list Sql.time_entry) :
  Sql.time_entries db' = Sql.time_entries db ++ new ->
  Forall (fun t => Sql.employee_id t = k' /\
                   is_Some (Sql.employees db !! k')) new ->
  k <> k' ->
  Sql.entries_of k db' = Sql.entries_of k db.
Proof.
  intros Happ Hnew Hk. unfold Sql.entries_of. rewrite Happ, filter_app.
  rewrite <- (app_nil_r (filter _ (Sql.time_entries db))) at 2. f_equal.
  clear Happ. induction Hnew as [|t ts [Ht _] _ IH]; [done|].
  rewrite filter_cons. destruct (decide _); [congruence|done].
Qed.

Lemma entries_of_delete_other
    (self : EmployeeDatabase.t) (k k' : string) (db : Sql.database) :
  k <> k' ->
  Sql.entries_of k (EmployeeDatabase.delete_employee self k' db).2
  = Sql.entries_of k db.
Proof.
  intros Hk.
  unfold EmployeeDatabase.delete_employee, Sql.delete_employee, Sql.entries_of.
  cbn. destruct (Sql.foreign_keys _); [|done].
  rewrite list_filter_filter. apply list_filter_iff.
  intros t. split; [by intros [? _]|]. intros Ht. split; [done|congruence].
Qed.

End Frames.

(** X11.  The pay of an employee depends on no other employee: adding,
    updating or deleting another employee, or recording hours for one,
    whether the call returns or raises, leaves the result of
    [calculate_employee_pay] for this one as it was, be it a pay result
    or the [KeyError]. *)
Theorem calculate_employee_pay_ignores_other_employees
    (self : PayrollCalculator.t) (emp_db : EmployeeDatabase.t)
    (tracker : TimeTracker.t) (today : date)
    (employee_id other : string) (db : Sql.database) :
  employee_id <> other -> employee_id <> Py.strip other ->
  let pay := PayrollCalculator.calculate_employee_pay self employee_id in
  (forall name hourly_rate dependents,
     pay (EmployeeDatabase.add_employee emp_db other name hourly_rate
            dependents db).2 = pay db) /\
  (forall name hourly_rate dependents,
     pay (EmployeeDatabase.update_employee emp_db other name hourly_rate
            dependents db).2 = pay db) /\
  pay (EmployeeDatabase.delete_employee emp_db other db).2 = pay db /\
  (forall hours_worked entry_date,
     pay (TimeTracker.record_hours tracker today other hours_worked
            entry_date db).2 = pay db).
Proof.
  intros Hother Hstrip pay. subst pay. split; [|split; [|split]].
  - intros name hourly_rate dependents.
    destruct (add_employee_frame emp_db other name hourly_rate dependents db)
      as (Hemp & _ & Hentries).
    apply calculate_employee_pay_ext; [by apply Hemp|].
    unfold Sql.entries_of. by rewrite Hentries.
  - intros name hourly_rate dependents.
    destruct (update_employee_frame emp_db other name hourly_rate dependents db)
      as (Hemp & _ & Hentries).
    apply calculate_employee_pay_ext; [by apply Hemp|].
    unfold Sql.entries_of. by rewrite Hentries.
  - apply calculate_employee_pay_ext; [|by apply entries_of_delete_other].
    unfold EmployeeDatabase.delete_employee, Sql.delete_employee. cbn.
    by rewrite lookup_delete_ne.
  - intros hours_worked entry_date.
    destruct (record_hours_frame tracker today other hours_worked entry_date db)
      as (Hemp & new & Happ & Hnew).
    apply calculate_employee_pay_ext; [by rewrite Hemp|].
    by apply entries_of_other with other new.
Qed.

Lemma calculate_employee_pay_ignores_other_employees_witness :
  PayrollCalculator.calculate_employee_pay (Sample.calc Sql.RunningSum) "T001"
    (Sample.db_T002_50 Sql.RunningSum)
  = PayrollCalculator.calculate_employee_pay (Sample.calc Sql.RunningSum) "T001"
      (Sample.db_T002 Sql.RunningSum).
Proof.
  destruct (calculate_employee_pay_ignores_other_employees
              (Sample.calc Sql.RunningSum) (Sample.emp_db Sql.RunningSum)
              (Sample.time_tracker Sql.RunningSum) Sample.today
              "T001" "T002" (Sample.db_T002 Sql.RunningSum))
    as (_ & _ & _ & Hrecord).
  - discriminate.
  - vm_compute. discriminate.
  - apply Hrecord.
Defined.

(** X12.  Referential integrity and the methods.  [add_employee],
    [update_employee] and [record_hours] keep every time entry attached
    to an employee that exists, whether they return or raise.
    [delete_employee] is the one method that does not: on the connection
    the program opens, deleting an employee that has a time entry leaves
    an entry without employee, in every database. *)
Theorem referential_integrity_and_the_methods
    (emp_db : EmployeeDatabase.t) (tracker : TimeTracker.t) (today : date)
    (employee_id : string) (db : Sql.database) :
  (referential db ->
   (forall name hourly_rate dependents,
      referential
        (EmployeeDatabase.add_employee emp_db employee_id name hourly_rate
           dependents db).2) /\
   (forall name hourly_rate dependents,
      referential
        (EmployeeDatabase.update_employee emp_db employee_id name hourly_rate
           dependents db).2) /\
   (forall hours_worked entry_date,
      referential
        (TimeTracker.record_hours tracker today employee_id hours_worked
           entry_date db).2)) /\
  (forall lib,
     Sql.entries_of employee_id db <> [] ->
     ~ referential
         (EmployeeDatabase.delete_employee (EmployeeDatabase.__init__ lib)
            employee_id db).2).
Proof.
  split.
  - intros Href. unfold referential in *. split; [|split].
    + intros name hourly_rate dependents.
      destruct (add_employee_frame emp_db employee_id name hourly_rate
                  dependents db) as (_ & Hkept & Hentries).
      cbv zeta in Hkept, Hentries. rewrite Hentries.
      eapply Forall_impl; [exact Href|]. intros t. apply Hkept.
    + intros name hourly_rate dependents.
      destruct (update_employee_frame emp_db employee_id name hourly_rate
                  dependents db) as (_ & Hkept & Hentries).
      cbv zeta in Hkept, Hentries. rewrite Hentries.
      eapply Forall_impl; [exact Href|]. intros t. apply Hkept.
    + intros hours_worked entry_date.
      destruct (record_hours_frame tracker today employee_id hours_worked
                  entry_date db) as (Hemp & new & Happ & Hnew).
      cbv zeta in Hemp, Happ. rewrite Happ, Hemp.
      apply Forall_app. split; [done|].
      eapply Forall_impl; [exact Hnew|]. by intros t [-> ?].
  - intros lib Hentries Href. apply Hentries. unfold referential in Href.
    unfold EmployeeDatabase.delete_employee, Sql.delete_employee in Href.
    cbn in Href. unfold Sql.entries_of.
    induction (Sql.time_entries db) as [|t ts IH]; [done|].
    apply Forall_cons in Href as [Ht Hts].
    rewrite filter_cons. destruct (decide (Sql.employee_id t = employee_id))
      as [<-|Hne]; [|by apply IH].
    rewrite lookup_delete_eq in Ht. by destruct Ht.
Qed.

Lemma referential_integrity_and_the_methods_witness :
  referential (Sample.db_T002_50 Sql.RunningSum) /\
  ~ referential (Sample.db_deleted Sql.RunningSum).
Proof.
  destruct (referential_integrity_and_the_methods
              (Sample.emp_db Sql.RunningSum)
              (Sample.time_tracker Sql.RunningSum) Sample.today "T002"
              (Sample.db_T002 Sql.RunningSum)) as [Hkept _].
  destruct (referential_integrity_and_the_methods
              (Sample.emp_db Sql.RunningSum)
              (Sample.time_tracker Sql.RunningSum) Sample.today "T002"
              (Sample.db_T002_50 Sql.RunningSum)) as [_ Hbroken].
  split.
  - apply Hkept. constructor.
  - apply (Hbroken Sql.RunningSum). vm_compute. discriminate.
Defined.

(* ===================================================================== *)
(** ** Pay without dependents and without entries *)
(* ===================================================================== *)

(** X13.  The number of dependents has no part in the pay: it is stored
    and never read by the calculation.  An update of the dependents alone
    that returns leaves the pay result of the employee as it was, field
    by field. *)
Theorem calculate_employee_pay_ignores_dependents
    (self : PayrollCalculator.t) (emp_db : EmployeeDatabase.t)
    (employee_id : string) (dependents : Z) (db db' : Sql.database) :
  EmployeeDatabase.update_employee emp_db employee_id None None
    (Some dependents) db = (Ok tt, db') ->
  PayrollCalculator.calculate_employee_pay self employee_id db'
  = PayrollCalculator.calculate_employee_pay self employee_id db.
Proof.
  unfold EmployeeDatabase.update_employee, Sql.bind, Sql.query, Sql.throw.
  unfold EmployeeDatabase.get_employee, Sql.select_employee.
  destruct (Sql.employees db !! employee_id) as [e|] eqn:He; [|done]. cbn.
  destruct (dependents <? 0) eqn:Hd; [done|]. cbn.
  unfold Sql.update_employee. cbn [forallb Sql.binds andb].
  destruct (Sql.fits_INTEGER dependents); [|done].
  rewrite He. cbn. rewrite Hd.
  intros [= <-].
  unfold PayrollCalculator.calculate_employee_pay,
    EmployeeDatabase.get_employee, Sql.select_employee,
    TimeTracker.summarise_hours, Sql.entries_of.
  cbn. by rewrite lookup_insert_eq, He.
Qed.

Lemma calculate_employee_pay_ignores_dependents_witness :
  PayrollCalculator.calculate_employee_pay (Sample.calc Sql.RunningSum) "T002"
    (Sample.after
       (EmployeeDatabase.update_employee (Sample.emp_db Sql.RunningSum) "T002"
          None None (Some 4))
       (Sample.db_T002_50 Sql.RunningSum))
  = PayrollCalculator.calculate_employee_pay (Sample.calc Sql.RunningSum) "T002"
      (Sample.db_T002_50 Sql.RunningSum).
Proof.
  apply (calculate_employee_pay_ignores_dependents
           (Sample.calc Sql.RunningSum) (Sample.emp_db Sql.RunningSum)
           "T002" 4).
  vm_compute. reflexivity.
Defined.

(** X14.  An employee without time entries is paid nothing: with a finite
    rate, hours, gross pay, taxes and net pay are all 0.0.  (With the
    rate [inf], which [add_employee] accepts, the products are NaN.) *)
Theorem calculate_employee_pay_without_entries
    (self : PayrollCalculator.t) (employee_id : string) (row : Sql.Row)
    (db : Sql.database) :
  EmployeeDatabase.get_employee (PayrollCalculator.employee_db self)
    employee_id db = Some row ->
  Sql.to_REAL (Sql.hourly_rate row) = Some (Sql.hourly_rate row) ->
  Binary64.is_finite (Sql.hourly_rate row) = true ->
  (Binary64.zero <=? Sql.hourly_rate row)%float = true ->
  Sql.entries_of employee_id db = [] ->
  PayrollCalculator.calculate_employee_pay self employee_id db
  = Ok {| employee_id := employee_id;
          name := Sql.name row;
          hours_worked := Binary64.zero;
          hourly_rate := Sql.hourly_rate row;
          regular_hours := Binary64.zero;
          overtime_hours := Binary64.zero;
          gross_pay := Binary64.zero;
          state_tax := Binary64.zero;
          federal_tax := Binary64.zero;
          net_pay := Binary64.zero |}.
Proof.
  intros Hrow Hreal Hfinite Hrate Hnone.
  unfold PayrollCalculator.calculate_employee_pay. rewrite Hrow.
  unfold TimeTracker.summarise_hours. rewrite Hnone. cbn [fmap list_fmap].
  change (Sql.SUM _ []) with (@None float). cbn [Py.or_else].
  by destruct (Sql.hourly_rate row) as [[]|[]| |[] m e].
Qed.

Lemma calculate_employee_pay_without_entries_witness :
  PayrollCalculator.calculate_employee_pay (Sample.calc Sql.RunningSum) "T001"
    (Sample.db_T002_50 Sql.RunningSum)
  = Ok {| employee_id := "T001";
          name := "Test User";
          hours_worked := Binary64.zero;
          hourly_rate := Binary64.of_Z 25;
          regular_hours := Binary64.zero;
          overtime_hours := Binary64.zero;
          gross_pay := Binary64.zero;
          state_tax := Binary64.zero;
          federal_tax := Binary64.zero;
          net_pay := Binary64.zero |}.
Proof.
  apply (calculate_employee_pay_without_entries
           (Sample.calc Sql.RunningSum) "T001"
           (Sql.MkRow "T001" "Test User" (Binary64.of_Z 25) 0)).
  - vm_compute. reflexivity.
  - reflexivity.
  - reflexivity.
  - reflexivity.
  - vm_compute. reflexivity.
Defined.

(** At the rate [inf] the amounts of an employee without entries are
    NaN. *)
Lemma calculate_employee_pay_infinite_rate (lib : Sql.summation) :
  PayrollCalculator.calculate_employee_pay (Sample.calc lib) "E00F"
    (Sample.after
       (EmployeeDatabase.add_employee (Sample.emp_db lib) "E00F" "Inf User"
          (S754_infinity false) 0) Sql.empty)
  = Ok {| employee_id := "E00F";
          name := "Inf User";
          hours_worked := Binary64.zero;
          hourly_rate := S754_infinity false;
          regular_hours := Binary64.zero;
          overtime_hours := Binary64.zero;
          gross_pay := S754_nan;
          state_tax := S754_nan;
          federal_tax := S754_nan;
          net_pay := S754_nan |}.
Proof. destruct lib; vm_compute; reflexivity. Qed.

(* ===================================================================== *)
(** ** The sign of the amounts *)
(* ===================================================================== *)

Section Signs.

(** Rounding a value that is not negative gives no negative float. *)
Lemma binary_round_aux_not_negative (m e : Z) (l : location) :
  not_negative (binary_round_aux Binary64.prec Binary64.emax false m e l).
Proof.
  unfold binary_round_aux.
  destruct (shr_fexp _ _ _ _ _) as [mrs' e'].
  destruct (shr_fexp _ _ _ _ _) as [mrs'' e''].
  destruct (shr_m mrs''); [by right| |by left].
  destruct (_ <=? _); by right.
Qed.

Lemma mul_not_negative (x y : float) :
  not_negative x -> not_negative y -> not_negative (x * y)%float.
Proof.
  intros [->|Hx] [->|Hy]; [by left|by left|by left; destruct x|].
  destruct x as [sx|[]| |[] mx ex]; try done;
    destruct y as [sy|[]| |[] my ey]; try done;
    try (by left); try (by right).
  apply binary_round_aux_not_negative.
Qed.

Lemma add_not_negative (x y : float) :
  not_negative x -> not_negative y -> not_negative (x + y)%float.
Proof.
  intros [->|Hx] [->|Hy]; [by left|by left|by left; destruct x|].
  destruct x as [sx|[]| |[] mx ex]; try done;
    destruct y as [sy|[]| |[] my ey]; try done;
    try (by left); try (by right);
    try (by right; destruct sx, sy).
  unfold Binary64.add, SFadd. cbn [cond_Zopp].
  change (Z.pos ?a + Z.pos ?b) with (Z.pos (a + b)).
  cbn [binary_normalize]. unfold binary_round.
  destruct (shl_align (_ + _) _ _). apply binary_round_aux_not_negative.
Qed.

Lemma round2_not_negative (x : float) :
  not_negative x -> not_negative (Py.round2 x).
Proof.
  intros [->|Hx]; [by left|].
  destruct x as [sx|[]| |[] m e]; try done; try (by right).
  unfold Py.round2. destruct (0 <=? e); [by right|].
  destruct (Py.div_half_even _ _); [by right| |by right].
  unfold SFdiv. destruct (SFdiv_core_binary _ _ _ _ _ _) as [[mz ez] lz].
  apply binary_round_aux_not_negative.
Qed.

(** The running sum of floats that are not negative is not negative. *)
Lemma running_sum_not_negative (xs : list float) (acc : float) :
  Forall (fun x => (Binary64.zero <=? x)%float = true) xs ->
  not_negative acc ->
  not_negative (fold_left Binary64.add xs acc).
Proof.
  intros Hxs. revert acc. induction Hxs as [|x xs Hx _ IH]; intros acc Hacc.
  - done.
  - cbn. apply IH, add_not_negative; [done|by right].
Qed.

(** [SUM(...) or 0.0] over such floats is at least zero. *)
Lemma or_else_running_SUM_nonneg (xs : list float) :
  Forall (fun x => (Binary64.zero <=? x)%float = true) xs ->
  (Binary64.zero
   <=? Py.or_else (Sql.SUM Sql.RunningSum xs) Binary64.zero)%float = true.
Proof.
  intros Hxs. unfold Sql.SUM. destruct xs as [|x xs]; [done|].
  pose proof (running_sum_not_negative (x :: xs) Binary64.zero Hxs
                (or_intror eq_refl)) as [Hnan|Hsum].
  - unfold Sql.sum_floats. by rewrite Hnan.
  - unfold Sql.sum_floats.
    destruct (fold_left Binary64.add (x :: xs) Binary64.zero)
      as [[]|[]| |[] m e]; done.
Qed.

End Signs.

(** X15.  No negative pay.  Where SQLite adds the hours with the running
    sum, in every database the methods can produce and for every
    employee, the regular and the overtime hours of the pay result are at
    least zero, and the total hours, the gross pay, the state tax and the
    federal tax are never negative numbers: each is at least zero, or a
    NaN (which an infinite rate or infinite hours can give). *)
Theorem pay_is_never_negative
    (self : PayrollCalculator.t) (employee_id : string) (pay : PayResult)
    (db : Sql.database) :
  reachable db ->
  Sql.sum_algorithm (TimeTracker._conn (PayrollCalculator.time_tracker self))
    = Sql.RunningSum ->
  PayrollCalculator.calculate_employee_pay self employee_id db = Ok pay ->
  (Binary64.zero <=? regular_hours pay)%float = true /\
  (Binary64.zero <=? overtime_hours pay)%float = true /\
  not_negative (hours_worked pay) /\
  not_negative (gross_pay pay) /\
  not_negative (state_tax pay) /\
  not_negative (federal_tax pay).
Proof.
  intros (Hemp & Hentries & _)%reachable_consistent Hlib.
  unfold PayrollCalculator.calculate_employee_pay,
    EmployeeDatabase.get_employee, Sql.select_employee.
  destruct (Sql.employees db !! employee_id) as [e|] eqn:He; [|done].
  apply (proj1 (map_Forall_lookup _ _) Hemp) in He
    as (_ & _ & _ & _ & _ & Hrate & _).
  unfold TimeTracker.summarise_hours. rewrite Hlib.
  cbn [fmap option_fmap option_map].
  assert (Hmine : Forall (entry_ok (Sql.entry_seq db))
                    (Sql.entries_of employee_id db)).
  { apply Forall_forall. intros t [_ Hin]%list_elem_of_filter.
    by apply (proj1 (Forall_forall _ _) Hentries). }
  assert (Hreg : (Binary64.zero
                  <=? Py.or_else
                        (Sql.SUM Sql.RunningSum
                           (Sql.regular_hours
                              <$> Sql.entries_of employee_id db))
                        Binary64.zero)%float = true).
  { apply or_else_running_SUM_nonneg, Forall_fmap.
    eapply Forall_impl; [exact Hmine|]. by intros t (_ & _ & ? & _). }
  assert (Hot : (Binary64.zero
                 <=? Py.or_else
                       (Sql.SUM Sql.RunningSum
                          (Sql.overtime_hours
                             <$> Sql.entries_of employee_id db))
                       Binary64.zero)%float = true).
  { apply or_else_running_SUM_nonneg, Forall_fmap.
    eapply Forall_impl; [exact Hmine|]. by intros t (_ & _ & _ & _ & ?). }
  set (reg := Py.or_else (Sql.SUM _ (Sql.regular_hours <$> _)) _) in *.
  set (ot := Py.or_else (Sql.SUM _ (Sql.overtime_hours <$> _)) _) in *.
  intros [= <-]. cbn.
  assert (Hgross : not_negative
                     (PayrollCalculator.gross reg ot (Sql.emp_hourly_rate e))).
  { unfold PayrollCalculator.gross.
    apply add_not_negative; repeat apply mul_not_negative;
      by right. }
  split; [done|]. split; [done|].
  split; [apply add_not_negative; by right|].
  split; [by apply round2_not_negative|].
  split; apply round2_not_negative, mul_not_negative; try done; by right.
Qed.

Lemma pay_is_never_negative_witness :
  exists pay,
    PayrollCalculator.calculate_employee_pay (Sample.calc Sql.RunningSum)
      "T002" (Sample.db_T002_50 Sql.RunningSum) = Ok pay /\
    not_negative (gross_pay pay).
Proof.
  eexists. split; [vm_compute; reflexivity|].
  eapply (pay_is_never_negative (Sample.calc Sql.RunningSum) "T002" _
            (Sample.db_T002_50 Sql.RunningSum)).
  - apply reachable_record, reachable_add, reachable_add, reachable_empty.
  - reflexivity.
  - vm_compute. reflexivity.
Defined.

(* ===================================================================== *)
(** ** Sums of hours, and the hours of an id that is added again *)
(* ===================================================================== *)

Section Sums.

(** [SUM(...) or 0.0] is a float a REAL column could hold: [None] and
    both zeros become 0.0, and a NaN sum has arrived as [None]. *)
Lemma or_else_SUM_real_value (a : Sql.summation) (xs : list float) :
  real_value (Py.or_else (Sql.SUM a xs) Binary64.zero).
Proof.
  unfold Sql.SUM. destruct xs as [|x xs]; [done|].
  destruct (Sql.sum_floats a (x :: xs)) as [[]|[]| |[] m e]; done.
Qed.

End Sums.

(** X16.  [summarise_hours] never returns a NaN or a negative zero, in
    any database and with either way of adding floats: a sum SQLite
    reports as NULL, be it over no entry or a NaN, and a zero sum are
    replaced by 0.0. *)
Theorem summarise_hours_returns_real_values
    (self : TimeTracker.t) (employee_id : string) (db : Sql.database) :
  real_value (TimeTracker.summarise_hours self employee_id db).1 /\
  real_value (TimeTracker.summarise_hours self employee_id db).2.
Proof.
  unfold TimeTracker.summarise_hours. cbn [fst snd].
  split; apply or_else_SUM_real_value.
Qed.

(** X17.  An id that is deleted and added again inherits the hours
    recorded under it.  On the connection the program opens, after
    [delete_employee] and a later [add_employee] for the same trimmed id,
    [get_time_entries] and [summarise_hours] return for that id what they
    returned before the delete; and when the second call has valid
    arguments, the pay of the new employee is calculated from those old
    hours. *)
Theorem readded_employee_inherits_time_entries
    (lib : Sql.summation) (self : PayrollCalculator.t)
    (employee_id new_name : string) (hourly_rate : float) (dependents : Z)
    (db : Sql.database) :
  let emp_db := EmployeeDatabase.__init__ lib in
  let tracker := PayrollCalculator.time_tracker self in
  let k := Py.strip employee_id in
  let db' :=
    (EmployeeDatabase.add_employee emp_db employee_id new_name hourly_rate
       dependents (EmployeeDatabase.delete_employee emp_db k db).2).2 in
  TimeTracker.get_time_entries tracker k db'
  = TimeTracker.get_time_entries tracker k db /\
  TimeTracker.summarise_hours tracker k db'
  = TimeTracker.summarise_hours tracker k db /\
  (k <> "" -> valid_name new_name -> valid_rate hourly_rate ->
   0 <= dependents < 2 ^ 63 ->
   exists pay,
     PayrollCalculator.calculate_employee_pay self k db' = Ok pay /\
     name pay = Py.strip new_name /\
     regular_hours pay = (TimeTracker.summarise_hours tracker k db).1 /\
     overtime_hours pay = (TimeTracker.summarise_hours tracker k db).2).
Proof.
  intros emp_db tracker k db'.
  destruct (add_employee_frame emp_db employee_id new_name hourly_rate
              dependents (EmployeeDatabase.delete_employee emp_db k db).2)
    as (_ & _ & Hentries).
  fold db' in Hentries.
  assert (Hsame : Sql.entries_of k db' = Sql.entries_of k db).
  { unfold Sql.entries_of. by rewrite Hentries. }
  assert (Hsum : TimeTracker.summarise_hours tracker k db'
                 = TimeTracker.summarise_hours tracker k db).
  { unfold TimeTracker.summarise_hours. by rewrite Hsame. }
  split; [|split; [exact Hsum|]].
  - unfold TimeTracker.get_time_entries, Sql.select_entries_by_date.
    by rewrite Hsame.
  - intros Hid Hname Hrate Hdeps.
    assert (Hfree : EmployeeDatabase.get_employee emp_db k
                      (EmployeeDatabase.delete_employee emp_db k db).2 = None).
    { unfold EmployeeDatabase.get_employee, Sql.select_employee. cbn.
      by rewrite lookup_delete_eq. }
    pose proof (add_employee_inserts emp_db employee_id new_name hourly_rate
                  dependents _ Hid Hname Hrate Hdeps Hfree) as Hadd.
    unfold PayrollCalculator.calculate_employee_pay,
      EmployeeDatabase.get_employee, Sql.select_employee.
    fold tracker. rewrite Hsum. subst db'. fold k in Hadd. rewrite Hadd.
    cbn [snd Sql.employees]. rewrite lookup_insert_eq.
    cbn [fmap option_fmap option_map].
    destruct (TimeTracker.summarise_hours tracker k db) as [reg ot].
    eexists. split; [reflexivity|]. done.
Qed.

Lemma readded_employee_inherits_time_entries_witness :
  exists pay,
    PayrollCalculator.calculate_employee_pay (Sample.calc Sql.RunningSum)
      "T002"
      (Sample.after
         (EmployeeDatabase.add_employee (Sample.emp_db Sql.RunningSum)
            "T002" "New Hire" (Binary64.of_Z 12) 0)
         (Sample.db_deleted Sql.RunningSum))
    = Ok pay /\
    name pay = "New Hire" /\
    regular_hours pay = Binary64.of_Z 40 /\
    overtime_hours pay = Binary64.of_Z 10.
Proof.
  destruct (readded_employee_inherits_time_entries Sql.RunningSum
              (Sample.calc Sql.RunningSum) "T002" "New Hire"
              (Binary64.of_Z 12) 0 (Sample.db_T002_50 Sql.RunningSum))
    as (_ & _ & Hpay).
  destruct Hpay as (pay & Hok & Hname & Hreg & Hot).
  - vm_compute. discriminate.
  - vm_compute. discriminate.
  - vm_compute. reflexivity.
  - lia.
  - exists pay. split; [exact Hok|]. split; [exact Hname|].
    split; [rewrite Hreg|rewrite Hot]; vm_compute; reflexivity.
Defined.

(* ===================================================================== *)
(** ** Dates and the order of time entries *)
(* ===================================================================== *)

Section DateOrder.

Lemma digit_compare (x y : Z) :
  Ascii.compare (Py.digit x) (Py.digit y) = (x mod 10 ?= y mod 10).
Proof.
  unfold Ascii.compare, Py.digit.
  pose proof (Z.mod_pos_bound x 10 eq_refl) as Hx.
  pose proof (Z.mod_pos_bound y 10 eq_refl) as Hy.
  rewrite !N_ascii_embedding by lia.
  rewrite Z2N.inj_compare by lia.
  apply Z.add_compare_mono_l.
Qed.

Lemma lexicographic_compare (q1 r1 q2 r2 b : Z) :
  0 <= r1 < b -> 0 <= r2 < b ->
  match q1 ?= q2 with Eq => r1 ?= r2 | c => c end
  = (q1 * b + r1 ?= q2 * b + r2).
Proof.
  intros Hr1 Hr2. symmetry.
  destruct (Z.compare_spec q1 q2) as [->|Hlt|Hgt].
  - apply Z.add_compare_mono_l.
  - apply Z.compare_lt_iff. nia.
  - apply Z.compare_gt_iff. nia.
Qed.

(** Two digits compare as the numbers below 100 they write. *)
Lemma digits2_compare (a b : Z) (s t : string) :
  0 <= a < 100 -> 0 <= b < 100 ->
  String.compare (Py.digits2 a ++ s) (Py.digits2 b ++ t)
  = match a ?= b with Eq => String.compare s t | c => c end.
Proof.
  intros Ha Hb. unfold Py.digits2.
  change (String.compare (String ?c1 (String ?c2 "") ++ s)
            (String ?c3 (String ?c4 "") ++ t))
    with (match Ascii.compare c1 c3 with
          | Eq => match Ascii.compare c2 c4 with
                  | Eq => String.compare s t
                  | c => c
                  end
          | c => c
          end).
  rewrite !digit_compare.
  rewrite (Z.mod_small (a / 10) 10), (Z.mod_small (b / 10) 10)
    by (split; [apply Z.div_pos|apply Z.div_lt_upper_bound]; lia).
  pose proof (lexicographic_compare (a / 10) (a mod 10) (b / 10) (b mod 10) 10
                (Z.mod_pos_bound a 10 eq_refl) (Z.mod_pos_bound b 10 eq_refl))
    as Hlex.
  rewrite (Z.mul_comm (a / 10)), (Z.mul_comm (b / 10)) in Hlex.
  rewrite <- !Z.div_mod in Hlex by lia. rewrite <- Hlex.
  destruct (a / 10 ?= b / 10); [|done|done].
  by destruct (a mod 10 ?= b mod 10).
Qed.

(** The last two digits of a number are those of its remainder by 100. *)
Lemma digits2_mod (n : Z) : Py.digits2 n = Py.digits2 (n mod 100).
Proof.
  unfold Py.digits2, Py.digit.
  assert (H1 : (n / 10) mod 10 = (n mod 100 / 10) mod 10)
    by (Z.div_mod_to_equations; lia).
  assert (H0 : n mod 10 = (n mod 100) mod 10)
    by (Z.div_mod_to_equations; lia).
  by rewrite <- H1, <- H0.
Qed.

End DateOrder.

(** X18.  The texts [record_hours] stores for dates sort as the dates do:
    for two dates of [datetime.date], comparing the [isoformat()] texts
    character by character, as [ORDER BY entry_date] does, gives the
    chronological order, and equal texts come from equal dates only. *)
Theorem isoformat_order_is_chronological (d1 d2 : date) :
  valid_date d1 -> valid_date d2 ->
  String.compare (Py.isoformat d1) (Py.isoformat d2) = date_compare d1 d2 /\
  (Py.isoformat d1 = Py.isoformat d2 -> d1 = d2).
Proof.
  intros (Hy1 & Hm1 & Hd1) (Hy2 & Hm2 & Hd2).
  assert (Hcompare : String.compare (Py.isoformat d1) (Py.isoformat d2)
                     = date_compare d1 d2).
  { unfold Py.isoformat, date_compare.
    rewrite (digits2_mod (Py.year d1)), (digits2_mod (Py.year d2)).
    rewrite digits2_compare
      by (split; [apply Z.div_pos|apply Z.div_lt_upper_bound]; lia).
    rewrite digits2_compare by (apply Z.mod_pos_bound; lia).
    change (String.compare ("-" ++ ?s) ("-" ++ ?t)) with (String.compare s t).
    rewrite digits2_compare by lia.
    change (String.compare ("-" ++ ?s) ("-" ++ ?t)) with (String.compare s t).
    change (Py.digits2 (Py.day d1)) with (Py.digits2 (Py.day d1) ++ "")%string.
    change (Py.digits2 (Py.day d2)) with (Py.digits2 (Py.day d2) ++ "")%string.
    rewrite digits2_compare by lia. cbn [String.compare].
    pose proof (lexicographic_compare
                  (Py.year d1 / 100) (Py.year d1 mod 100)
                  (Py.year d2 / 100) (Py.year d2 mod 100) 100
                  (Z.mod_pos_bound _ 100 eq_refl)
                  (Z.mod_pos_bound _ 100 eq_refl)) as Hlex.
    rewrite (Z.mul_comm (Py.year d1 / 100)), (Z.mul_comm (Py.year d2 / 100))
      in Hlex.
    rewrite <- !Z.div_mod in Hlex by lia. rewrite <- Hlex.
    destruct (Py.year d1 / 100 ?= Py.year d2 / 100); [|done|done].
    destruct (Py.year d1 mod 100 ?= Py.year d2 mod 100); [|done|done].
    destruct (Py.month d1 ?= Py.month d2); [|done|done].
    by destruct (Py.day d1 ?= Py.day d2). }
  split; [exact Hcompare|].
  intros Heq. rewrite Heq, string_compare_refl in Hcompare.
  unfold date_compare in Hcompare.
  destruct d1 as [y1 m1 day1], d2 as [y2 m2 day2]. cbn in *.
  destruct (Z.compare_spec y1 y2); [|done|done].
  destruct (Z.compare_spec m1 m2); [|done|done].
  destruct (Z.compare_spec day1 day2); [|done|done].
  congruence.
Qed.

Lemma isoformat_order_is_chronological_witness :
  String.compare (Py.isoformat (Py.Date 2024 12 31))
    (Py.isoformat (Py.Date 2025 1 15)) = Lt.
Proof.
  destruct (isoformat_order_is_chronological
              (Py.Date 2024 12 31) (Py.Date 2025 1 15)) as [Hcompare _].
  - unfold valid_date. cbn. lia.
  - unfold valid_date. cbn. lia.
  - rewrite Hcompare. reflexivity.
Defined.

(** X19.  [record_hours] followed by [get_time_entries]: after a call
    that returns, the entries of the employee are the earlier ones and
    the new one, which carries a fresh [entry_id], the date given (today's
    without one) in ISO format and the split of the hours; they come back
    in ascending order of the date text, and the entries of every other
    employee are as before. *)
Theorem record_hours_then_get_time_entries
    (self : TimeTracker.t) (today : date) (employee_id : string)
    (hours_worked : float) (entry_date : option date)
    (db db' : Sql.database) :
  TimeTracker.record_hours self today employee_id hours_worked entry_date db
  = (Ok tt, db') ->
  TimeTracker.get_time_entries self employee_id db'
    ≡ₚ Sql.TimeEntry (Sql.entry_seq db + 1) employee_id
         (Py.isoformat (default today entry_date))
         (as_stored (TimeTracker.reg_hours self hours_worked))
         (as_stored (TimeTracker.ot_hours self hours_worked))
       :: TimeTracker.get_time_entries self employee_id db /\
  StronglySorted Sql.date_le
    (TimeTracker.get_time_entries self employee_id db') /\
  (forall other, other <> employee_id ->
     TimeTracker.get_time_entries self other db'
     = TimeTracker.get_time_entries self other db).
Proof.
  intros Hok.
  pose proof (record_hours_frame self today employee_id hours_worked
                entry_date db) as Hframe.
  rewrite Hok in Hframe. destruct Hframe as (_ & new & Happ & Hnew).
  apply record_hours_Ok in Hok as [_ Hentries].
  unfold TimeTracker.get_time_entries.
  split; [|split].
  - rewrite !select_entries_by_date_Permutation.
    rewrite (entries_of_app employee_id db db' _ Hentries)
      by (by repeat constructor).
    by rewrite Permutation_app_comm.
  - apply select_entries_by_date_sorted.
  - intros other Hother. unfold Sql.select_entries_by_date. f_equal.
    by apply entries_of_other with employee_id new.
Qed.

Lemma record_hours_then_get_time_entries_witness :
  TimeTracker.get_time_entries (Sample.time_tracker Sql.RunningSum) "T002"
    (Sample.db_T002_50 Sql.RunningSum)
  ≡ₚ [Sql.TimeEntry 1 "T002" "2025-01-15"
        (Binary64.of_Z 40) (Binary64.of_Z 10)].
Proof.
  destruct (record_hours_then_get_time_entries
              (Sample.time_tracker Sql.RunningSum) Sample.today "T002"
              (Binary64.of_Z 50) None (Sample.db_T002 Sql.RunningSum)
              (Sample.db_T002_50 Sql.RunningSum)) as (Hnew & _).
  - vm_compute. reflexivity.
  - rewrite Hnew. vm_compute. reflexivity.
Defined.

(* ===================================================================== *)
(** ** The payroll report *)
(* ===================================================================== *)

Section ReportFacts.

(** The loop of the report is a map over the pay results. *)
Lemma append_rows_map (pay_results : list PayResult)
    (report : list Report.row) :
  Report.append_rows pay_results report
  = report ++ (Report.row_of <$> pay_results).
Proof.
  revert report. induction pay_results as [|pay rest IH]; intros report; cbn.
  - by rewrite app_nil_r.
  - by rewrite IH, <- app_assoc.
Qed.

End ReportFacts.

(** X20.  [generate_payroll_report] never raises, in any database.  The
    report has one dictionary per employee of [list_employees], in the
    order of that list, ascending by id; every dictionary has the same
    ten keys in the same order, and its values are the fields of the pay
    result [calculate_employee_pay] returns for that employee. *)
Theorem generate_payroll_report_rows
    (calculator : PayrollCalculator.t) (db : Sql.database) :
  exists report,
    Report.generate_payroll_report calculator db = Ok report /\
    Forall2
      (fun row (r : Report.row) =>
         exists pay,
           PayrollCalculator.calculate_employee_pay calculator (Sql.id row) db
           = Ok pay /\
           r = [ ("Employee ID", Report.Str (Sql.id row));
                 ("Name", Report.Str (Sql.name row));
                 ("Hours Worked", Report.Num (hours_worked pay));
                 ("Regular Hours", Report.Num (regular_hours pay));
                 ("Overtime Hours", Report.Num (overtime_hours pay));
                 ("Hourly Rate", Report.Num (Sql.hourly_rate row));
                 ("Gross Pay", Report.Num (gross_pay pay));
                 ("State Tax", Report.Num (state_tax pay));
                 ("Federal Tax", Report.Num (federal_tax pay));
                 ("Net Pay", Report.Num (net_pay pay)) ])
      (EmployeeDatabase.list_employees
         (PayrollCalculator.employee_db calculator) db)
      report /\
    Forall
      (fun r : Report.row =>
         r.*1 = [ "Employee ID"; "Name"; "Hours Worked"; "Regular Hours";
                  "Overtime Hours"; "Hourly Rate"; "Gross Pay"; "State Tax";
                  "Federal Tax"; "Net Pay" ])
      report.
Proof.
  unfold Report.generate_payroll_report, PayrollCalculator.calculate_all.
  destruct (calculate_rows_spec calculator db
              (EmployeeDatabase.list_employees
                 (PayrollCalculator.employee_db calculator) db) [])
    as (pays & Hall & Hpays).
  { intros row Hin. apply list_employees_lookup in Hin.
    by apply calculate_employee_pay_exists with row. }
  rewrite Hall. cbn [bind_result app]. rewrite append_rows_map. cbn [app].
  exists (Report.row_of <$> pays). split; [done|]. split.
  - assert (Hrows : Forall (fun row =>
              EmployeeDatabase.get_employee
                (PayrollCalculator.employee_db calculator) (Sql.id row) db
              = Some row)
              (EmployeeDatabase.list_employees
                 (PayrollCalculator.employee_db calculator) db)).
    { apply Forall_forall. intros row Hin. by apply list_employees_lookup. }
    clear Hall. induction Hpays as [|row pay rows pays Hpay _ IH];
      [constructor|].
    apply Forall_cons in Hrows as [Hrow Hrows]. cbn [fmap list_fmap].
    constructor; [|by apply IH].
    exists pay. split; [done|].
    unfold PayrollCalculator.calculate_employee_pay in Hpay.
    rewrite Hrow in Hpay.
    destruct (TimeTracker.summarise_hours _ _ _). by injection Hpay as <-.
  - apply Forall_fmap, Forall_forall. by intros pay _.
Qed.

(* ===================================================================== *)
(** ** The unit tests *)
(* ===================================================================== *)

(** X21.  The unit tests of the module pass: on a new database file
    [_run_tests] raises no [AssertionError] and no other exception and
    reaches its last statement, with either way SQLite adds floats in
    [SUM] and whatever the date of the run. *)
Theorem run_tests_reaches_all_tests_passed
    (lib : Sql.summation) (today : date) :
  Tests._run_tests lib today = Tests.AllTestsPassed.
Proof. destruct lib; vm_compute; reflexivity. Qed.
